(** * share-file: the browser-side glue of the subtitle tool and its admin panel

    A shallow embedding of [static/js/main.js] and [static/js/admin.js].
    Both scripts are event-driven jQuery code: handlers read and write the
    document, issue asynchronous requests and arm timers.  The embedding makes
    that state explicit:

    - the document is a record holding the parts the handlers touch;
    - a request is appended to a log together with the callback that waits
      for its answer, and the answer is a later event;
    - [setTimeout] and [setInterval] put a timer in a queue, and the firing
      of a timer is a later event, accepted only once the timer is due.

    Strings are byte strings (the scripts' literals are kept as their UTF-8
    bytes). *)

From Stdlib Require Import String Ascii List Bool Arith Lia.
From stdpp Require Import base option list gmap strings pretty.

(** ** Text helpers: the [String.prototype] methods the scripts call *)

Module Text.

(** White space stripped by [trim]: the WhiteSpace and LineTerminator
    characters of ECMAScript, each recognised by its UTF-8 bytes. *)

(** TAB, LF, VT, FF, CR and SPACE. *)
Definition is_white_space (c : ascii) : bool :=
  let n := nat_of_ascii c in
  ((9 <=? n) && (n <=? 13)) || (n =? 32).

(** U+00A0, the bytes C2 A0. *)
Definition is_white_space2 (c d : ascii) : bool :=
  (nat_of_ascii c =? 194) && (nat_of_ascii d =? 160).

(** U+1680 (E1 9A 80); U+2000 to U+200A, U+2028, U+2029 and U+202F
    (E2 80 80 to 8A, A8, A9, AF); U+205F (E2 81 9F); U+3000 (E3 80 80);
    U+FEFF (EF BB BF). *)
Definition is_white_space3 (c d e : ascii) : bool :=
  let a := nat_of_ascii c in
  let b := nat_of_ascii d in
  let n := nat_of_ascii e in
  ((a =? 225) && (b =? 154) && (n =? 128))
  || ((a =? 226) && (b =? 128)
      && (((128 <=? n) && (n <=? 138)) || (n =? 168) || (n =? 169) || (n =? 175)))
  || ((a =? 226) && (b =? 129) && (n =? 159))
  || ((a =? 227) && (b =? 128) && (n =? 128))
  || ((a =? 239) && (b =? 187) && (n =? 191)).

Fixpoint trim_start (s : string) : string :=
  match s with
  | EmptyString => EmptyString
  | String c s1 =>
      if is_white_space c then trim_start s1
      else
        match s1 with
        | String d s2 =>
            if is_white_space2 c d then trim_start s2
            else
              match s2 with
              | String e s3 => if is_white_space3 c d e then trim_start s3 else s
              | EmptyString => s
              end
        | EmptyString => s
        end
  end.

(** The string is one white space character. *)
Definition is_one_white_space (s : string) : bool :=
  match s with
  | String c EmptyString => is_white_space c
  | String c (String d EmptyString) => is_white_space2 c d
  | String c (String d (String e EmptyString)) => is_white_space3 c d e
  | _ => false
  end.

(** What is left of [c] and the trimmed rest is dropped when it is one white
    space character: its first byte [c] and the bytes that follow it. *)
Fixpoint trim_end (s : string) : string :=
  match s with
  | EmptyString => EmptyString
  | String c s' =>
      let t := String c (trim_end s') in
      if is_one_white_space t then EmptyString else t
  end.

(** [s.trim()] *)
Definition trim (s : string) : string := trim_end (trim_start s).

(** [s.replace(/,/g, ';')] *)
Fixpoint replace_commas (s : string) : string :=
  match s with
  | EmptyString => EmptyString
  | String c s' =>
      String (if Ascii.eqb c "," then ";"%char else c) (replace_commas s')
  end.

(** [s.includes(c)] for a one-character needle. *)
Fixpoint contains_char (c : ascii) (s : string) : bool :=
  match s with
  | EmptyString => false
  | String d s' => Ascii.eqb c d || contains_char c s'
  end.

(** Occurrences of a character in a string. *)
Fixpoint count_char (c : ascii) (s : string) : nat :=
  match s with
  | EmptyString => 0
  | String d s' => (if Ascii.eqb c d then 1 else 0) + count_char c s'
  end.

(** [arr.join(sep)] *)
Definition join (sep : string) (l : list string) : string := String.concat sep l.

(** JavaScript truthiness of a string: only the empty string is falsy. *)
Definition truthy (s : string) : bool :=
  match s with EmptyString => false | _ => true end.

(** [s.toUpperCase()] on the letters a-z. *)
Definition upper_char (c : ascii) : ascii :=
  let n := nat_of_ascii c in
  if (97 <=? n) && (n <=? 122) then ascii_of_nat (n - 32) else c.

Fixpoint toUpperCase (s : string) : string :=
  match s with
  | EmptyString => EmptyString
  | String c s' => String (upper_char c) (toUpperCase s')
  end.

(** The UTF-16 code units of a string, which is what a regular expression
    without the [u] flag reads: one unit per character of the Basic
    Multilingual Plane, a surrogate pair above it.  Bytes that are not UTF-8
    stand for no string of the page; each is read as U+FFFD. *)
Definition continuation (n : N) : bool := ((128 <=? n) && (n <=? 191))%N.

(** The second byte of a sequence of three or four, within the bounds its
    first byte sets. *)
Definition second_byte (lead n : N) : bool :=
  (if lead =? 224 then (160 <=? n) && (n <=? 191)
   else if lead =? 237 then (128 <=? n) && (n <=? 159)
   else if lead =? 240 then (144 <=? n) && (n <=? 191)
   else if lead =? 244 then (128 <=? n) && (n <=? 143)
   else continuation n)%N.

Definition replacement_character : N := 65533%N.

Fixpoint code_units (s : string) : list N :=
  match s with
  | EmptyString => []
  | String b0 s1 =>
      let n0 := N_of_ascii b0 in
      if (n0 <? 128)%N then n0 :: code_units s1
      else
        match s1 with
        | String b1 s2 =>
            let n1 := N_of_ascii b1 in
            if ((194 <=? n0) && (n0 <=? 223))%N && continuation n1
            then ((n0 - 192) * 64 + (n1 - 128))%N :: code_units s2
            else
              match s2 with
              | String b2 s3 =>
                  let n2 := N_of_ascii b2 in
                  if ((224 <=? n0) && (n0 <=? 239))%N && second_byte n0 n1
                     && continuation n2
                  then ((n0 - 224) * 4096 + (n1 - 128) * 64 + (n2 - 128))%N
                       :: code_units s3
                  else
                    match s3 with
                    | String b3 s4 =>
                        let n3 := N_of_ascii b3 in
                        if ((240 <=? n0) && (n0 <=? 244))%N && second_byte n0 n1
                           && continuation n2 && continuation n3
                        then
                          let v := ((n0 - 240) * 262144 + (n1 - 128) * 4096
                                    + (n2 - 128) * 64 + (n3 - 128) - 65536)%N in
                          (55296 + v / 1024)%N :: (56320 + v mod 1024)%N
                          :: code_units s4
                        else replacement_character :: code_units s1
                    | EmptyString => replacement_character :: code_units s1
                    end
              | EmptyString => replacement_character :: code_units s1
              end
        | EmptyString => [replacement_character]
        end
  end.

(** A string given by its bytes. *)
Definition of_bytes (l : list nat) : string :=
  fold_right (fun n s => String (ascii_of_nat n) s) EmptyString l.

(** Text of ASCII characters only. *)
Fixpoint ascii_only (s : string) : bool :=
  match s with
  | EmptyString => true
  | String c s' => (N_of_ascii c <? 128)%N && ascii_only s'
  end.

(** The line feed, ['\n']. *)
Definition newline : string := String (ascii_of_nat 10) EmptyString.

End Text.

(** ** Regular expressions

    [isValidYouTubeUrl] tests its argument against a regular-expression
    literal.  The literal is anchored at both ends and carries no flag, so
    [test] answers whether the whole string, as a sequence of code units, is
    in the language of the pattern between the anchors; the language is
    decided here with Brzozowski derivatives. *)

Module Regex.

Inductive regex : Type :=
| Void                       (* matches nothing *)
| Eps                        (* the empty string *)
| Chr (c : N)                (* one literal code unit *)
| Dot                        (* [.]: any code unit but a line terminator *)
| Seq (r1 r2 : regex)
| Alt (r1 r2 : regex)
| Star (r : regex).

(** [r?] and [r+] *)
Definition Opt (r : regex) : regex := Alt r Eps.
Definition Plus (r : regex) : regex := Seq r (Star r).

(** A literal run of code units. *)
Fixpoint Units (w : list N) : regex :=
  match w with
  | [] => Eps
  | c :: w' => Seq (Chr c) (Units w')
  end.

(** A literal character and a literal run of characters of the pattern. *)
Definition Char (c : ascii) : regex := Chr (N_of_ascii c).
Definition Lit (s : string) : regex := Units (Text.code_units s).

(** The line terminators [.] refuses: LF, CR, U+2028 and U+2029. *)
Definition is_line_terminator (c : N) : bool :=
  ((c =? 10) || (c =? 13) || (c =? 8232) || (c =? 8233))%N.

Fixpoint nullable (r : regex) : bool :=
  match r with
  | Void => false
  | Eps => true
  | Chr _ => false
  | Dot => false
  | Seq r1 r2 => nullable r1 && nullable r2
  | Alt r1 r2 => nullable r1 || nullable r2
  | Star _ => true
  end.

Fixpoint deriv (c : N) (r : regex) : regex :=
  match r with
  | Void => Void
  | Eps => Void
  | Chr d => if (c =? d)%N then Eps else Void
  | Dot => if is_line_terminator c then Void else Eps
  | Seq r1 r2 =>
      if nullable r1
      then Alt (Seq (deriv c r1) r2) (deriv c r2)
      else Seq (deriv c r1) r2
  | Alt r1 r2 => Alt (deriv c r1) (deriv c r2)
  | Star r' => Seq (deriv c r') (Star r')
  end.

(** The whole sequence of code units is in the language of the pattern. *)
Fixpoint matches (r : regex) (w : list N) : bool :=
  match w with
  | [] => nullable r
  | c :: w' => matches (deriv c r) w'
  end.

(** [/^r$/.test(s)] *)
Definition test (r : regex) (s : string) : bool := matches r (Text.code_units s).

(** The language of a pattern, for stating what [test] decides. *)
Inductive lang : regex -> list N -> Prop :=
| lang_eps : lang Eps []
| lang_chr c : lang (Chr c) [c]
| lang_dot c : is_line_terminator c = false -> lang Dot [c]
| lang_seq r1 r2 s1 s2 : lang r1 s1 -> lang r2 s2 -> lang (Seq r1 r2) (s1 ++ s2)
| lang_alt_l r1 r2 s : lang r1 s -> lang (Alt r1 r2) s
| lang_alt_r r1 r2 s : lang r2 s -> lang (Alt r1 r2) s
| lang_star_nil r : lang (Star r) []
| lang_star_cons r s1 s2 : lang r s1 -> lang (Star r) s2 -> lang (Star r) (s1 ++ s2).

End Regex.

(** ** The browser: clock, timers and the alert elements of the document *)

Module Browser.

(** What a timer runs when it fires: one constructor per callback the two
    scripts hand to [setInterval] or [setTimeout], and the completion
    callback [fadeOut] runs when its animation ends. *)
Inductive task : Type :=
| AutoRefresh                (* admin.js: the 30 s refresh interval *)
| MemoryMonitor              (* admin.js: the 30 s memory monitor *)
| SessionCheck               (* admin.js: the 5 min session probe *)
| AutoSave                   (* admin.js: the settings auto-save timeout *)
| AlertTimeout (a : nat)     (* showAlert: the 5 s timeout of alert node [a] *)
| FadeDone (a : nat).        (* showAlert: [fadeOut]'s callback for node [a] *)

Record timer : Type := {
  tid : nat;
  due : N;                    (* milliseconds on the page clock *)
  period : option N;          (* [Some p] for setInterval, [None] for setTimeout *)
  job : task
}.

(** An element of class [alert]; [aid] is the identity of the DOM node. *)
Record alert : Type := {
  aid : nat;
  amessage : string;
  aclass : string;
  aicon : string
}.

Record browser : Type := {
  now : N;
  timers : list timer;
  next_tid : nat;
  alerts : list alert;        (* every element matching [.alert], document order *)
  next_aid : nat
}.

(** A page just loaded: no timer armed, no alert in the document. *)
Definition fresh : browser :=
  {| now := 0%N; timers := []; next_tid := 1; alerts := []; next_aid := 0 |}.

Definition with_timers (ts : list timer) (nt : nat) (b : browser) : browser :=
  {| now := now b; timers := ts; next_tid := nt;
     alerts := alerts b; next_aid := next_aid b |}.

Definition with_alerts (al : list alert) (na : nat) (b : browser) : browser :=
  {| now := now b; timers := timers b; next_tid := next_tid b;
     alerts := al; next_aid := na |}.

(** Time passes. *)
Definition tick (dt : N) (b : browser) : browser :=
  {| now := (now b + dt)%N; timers := timers b; next_tid := next_tid b;
     alerts := alerts b; next_aid := next_aid b |}.

(** [setTimeout(job, delay)]: the identifier it returns and the new state. *)
Definition setTimeout (j : task) (delay : N) (b : browser) : nat * browser :=
  (next_tid b,
   with_timers
     (timers b ++ [{| tid := next_tid b; due := (now b + delay)%N; period := None; job := j |}])
     (S (next_tid b)) b).

(** [setInterval(job, every)] *)
Definition setInterval (j : task) (every : N) (b : browser) : nat * browser :=
  (next_tid b,
   with_timers
     (timers b ++ [{| tid := next_tid b; due := (now b + every)%N; period := Some every; job := j |}])
     (S (next_tid b)) b).

(** [clearTimeout(id)]; [None] is the [undefined] of a variable never
    assigned, for which the call does nothing. *)
Definition clearTimeout (id : option nat) (b : browser) : browser :=
  match id with
  | None => b
  | Some i =>
      with_timers (filter (fun t => tid t ≠ i) (timers b)) (next_tid b) b
  end.

Definition find_timer (i : nat) (b : browser) : option timer :=
  List.find (fun t => tid t =? i) (timers b).

(** The browser runs timer [i]: refused unless the timer is pending and due.
    A timeout leaves the queue, an interval is armed again. *)
Definition take_timer (i : nat) (b : browser) : option (task * browser) :=
  match find_timer i b with
  | None => None
  | Some t =>
      if (due t <=? now b)%N then
        let rest := filter (fun t' => tid t' ≠ i) (timers b) in
        let ts :=
          match period t with
          | None => rest
          | Some p =>
              rest ++ [{| tid := i; due := (now b + p)%N; period := Some p; job := job t |}]
          end in
        Some (job t, with_timers ts (next_tid b) b)
      else None
  end.

(** [$('.alert').remove()] *)
Definition remove_alerts (b : browser) : browser :=
  with_alerts [] (next_aid b) b.

(** Copies of node [a] under fresh identities. *)
Fixpoint clones (k : nat) (a : alert) (next : nat) : list alert :=
  match k with
  | 0 => []
  | S k' =>
      {| aid := next; amessage := amessage a; aclass := aclass a; aicon := aicon a |}
      :: clones k' a (S next)
  end.

(** [$(container).append(alert)] / [.prepend(alert)] where the container
    selector matches [targets] elements: jQuery inserts a clone into every
    matched element but the last and the node itself into the last; with no
    match nothing is inserted. *)
Definition insert_alert (targets : nat) (a : alert) (b : browser) : browser :=
  match targets with
  | 0 => b
  | S k =>
      with_alerts (alerts b ++ clones k a (next_aid b) ++ [a]) (k + next_aid b) b
  end.

(** jQuery's default animation length, which [fadeOut(callback)] uses. *)
Definition fade_duration : N := 400.

(** The body of showAlert's timeout: [alert.fadeOut(function() {...})]. *)
Definition alert_timeout (a : nat) (b : browser) : browser :=
  snd (setTimeout (FadeDone a) fade_duration b).

(** [fadeOut]'s callback: [$(this).remove()]. *)
Definition fade_done (a : nat) (b : browser) : browser :=
  with_alerts (filter (fun x => aid x ≠ a) (alerts b)) (next_aid b) b.


(** *** Invariants of the queue and of the document *)

(** Identifiers handed out so far are below the next one. *)
Definition tids_fresh (b : browser) : Prop :=
  Forall (fun t => tid t < next_tid b) (timers b).

(** At most one alert element in the document. *)
Definition one_alert (b : browser) : Prop := length (alerts b) <= 1.

End Browser.

(** ** Answers to asynchronous requests *)

Module Net.

(** What comes back for a request, as the callbacks tell the cases apart:
    - [Failure]: the [error] callback runs (no answer, or a status outside
      2xx), with the HTTP status (0 when there is none) and the error text;
    - [Refused]: the [success] callback runs on an envelope whose [success]
      flag is false; the string is the envelope's [error] or [message];
    - [Success]: the [success] callback runs on an envelope whose [success]
      flag is true, carrying the fields the callback reads. *)
Inductive result (A : Type) : Type :=
| Failure (status : nat) (error : string)
| Refused (message : string)
| Success (payload : A).

Arguments Failure {A} status error.
Arguments Refused {A} message.
Arguments Success {A} payload.

End Net.

(** ** main.js: the public download form *)

Module Main.

Import Browser Net.

Record video_info : Type := {
  thumbnail : string;
  title : string;
  uploader : string;
  duration : nat;
  view_count : nat
}.

Record subtitle : Type := {
  sub_code : string;
  sub_name : string;
  sub_type : string
}.

(** The three requests of the page, each a POST with a JSON body. *)
Inductive request : Type :=
| GetVideoInfo (url : string)
| DownloadSubtitle (url format language : string)
| PreviewSubtitle (url language : string).

Definition endpoint (r : request) : string :=
  match r with
  | GetVideoInfo _ => "/get-video-info"
  | DownloadSubtitle _ _ _ => "/download-subtitle"
  | PreviewSubtitle _ _ => "/preview-subtitle"
  end.

(** The answers a request can get.  For the download, [FileOk] carries the
    file name read off the Content-Disposition header, if any. *)
Inductive payload : Type :=
| InfoOk (info : video_info) (available_subtitles : list subtitle)
| FileOk (header_filename : option string)
| TextOk (content : string).

Record page : Type := {
  browser : Browser.browser;
  download_forms : nat;                  (* elements of class [download-form] *)
  youtube_url : string;                  (* value of [#youtube-url] *)
  source_language : string;              (* value of [#source-language] *)
  language_options : list (string * string);  (* options after the first one *)
  currentVideoInfo : option video_info;
  shown_info : option video_info;        (* what displayVideoInfo last wrote *)
  video_preview : bool;                  (* [#video-preview] shown *)
  loading_overlay : bool;
  preview_modal : option string;         (* [#preview-content] when the modal is shown *)
  saved_files : list string;             (* names of the files handed to the user *)
  get_info_disabled : bool;              (* [#get-info-btn] disabled *)
  url_error : bool;                      (* [#youtube-url] carries class [error] *)
  downloads_disabled : bool;             (* [.btn-download], [#preview-btn] disabled *)
  sent : list request;                   (* every request issued, oldest first *)
  awaiting : list request                (* requests not answered yet *)
}.

Definition with_browser (b : Browser.browser) (p : page) : page :=
  {| browser := b; download_forms := download_forms p; youtube_url := youtube_url p;
     source_language := source_language p; language_options := language_options p;
     currentVideoInfo := currentVideoInfo p; shown_info := shown_info p;
     video_preview := video_preview p; loading_overlay := loading_overlay p;
     preview_modal := preview_modal p; saved_files := saved_files p;
     get_info_disabled := get_info_disabled p; url_error := url_error p;
     downloads_disabled := downloads_disabled p; sent := sent p; awaiting := awaiting p |}.

Definition with_fields (url lang : string) (p : page) : page :=
  {| browser := browser p; download_forms := download_forms p; youtube_url := url;
     source_language := lang; language_options := language_options p;
     currentVideoInfo := currentVideoInfo p; shown_info := shown_info p;
     video_preview := video_preview p; loading_overlay := loading_overlay p;
     preview_modal := preview_modal p; saved_files := saved_files p;
     get_info_disabled := get_info_disabled p; url_error := url_error p;
     downloads_disabled := downloads_disabled p; sent := sent p; awaiting := awaiting p |}.

Definition with_loading (l : bool) (p : page) : page :=
  {| browser := browser p; download_forms := download_forms p;
     youtube_url := youtube_url p; source_language := source_language p;
     language_options := language_options p; currentVideoInfo := currentVideoInfo p;
     shown_info := shown_info p; video_preview := video_preview p; loading_overlay := l;
     preview_modal := preview_modal p; saved_files := saved_files p;
     get_info_disabled := get_info_disabled p; url_error := url_error p;
     downloads_disabled := downloads_disabled p; sent := sent p; awaiting := awaiting p |}.

Definition with_video (cur shown : option video_info) (visible : bool) (p : page) : page :=
  {| browser := browser p; download_forms := download_forms p;
     youtube_url := youtube_url p; source_language := source_language p;
     language_options := language_options p; currentVideoInfo := cur; shown_info := shown;
     video_preview := visible; loading_overlay := loading_overlay p;
     preview_modal := preview_modal p; saved_files := saved_files p;
     get_info_disabled := get_info_disabled p; url_error := url_error p;
     downloads_disabled := downloads_disabled p; sent := sent p; awaiting := awaiting p |}.

Definition with_languages (opts : list (string * string)) (p : page) : page :=
  {| browser := browser p; download_forms := download_forms p;
     youtube_url := youtube_url p; source_language := source_language p;
     language_options := opts; currentVideoInfo := currentVideoInfo p;
     shown_info := shown_info p; video_preview := video_preview p;
     loading_overlay := loading_overlay p; preview_modal := preview_modal p;
     saved_files := saved_files p; get_info_disabled := get_info_disabled p;
     url_error := url_error p; downloads_disabled := downloads_disabled p; sent := sent p;
     awaiting := awaiting p |}.

Definition with_outputs (modal : option string) (files : list string) (p : page) : page :=
  {| browser := browser p; download_forms := download_forms p;
     youtube_url := youtube_url p; source_language := source_language p;
     language_options := language_options p; currentVideoInfo := currentVideoInfo p;
     shown_info := shown_info p; video_preview := video_preview p;
     loading_overlay := loading_overlay p; preview_modal := modal; saved_files := files;
     get_info_disabled := get_info_disabled p; url_error := url_error p;
     downloads_disabled := downloads_disabled p; sent := sent p; awaiting := awaiting p |}.

Definition with_controls (info_off error downloads_off : bool) (p : page) : page :=
  {| browser := browser p; download_forms := download_forms p;
     youtube_url := youtube_url p; source_language := source_language p;
     language_options := language_options p; currentVideoInfo := currentVideoInfo p;
     shown_info := shown_info p; video_preview := video_preview p;
     loading_overlay := loading_overlay p; preview_modal := preview_modal p;
     saved_files := saved_files p; get_info_disabled := info_off; url_error := error;
     downloads_disabled := downloads_off; sent := sent p; awaiting := awaiting p |}.

Definition with_requests (s a : list request) (p : page) : page :=
  {| browser := browser p; download_forms := download_forms p;
     youtube_url := youtube_url p; source_language := source_language p;
     language_options := language_options p; currentVideoInfo := currentVideoInfo p;
     shown_info := shown_info p; video_preview := video_preview p;
     loading_overlay := loading_overlay p; preview_modal := preview_modal p;
     saved_files := saved_files p; get_info_disabled := get_info_disabled p;
     url_error := url_error p; downloads_disabled := downloads_disabled p; sent := s;
     awaiting := a |}.

(** [$.ajax] / [fetch]: the request leaves and its callback waits. *)
Definition send (r : request) (p : page) : page :=
  with_requests (sent p ++ [r]) (awaiting p ++ [r]) p.

(** The page as the script finds it, for a template with [forms] elements of
    class [download-form] and with its buttons enabled; local storage is
    empty. *)
Definition init (forms : nat) : page :=
  {| browser := Browser.fresh; download_forms := forms; youtube_url := "";
     source_language := "en"; language_options := [];
     currentVideoInfo := None; shown_info := None;
     video_preview := false; loading_overlay := false;
     preview_modal := None; saved_files := [];
     get_info_disabled := false; url_error := false; downloads_disabled := false;
     sent := []; awaiting := [] |}.

(** [isValidYouTubeUrl]:
    [/^(https?:\/\/)?(www\.)?(youtube\.com|youtu\.be)\/.+$/] *)
Definition youtubeRegex : Regex.regex :=
  Regex.Seq (Regex.Opt (Regex.Seq (Regex.Lit "http")
                          (Regex.Seq (Regex.Opt (Regex.Char "s")) (Regex.Lit "://"))))
 (Regex.Seq (Regex.Opt (Regex.Lit "www."))
 (Regex.Seq (Regex.Alt (Regex.Lit "youtube.com") (Regex.Lit "youtu.be"))
 (Regex.Seq (Regex.Char "/") (Regex.Plus Regex.Dot)))).

Definition isValidYouTubeUrl (url : string) : bool :=
  Regex.test youtubeRegex url.

Definition showLoading (p : page) : page := with_loading true p.
Definition hideLoading (p : page) : page := with_loading false p.

Definition alertClass (type : string) : string :=
  if String.eqb type "error" then "alert-error"
  else if String.eqb type "success" then "alert-success"
  else "alert-info".

Definition alertIcon (type : string) : string :=
  if String.eqb type "error" then "fas fa-exclamation-circle"
  else if String.eqb type "success" then "fas fa-check-circle"
  else "fas fa-info-circle".

(** [showAlert(message, type)]: remove every [.alert], build the new node,
    prepend it to [.download-form], arm the 5000 ms timeout. *)
Definition showAlert (message type : string) (p : page) : page :=
  let b0 := remove_alerts (browser p) in
  let a := {| aid := next_aid b0; amessage := message;
              aclass := alertClass type +:+ " fade-in"; aicon := alertIcon type |} in
  let b1 := with_alerts (alerts b0) (S (next_aid b0)) b0 in
  let b2 := insert_alert (download_forms p) a b1 in
  with_browser (snd (setTimeout (AlertTimeout (aid a)) 5000%N b2)) p.

Definition getVideoInfo (url : string) (p : page) : page :=
  send (GetVideoInfo url) (showLoading p).

Definition downloadSubtitle (url format sourceLanguage : string) (p : page) : page :=
  send (DownloadSubtitle url format sourceLanguage) (showLoading p).

Definition previewSubtitle (url sourceLanguage : string) (p : page) : page :=
  send (PreviewSubtitle url sourceLanguage) (showLoading p).

(** [$('#get-info-btn').click(...)] *)
Definition get_info_btn_click (p : page) : page :=
  let url := Text.trim (youtube_url p) in
  if negb (Text.truthy url) then
    showAlert "Vui lòng nhập URL YouTube" "error" p
  else if negb (isValidYouTubeUrl url) then
    showAlert "URL không hợp lệ. Vui lòng nhập URL YouTube" "error" p
  else getVideoInfo url p.

(** [$('.btn-download').click(...)], for the button whose [data-format] is
    [format]. *)
Definition btn_download_click (format : string) (p : page) : page :=
  let url := Text.trim (youtube_url p) in
  let sourceLanguage := source_language p in
  match currentVideoInfo p with
  | None => showAlert "Vui lòng lấy thông tin video trước" "error" p
  | Some _ => downloadSubtitle url format sourceLanguage p
  end.

(** [$('#preview-btn').click(...)] *)
Definition preview_btn_click (p : page) : page :=
  let url := Text.trim (youtube_url p) in
  let sourceLanguage := source_language p in
  match currentVideoInfo p with
  | None => showAlert "Vui lòng lấy thông tin video trước" "error" p
  | Some _ => previewSubtitle url sourceLanguage p
  end.

(** [updateLanguageOptions]: every option but the first is dropped, one is
    added per available track, and English is selected again. *)
Definition updateLanguageOptions (subs : list subtitle) (p : page) : page :=
  with_fields (youtube_url p) "en"
    (with_languages
       (map (fun s => (sub_code s, sub_name s +:+ " (" +:+ sub_type s +:+ ")")) subs) p).

(** The callbacks of [getVideoInfo]'s request.  Here and below, an answer
    of the wrong shape for the endpoint is not one the backend gives; only
    the overlay is hidden for it. *)
Definition getVideoInfo_done (r : result payload) (p : page) : page :=
  match r with
  | Success (InfoOk info subs) =>
      updateLanguageOptions subs (with_video (Some info) (Some info) true (hideLoading p))
  | Success _ => hideLoading p
  | Refused message => showAlert message "error" (hideLoading p)
  | Failure _ error => showAlert ("Lỗi kết nối: " +:+ error) "error" (hideLoading p)
  end.

(** The promise chain of [downloadSubtitle].  [Refused m] stands for a
    response that is not [ok], with the [message] of its JSON body, and
    [Failure] for a rejected fetch; both end in the [catch] handler.  The
    file name is the one of the Content-Disposition header when there is
    one. *)
Definition downloadSubtitle_done (format : string) (r : result payload) (p : page) : page :=
  match r with
  | Success (FileOk header_filename) =>
      let filename := default ("subtitle." +:+ format) header_filename in
      let p1 := hideLoading p in
      showAlert "Tải xuống thành công!" "success"
        (with_outputs (preview_modal p1) (saved_files p1 ++ [filename]) p1)
  | Success _ => hideLoading p
  | Refused message =>
      showAlert ("Lỗi tải xuống: " +:+ (if Text.truthy message then message else "Download failed"))
        "error" (hideLoading (hideLoading p))
  | Failure _ error =>
      showAlert ("Lỗi tải xuống: " +:+ error) "error" (hideLoading p)
  end.

(** The callbacks of [previewSubtitle]'s request. *)
Definition previewSubtitle_done (r : result payload) (p : page) : page :=
  match r with
  | Success (TextOk content) =>
      let p1 := hideLoading p in
      with_outputs (Some content) (saved_files p1) p1
  | Success _ => hideLoading p
  | Refused message => showAlert message "error" (hideLoading p)
  | Failure _ error => showAlert ("Lỗi xem trước: " +:+ error) "error" (hideLoading p)
  end.

(** [$('.clear-form').click(...)]; [val] dispatches no [input] or [change]
    event, so the buttons stay as they are. *)
Definition clear_form_click (p : page) : page :=
  showAlert "Đã xóa dữ liệu form" "info"
    (with_video None (shown_info p) false (with_fields "" "en" p)).

(** [$('#youtube-url').on('input', ...)]: the get-info button is enabled
    for a value that trims to a YouTube URL and disabled otherwise; the field
    is marked for a value that trims to something else than such a URL. *)
Definition youtube_url_input (p : page) : page :=
  let url := Text.trim (youtube_url p) in
  if Text.truthy url && isValidYouTubeUrl url
  then with_controls false false (downloads_disabled p) p
  else with_controls true (Text.truthy url) (downloads_disabled p) p.

(** [$('#source-language').change(...)] of lines 291-299. *)
Definition source_language_change (p : page) : page :=
  with_controls (get_info_disabled p) (url_error p)
    (negb (Text.truthy (source_language p))) p.

(** [$('#youtube-url').keypress(...)]: Enter runs [$('#get-info-btn').click()],
    which calls the click handler whether or not the button is disabled. *)
Definition youtube_url_keypress (which : nat) (p : page) : page :=
  if which =? 13 then get_info_btn_click p else p.

(** [$(document).keydown(...)]: Ctrl+Enter runs the click handler, Escape
    hides the modal. *)
Definition document_keydown (ctrlKey : bool) (which : nat) (p : page) : page :=
  let p1 := if ctrlKey && (which =? 13) then get_info_btn_click p else p in
  if which =? 27 then with_outputs None (saved_files p1) p1 else p1.

(** What happens on the page, one step at a time.  The three kinds of
    button are form controls: a click of the user reaches the handler of an
    enabled one only.  The handlers that copy the form to local storage are
    left out, the page reading the storage only when it loads. *)
Inductive event : Type :=
| Tick (dt : N)                            (* time passes *)
| TimerFires (i : nat)                     (* the browser runs timer [i] *)
| UrlTyped (s : string)                    (* the user edits [#youtube-url] *)
| LanguageChosen (s : string)              (* the user picks a source language *)
| GetInfoClick
| DownloadClick (format : string)
| PreviewClick
| ClearFormClick
| UrlKeypress (which : nat)                (* a key pressed in [#youtube-url] *)
| KeyDown (ctrlKey : bool) (which : nat)   (* a key pressed anywhere *)
| Answer (n : nat) (r : result payload).   (* the [n]-th waiting request is answered *)

Definition run_task (j : task) (p : page) : page :=
  match j with
  | AlertTimeout a => with_browser (alert_timeout a (browser p)) p
  | FadeDone a => with_browser (fade_done a (browser p)) p
  | _ => p
  end.

Definition answer (n : nat) (r : result payload) (p : page) : page :=
  match awaiting p !! n with
  | None => p
  | Some q =>
      let p' := with_requests (sent p) (delete n (awaiting p)) p in
      match q with
      | GetVideoInfo _ => getVideoInfo_done r p'
      | DownloadSubtitle _ format _ => downloadSubtitle_done format r p'
      | PreviewSubtitle _ _ => previewSubtitle_done r p'
      end
  end.

Definition step (e : event) (p : page) : page :=
  match e with
  | Tick dt => with_browser (tick dt (browser p)) p
  | TimerFires i =>
      match take_timer i (browser p) with
      | None => p
      | Some (j, b) => run_task j (with_browser b p)
      end
  | UrlTyped s => youtube_url_input (with_fields s (source_language p) p)
  | LanguageChosen s => source_language_change (with_fields (youtube_url p) s p)
  | GetInfoClick => if get_info_disabled p then p else get_info_btn_click p
  | DownloadClick format =>
      if downloads_disabled p then p else btn_download_click format p
  | PreviewClick => if downloads_disabled p then p else preview_btn_click p
  | ClearFormClick => clear_form_click p
  | UrlKeypress which => youtube_url_keypress which p
  | KeyDown ctrlKey which => document_keydown ctrlKey which p
  | Answer n r => answer n r p
  end.

Definition run (evs : list event) (p : page) : page :=
  foldl (fun q e => step e q) p evs.

End Main.

(** ** admin.js: the admin panel *)

Module Admin.

Import Browser Net.

(** *** Data mirrored from the backend *)

Record visitor : Type := {
  session_id : string;
  ip_address : string;
  user_agent : string;
  first_visit : string;
  last_activity : string;
  page_views : nat;
  is_active : bool
}.

Record banner : Type := {
  banner_id : nat;
  banner_title : string;
  banner_description : string;
  banner_link_url : string;
  banner_position : string;
  banner_status : bool;
  banner_image_path : string;      (* empty when the banner has no image *)
  banner_clicks : nat;
  banner_created_at : string
}.

Record download : Type := {
  video_title : string;
  format_type : string;
  download_count : nat;
  last_download : string;
  video_url : string
}.

(** Text that the HTML parser reads back as written from the places where
    [updateSettingsForm] splices it: the content of the label and the
    attributes of the input, which are written between double quotes.  There
    a double quote ends the attribute, an ampersand may start a character
    reference, a less-than sign may start a tag, a carriage return is turned
    into a line feed and a NUL is replaced; and a text input drops the line
    breaks of its value. *)
Fixpoint read_as_written (s : string) : bool :=
  match s with
  | EmptyString => true
  | String c s' =>
      let n := nat_of_ascii c in
      negb ((n =? 0) || (n =? 10) || (n =? 13) || (n =? 34) || (n =? 38) || (n =? 60))
      && read_as_written s'
  end.

(** A setting as [/admin/api/settings] serves it.  The embedding covers the
    settings whose three texts are read as written, the markup of any other
    being a matter of the HTML parser, and whose key is not [__proto__],
    which names no property of the object [saveSettings] fills. *)
Record setting : Type := {
  setting_key : string;
  setting_description : string;
  setting_value : string;
  setting_covered :
    read_as_written setting_key && read_as_written setting_description
    && read_as_written setting_value
    && negb (String.eqb setting_key "__proto__") = true
}.

Record format_stat : Type := {
  stat_format : string;
  stat_count : nat
}.

Record popular_video : Type := {
  pv_title : string;
  pv_downloads : nat
}.

(** [response.stats], with the fields the dashboard reads. *)
Record stats : Type := {
  active_now : nat;                (* stats.visitors.active_now *)
  today_unique : nat;              (* stats.visitors.today_unique *)
  total_downloads : nat;           (* stats.downloads.total_downloads *)
  total_clicks : nat;              (* stats.banners.total_clicks *)
  popular_videos : list popular_video   (* stats.downloads.popular_videos *)
}.

(** *** The document *)

Record element : Type := {
  el_id : string;
  classes : list string
}.

Record nav_item : Type := {
  data_section : string;
  nav_active : bool
}.

Inductive popular_node : Type :=
| NoDataNote                                    (* the paragraph "Chưa có dữ liệu" *)
| PopularItem (title : string) (downloads : nat).

(** An input of the settings form, with the label above it. *)
Record setting_input : Type := {
  input_name : string;
  input_label : string;
  input_value : string
}.

(** The fields of the banner form; [f_image] is the file chosen in
    [#banner-image], if any. *)
Record banner_fields : Type := {
  f_id : string;
  f_title : string;
  f_description : string;
  f_link : string;
  f_position : string;
  f_status : bool;
  f_image : option string
}.

(** A table as the export reads it: the text of each header cell, and per
    body row whether jQuery's [:visible] selects it and the text of its
    cells. *)
Record row : Type := {
  visible : bool;
  cells : list string
}.

Record table : Type := {
  headers : list string;
  body_rows : list row
}.

(** *** Requests *)

(** The object the banner form submits. *)
Record banner_payload : Type := {
  p_title : string;
  p_description : string;
  p_link_url : string;
  p_position : string;
  p_status : bool;
  p_id : option string;            (* set when editing *)
  p_image_path : option string     (* set after an upload *)
}.

Inductive body : Type :=
| NoBody
| ImageForm (file : string)                     (* multipart, field [image] *)
| BannerJson (data : banner_payload)
| DeleteJson (id : nat)
| SettingsJson (settings : gmap string string).

(** The callback pair waiting for an answer, with what its closure holds. *)
Inductive callback : Type :=
| OnStats
| OnFormatChart
| OnVisitors
| OnBanners
| OnDownloads
| OnSettings
| OnBannerData (bannerId : nat)
| OnUpload (formData : banner_payload) (isEdit : bool)
| OnSaveBanner
| OnDeleteBanner
| OnSaveSettings
| OnSessionProbe.

Record request : Type := {
  url : string;
  method : string;
  payload_sent : body;
  on_answer : callback
}.

(** The fields a [success] callback reads off an envelope whose flag is
    true. *)
Inductive payload : Type :=
| StatsData (s : stats)
| VisitorsData (visitors : list visitor)
| BannersData (banners : list banner)
| DownloadsData (recent_downloads : list download) (format_stats : option (list format_stat))
| SettingsData (settings : list setting)
| ImagePath (image_path : string)
| Message (message : string).

Record document : Type := {
  elements : list element;  (* elements carrying an id or a class the script selects *)
  nav_items : list nav_item;  (* the [.nav-item] links of the sidebar *)
  page_title : string;  (* text of [#page-title] *)
  stat_cards : option (nat * nat * nat * nat);  (* numbers written into the four stat cards *)
  stat_cards_fade_in : bool;  (* [.stat-card] carries class [fade-in] *)
  popular_videos_box : list popular_node;  (* children of [#popular-videos] *)
  format_chart : option (list string * list nat);  (* labels and data of the chart on [#format-chart] *)
  visitors_tbody : list visitor;  (* one row of [#visitors-table] per entry *)
  banners_list : list banner;  (* one card of [#banners-list] per entry *)
  downloads_tbody : list download;  (* one row of [#downloads-table] per entry *)
  settings_form : list setting_input;  (* the inputs of [#settings-form], document order *)
  banner_form : banner_fields;  (* the fields of [#banner-form] *)
  banner_modal : bool;  (* [#banner-modal] carries class [active] *)
  banner_modal_title : string;  (* text of [#banner-modal-title] *)
  image_preview : option string  (* source of the image in [#image-preview] *)
}.

Definition set_elements (v : list element) (d : document) : document :=
  {| elements := v; nav_items := nav_items d; page_title := page_title d;
     stat_cards := stat_cards d; stat_cards_fade_in := stat_cards_fade_in d;
     popular_videos_box := popular_videos_box d; format_chart := format_chart d;
     visitors_tbody := visitors_tbody d; banners_list := banners_list d;
     downloads_tbody := downloads_tbody d; settings_form := settings_form d;
     banner_form := banner_form d; banner_modal := banner_modal d;
     banner_modal_title := banner_modal_title d; image_preview := image_preview d |}.

Definition set_nav_items (v : list nav_item) (d : document) : document :=
  {| elements := elements d; nav_items := v; page_title := page_title d;
     stat_cards := stat_cards d; stat_cards_fade_in := stat_cards_fade_in d;
     popular_videos_box := popular_videos_box d; format_chart := format_chart d;
     visitors_tbody := visitors_tbody d; banners_list := banners_list d;
     downloads_tbody := downloads_tbody d; settings_form := settings_form d;
     banner_form := banner_form d; banner_modal := banner_modal d;
     banner_modal_title := banner_modal_title d; image_preview := image_preview d |}.

Definition set_page_title (v : string) (d : document) : document :=
  {| elements := elements d; nav_items := nav_items d; page_title := v;
     stat_cards := stat_cards d; stat_cards_fade_in := stat_cards_fade_in d;
     popular_videos_box := popular_videos_box d; format_chart := format_chart d;
     visitors_tbody := visitors_tbody d; banners_list := banners_list d;
     downloads_tbody := downloads_tbody d; settings_form := settings_form d;
     banner_form := banner_form d; banner_modal := banner_modal d;
     banner_modal_title := banner_modal_title d; image_preview := image_preview d |}.

Definition set_stat_cards (v : option (nat * nat * nat * nat)) (d : document) : document :=
  {| elements := elements d; nav_items := nav_items d; page_title := page_title d;
     stat_cards := v; stat_cards_fade_in := stat_cards_fade_in d;
     popular_videos_box := popular_videos_box d; format_chart := format_chart d;
     visitors_tbody := visitors_tbody d; banners_list := banners_list d;
     downloads_tbody := downloads_tbody d; settings_form := settings_form d;
     banner_form := banner_form d; banner_modal := banner_modal d;
     banner_modal_title := banner_modal_title d; image_preview := image_preview d |}.

Definition set_stat_cards_fade_in (v : bool) (d : document) : document :=
  {| elements := elements d; nav_items := nav_items d; page_title := page_title d;
     stat_cards := stat_cards d; stat_cards_fade_in := v;
     popular_videos_box := popular_videos_box d; format_chart := format_chart d;
     visitors_tbody := visitors_tbody d; banners_list := banners_list d;
     downloads_tbody := downloads_tbody d; settings_form := settings_form d;
     banner_form := banner_form d; banner_modal := banner_modal d;
     banner_modal_title := banner_modal_title d; image_preview := image_preview d |}.

Definition set_popular_videos_box (v : list popular_node) (d : document) : document :=
  {| elements := elements d; nav_items := nav_items d; page_title := page_title d;
     stat_cards := stat_cards d; stat_cards_fade_in := stat_cards_fade_in d;
     popular_videos_box := v; format_chart := format_chart d;
     visitors_tbody := visitors_tbody d; banners_list := banners_list d;
     downloads_tbody := downloads_tbody d; settings_form := settings_form d;
     banner_form := banner_form d; banner_modal := banner_modal d;
     banner_modal_title := banner_modal_title d; image_preview := image_preview d |}.

Definition set_format_chart (v : option (list string * list nat)) (d : document) : document :=
  {| elements := elements d; nav_items := nav_items d; page_title := page_title d;
     stat_cards := stat_cards d; stat_cards_fade_in := stat_cards_fade_in d;
     popular_videos_box := popular_videos_box d; format_chart := v;
     visitors_tbody := visitors_tbody d; banners_list := banners_list d;
     downloads_tbody := downloads_tbody d; settings_form := settings_form d;
     banner_form := banner_form d; banner_modal := banner_modal d;
     banner_modal_title := banner_modal_title d; image_preview := image_preview d |}.

Definition set_visitors_tbody (v : list visitor) (d : document) : document :=
  {| elements := elements d; nav_items := nav_items d; page_title := page_title d;
     stat_cards := stat_cards d; stat_cards_fade_in := stat_cards_fade_in d;
     popular_videos_box := popular_videos_box d; format_chart := format_chart d;
     visitors_tbody := v; banners_list := banners_list d;
     downloads_tbody := downloads_tbody d; settings_form := settings_form d;
     banner_form := banner_form d; banner_modal := banner_modal d;
     banner_modal_title := banner_modal_title d; image_preview := image_preview d |}.

Definition set_banners_list (v : list banner) (d : document) : document :=
  {| elements := elements d; nav_items := nav_items d; page_title := page_title d;
     stat_cards := stat_cards d; stat_cards_fade_in := stat_cards_fade_in d;
     popular_videos_box := popular_videos_box d; format_chart := format_chart d;
     visitors_tbody := visitors_tbody d; banners_list := v;
     downloads_tbody := downloads_tbody d; settings_form := settings_form d;
     banner_form := banner_form d; banner_modal := banner_modal d;
     banner_modal_title := banner_modal_title d; image_preview := image_preview d |}.

Definition set_downloads_tbody (v : list download) (d : document) : document :=
  {| elements := elements d; nav_items := nav_items d; page_title := page_title d;
     stat_cards := stat_cards d; stat_cards_fade_in := stat_cards_fade_in d;
     popular_videos_box := popular_videos_box d; format_chart := format_chart d;
     visitors_tbody := visitors_tbody d; banners_list := banners_list d;
     downloads_tbody := v; settings_form := settings_form d; banner_form := banner_form d;
     banner_modal := banner_modal d; banner_modal_title := banner_modal_title d;
     image_preview := image_preview d |}.

Definition set_settings_form (v : list setting_input) (d : document) : document :=
  {| elements := elements d; nav_items := nav_items d; page_title := page_title d;
     stat_cards := stat_cards d; stat_cards_fade_in := stat_cards_fade_in d;
     popular_videos_box := popular_videos_box d; format_chart := format_chart d;
     visitors_tbody := visitors_tbody d; banners_list := banners_list d;
     downloads_tbody := downloads_tbody d; settings_form := v;
     banner_form := banner_form d; banner_modal := banner_modal d;
     banner_modal_title := banner_modal_title d; image_preview := image_preview d |}.

Definition set_banner_form (v : banner_fields) (d : document) : document :=
  {| elements := elements d; nav_items := nav_items d; page_title := page_title d;
     stat_cards := stat_cards d; stat_cards_fade_in := stat_cards_fade_in d;
     popular_videos_box := popular_videos_box d; format_chart := format_chart d;
     visitors_tbody := visitors_tbody d; banners_list := banners_list d;
     downloads_tbody := downloads_tbody d; settings_form := settings_form d;
     banner_form := v; banner_modal := banner_modal d;
     banner_modal_title := banner_modal_title d; image_preview := image_preview d |}.

Definition set_banner_modal (v : bool) (d : document) : document :=
  {| elements := elements d; nav_items := nav_items d; page_title := page_title d;
     stat_cards := stat_cards d; stat_cards_fade_in := stat_cards_fade_in d;
     popular_videos_box := popular_videos_box d; format_chart := format_chart d;
     visitors_tbody := visitors_tbody d; banners_list := banners_list d;
     downloads_tbody := downloads_tbody d; settings_form := settings_form d;
     banner_form := banner_form d; banner_modal := v;
     banner_modal_title := banner_modal_title d; image_preview := image_preview d |}.

Definition set_banner_modal_title (v : string) (d : document) : document :=
  {| elements := elements d; nav_items := nav_items d; page_title := page_title d;
     stat_cards := stat_cards d; stat_cards_fade_in := stat_cards_fade_in d;
     popular_videos_box := popular_videos_box d; format_chart := format_chart d;
     visitors_tbody := visitors_tbody d; banners_list := banners_list d;
     downloads_tbody := downloads_tbody d; settings_form := settings_form d;
     banner_form := banner_form d; banner_modal := banner_modal d; banner_modal_title := v;
     image_preview := image_preview d |}.

Definition set_image_preview (v : option string) (d : document) : document :=
  {| elements := elements d; nav_items := nav_items d; page_title := page_title d;
     stat_cards := stat_cards d; stat_cards_fade_in := stat_cards_fade_in d;
     popular_videos_box := popular_videos_box d; format_chart := format_chart d;
     visitors_tbody := visitors_tbody d; banners_list := banners_list d;
     downloads_tbody := downloads_tbody d; settings_form := settings_form d;
     banner_form := banner_form d; banner_modal := banner_modal d;
     banner_modal_title := banner_modal_title d; image_preview := v |}.

Record admin : Type := {
  browser : Browser.browser;  (* clock, timers and alert elements *)
  doc : document;  (* the rest of the document *)
  currentSection : string;
  sessionWarningShown : bool;
  autoSaveTimeout : option nat;  (* [None] while the variable is undefined *)
  sent : list request;  (* every request issued, oldest first *)
  awaiting : list request;  (* requests not answered yet *)
  console : list string;  (* lines written with [console.error] *)
  saved_files : list (string * string)  (* files handed to the user: name and content *)
}.

Definition set_browser (v : Browser.browser) (w : admin) : admin :=
  {| browser := v; doc := doc w; currentSection := currentSection w;
     sessionWarningShown := sessionWarningShown w; autoSaveTimeout := autoSaveTimeout w;
     sent := sent w; awaiting := awaiting w; console := console w;
     saved_files := saved_files w |}.

Definition set_doc (v : document) (w : admin) : admin :=
  {| browser := browser w; doc := v; currentSection := currentSection w;
     sessionWarningShown := sessionWarningShown w; autoSaveTimeout := autoSaveTimeout w;
     sent := sent w; awaiting := awaiting w; console := console w;
     saved_files := saved_files w |}.

Definition set_currentSection (v : string) (w : admin) : admin :=
  {| browser := browser w; doc := doc w; currentSection := v;
     sessionWarningShown := sessionWarningShown w; autoSaveTimeout := autoSaveTimeout w;
     sent := sent w; awaiting := awaiting w; console := console w;
     saved_files := saved_files w |}.

Definition set_sessionWarningShown (v : bool) (w : admin) : admin :=
  {| browser := browser w; doc := doc w; currentSection := currentSection w;
     sessionWarningShown := v; autoSaveTimeout := autoSaveTimeout w; sent := sent w;
     awaiting := awaiting w; console := console w; saved_files := saved_files w |}.

Definition set_autoSaveTimeout (v : option nat) (w : admin) : admin :=
  {| browser := browser w; doc := doc w; currentSection := currentSection w;
     sessionWarningShown := sessionWarningShown w; autoSaveTimeout := v; sent := sent w;
     awaiting := awaiting w; console := console w; saved_files := saved_files w |}.

Definition set_sent (v : list request) (w : admin) : admin :=
  {| browser := browser w; doc := doc w; currentSection := currentSection w;
     sessionWarningShown := sessionWarningShown w; autoSaveTimeout := autoSaveTimeout w;
     sent := v; awaiting := awaiting w; console := console w;
     saved_files := saved_files w |}.

Definition set_awaiting (v : list request) (w : admin) : admin :=
  {| browser := browser w; doc := doc w; currentSection := currentSection w;
     sessionWarningShown := sessionWarningShown w; autoSaveTimeout := autoSaveTimeout w;
     sent := sent w; awaiting := v; console := console w; saved_files := saved_files w |}.

Definition set_console (v : list string) (w : admin) : admin :=
  {| browser := browser w; doc := doc w; currentSection := currentSection w;
     sessionWarningShown := sessionWarningShown w; autoSaveTimeout := autoSaveTimeout w;
     sent := sent w; awaiting := awaiting w; console := v; saved_files := saved_files w |}.

Definition set_saved_files (v : list (string * string)) (w : admin) : admin :=
  {| browser := browser w; doc := doc w; currentSection := currentSection w;
     sessionWarningShown := sessionWarningShown w; autoSaveTimeout := autoSaveTimeout w;
     sent := sent w; awaiting := awaiting w; console := console w; saved_files := v |}.

Definition on_doc (f : document -> document) (w : admin) : admin :=
  set_doc (f (doc w)) w.

Definition on_browser (f : Browser.browser -> Browser.browser) (w : admin) : admin :=
  set_browser (f (browser w)) w.

(** [$.ajax({...})]: the request leaves and its callbacks wait. *)
Definition ajax (u m : string) (b : body) (cb : callback) (w : admin) : admin :=
  let r := {| url := u; method := m; payload_sent := b; on_answer := cb |} in
  set_awaiting (awaiting w ++ [r]) (set_sent (sent w ++ [r]) w).

Definition console_error (line : string) (w : admin) : admin :=
  set_console (console w ++ [line]) w.

(** *** Alerts *)

Definition alertClass (type : string) : string :=
  if String.eqb type "error" then "alert-error"
  else if String.eqb type "success" then "alert-success"
  else if String.eqb type "info" then "alert-info"
  else "alert-info".

Definition alertIcon (type : string) : string :=
  if String.eqb type "error" then "fas fa-exclamation-circle"
  else if String.eqb type "success" then "fas fa-check-circle"
  else "fas fa-info-circle".

(** [showAlert(message, type)]: remove every [.alert], build the new node,
    append it to the body, arm the 5000 ms timeout that fades it out. *)
Definition showAlert (message type : string) (w : admin) : admin :=
  let b0 := remove_alerts (browser w) in
  let a := {| aid := next_aid b0; amessage := message;
              aclass := alertClass type +:+ " fade-in"; aicon := alertIcon type |} in
  let b1 := with_alerts (alerts b0) (S (next_aid b0)) b0 in
  let b2 := insert_alert 1 a b1 in
  set_browser (snd (setTimeout (AlertTimeout (aid a)) 5000%N b2)) w.

(** *** Loaders and renderers *)

Definition loadDashboardData (w : admin) : admin :=
  ajax "/admin/api/stats" "GET" NoBody OnStats w.

Definition loadFormatChart (w : admin) : admin :=
  ajax "/admin/api/downloads" "GET" NoBody OnFormatChart w.

Definition loadVisitors (w : admin) : admin :=
  ajax "/admin/api/visitors" "GET" NoBody OnVisitors w.

Definition loadBanners (w : admin) : admin :=
  ajax "/admin/api/banners" "GET" NoBody OnBanners w.

Definition loadDownloads (w : admin) : admin :=
  ajax "/admin/api/downloads" "GET" NoBody OnDownloads w.

Definition loadSettings (w : admin) : admin :=
  ajax "/admin/api/settings" "GET" NoBody OnSettings w.

Definition updateDashboardStats (s : stats) (w : admin) : admin :=
  on_doc (fun d =>
    set_stat_cards_fade_in true
      (set_stat_cards
         (Some (active_now s, today_unique s, total_downloads s, total_clicks s)) d)) w.

Definition updatePopularVideos (videos : list popular_video) (w : admin) : admin :=
  match videos with
  | [] => on_doc (set_popular_videos_box [NoDataNote]) w
  | _ =>
      on_doc (set_popular_videos_box
                (map (fun v => PopularItem (pv_title v) (pv_downloads v)) videos)) w
  end.

(** [updateFormatChart]: the previous chart, if any, is destroyed and a new
    one is drawn. *)
Definition updateFormatChart (formatStats : list format_stat) (w : admin) : admin :=
  on_doc (set_format_chart
            (Some (map (fun f => Text.toUpperCase (stat_format f)) formatStats,
                   map stat_count formatStats))) w.

Definition updateVisitorsTable (visitors : list visitor) (w : admin) : admin :=
  on_doc (set_visitors_tbody visitors) w.

Definition updateBannersGrid (banners : list banner) (w : admin) : admin :=
  on_doc (set_banners_list banners) w.

Definition updateDownloadsTable (downloads : list download) (w : admin) : admin :=
  on_doc (set_downloads_tbody downloads) w.

(** [updateSettingsForm(settings)]: the form is emptied and gets one label
    and one input per setting, built from markup; for the settings the
    embedding covers, the input's name and value are the key and the value
    as served. *)
Definition updateSettingsForm (settings : list setting) (w : admin) : admin :=
  on_doc (set_settings_form
            (map (fun s => {| input_name := setting_key s;
                              input_label := setting_description s;
                              input_value := setting_value s |}) settings)) w.

(** The [success] and [error] callbacks of each loader.  An envelope of the
    wrong shape for the endpoint is not an answer the backend gives; it is
    left without effect. *)
Definition loadDashboardData_done (r : result payload) (w : admin) : admin :=
  match r with
  | Success (StatsData s) =>
      loadFormatChart (updatePopularVideos (popular_videos s) (updateDashboardStats s w))
  | Success _ => w
  | Refused _ => w
  | Failure _ error => console_error ("Failed to load dashboard data: " +:+ error) w
  end.

Definition loadFormatChart_done (r : result payload) (w : admin) : admin :=
  match r with
  | Success (DownloadsData _ (Some format_stats)) => updateFormatChart format_stats w
  | _ => w
  end.

Definition loadVisitors_done (r : result payload) (w : admin) : admin :=
  match r with
  | Success (VisitorsData visitors) => updateVisitorsTable visitors w
  | Success _ => w
  | Refused _ => w
  | Failure _ error => console_error ("Failed to load visitors: " +:+ error) w
  end.

Definition loadBanners_done (r : result payload) (w : admin) : admin :=
  match r with
  | Success (BannersData banners) => updateBannersGrid banners w
  | Success _ => w
  | Refused _ => w
  | Failure _ error => console_error ("Failed to load banners: " +:+ error) w
  end.

Definition loadDownloads_done (r : result payload) (w : admin) : admin :=
  match r with
  | Success (DownloadsData recent_downloads _) => updateDownloadsTable recent_downloads w
  | Success _ => w
  | Refused _ => w
  | Failure _ error => console_error ("Failed to load downloads: " +:+ error) w
  end.

Definition loadSettings_done (r : result payload) (w : admin) : admin :=
  match r with
  | Success (SettingsData settings) => updateSettingsForm settings w
  | Success _ => w
  | Refused _ => w
  | Failure _ error => console_error ("Failed to load settings: " +:+ error) w
  end.

(** *** Navigation *)

Definition has_class (c : string) (e : element) : bool :=
  existsb (String.eqb c) (classes e).

(** [$('.sel').removeClass(c)] *)
Definition removeClass (sel c : string) (els : list element) : list element :=
  map (fun e =>
         if has_class sel e
         then {| el_id := el_id e;
                 classes := filter (fun x => x ≠ c) (classes e) |}
         else e) els.

(** [$('#id').addClass(c)]: an id selector yields the first element with
    that id, if there is one. *)
Fixpoint addClass_by_id (id c : string) (els : list element) : list element :=
  match els with
  | [] => []
  | e :: rest =>
      if String.eqb (el_id e) id
      then (if has_class c e then e
            else {| el_id := el_id e; classes := classes e ++ [c] |}) :: rest
      else e :: addClass_by_id id c rest
  end.

(** The [titles] table of [showSection]. *)
Definition titles : list (string * string) :=
  [ ("dashboard", "Dashboard");
    ("visitors", "Quản lý Visitors");
    ("banners", "Quản lý Banners");
    ("downloads", "Thống kê Downloads");
    ("settings", "Cài đặt hệ thống") ].

Fixpoint lookup_title (section : string) (t : list (string * string)) : option string :=
  match t with
  | [] => None
  | (k, v) :: rest => if String.eqb k section then Some v else lookup_title section rest
  end.

(** [showSection(section)].  The selector [#<section>-section] is read as an
    id selector, which it is for the section names of the sidebar. *)
Definition showSection (section : string) (w : admin) : admin :=
  let w1 := set_currentSection section w in
  let w2 := on_doc (fun d => set_elements (removeClass "content-section" "active" (elements d)) d) w1 in
  let w3 := on_doc (fun d =>
              set_elements (addClass_by_id (section +:+ "-section") "active" (elements d)) d) w2 in
  let title :=
    match lookup_title section titles with
    | Some t => if Text.truthy t then t else "Dashboard"
    | None => "Dashboard"
    end in
  let w4 := on_doc (set_page_title title) w3 in
  if String.eqb section "dashboard" then loadDashboardData w4
  else if String.eqb section "visitors" then loadVisitors w4
  else if String.eqb section "banners" then loadBanners w4
  else if String.eqb section "downloads" then loadDownloads w4
  else if String.eqb section "settings" then loadSettings w4
  else w4.

(** The click handler [setupNavigation] binds to every [.nav-item], run for
    the [i]-th of them. *)
Definition nav_item_click (i : nat) (w : admin) : admin :=
  match nav_items (doc w) !! i with
  | None => w
  | Some it =>
      let cleared := map (fun n => {| data_section := data_section n; nav_active := false |})
                         (nav_items (doc w)) in
      let marked := <[ i := {| data_section := data_section it; nav_active := true |} ]> cleared in
      showSection (data_section it) (on_doc (set_nav_items marked) w)
  end.

(** The callback of the 30 s refresh interval set up by [init]. *)
Definition auto_refresh (w : admin) : admin :=
  if String.eqb (currentSection w) "dashboard" then loadDashboardData w
  else if String.eqb (currentSection w) "visitors" then loadVisitors w
  else w.

(** *** Banner management *)

Definition closeBannerModal (w : admin) : admin :=
  on_doc (set_banner_modal false) w.

Definition blank_banner_fields : banner_fields :=
  {| f_id := ""; f_title := ""; f_description := ""; f_link := "";
     f_position := ""; f_status := false; f_image := None |}.

(** [loadBannerData(bannerId)] *)
Definition loadBannerData (bannerId : nat) (w : admin) : admin :=
  ajax "/admin/api/banners" "GET" NoBody (OnBannerData bannerId) w.

(** [showBannerModal(bannerId = null)]; an id of 0 is falsy like [null].
    [form.reset()] puts every field back to the value the template gives it,
    taken to be blank. *)
Definition showBannerModal (bannerId : option nat) (w : admin) : admin :=
  let w1 :=
    match bannerId with
    | Some (S n) =>
        loadBannerData (S n) (on_doc (set_banner_modal_title "Chỉnh sửa Banner") w)
    | _ =>
        on_doc (fun d => set_banner_form blank_banner_fields
                           (set_banner_modal_title "Thêm Banner" d)) w
    end in
  on_doc (set_banner_modal true) w1.

Definition loadBannerData_done (bannerId : nat) (r : result payload) (w : admin) : admin :=
  match r with
  | Success (BannersData banners) =>
      match List.find (fun b => banner_id b =? bannerId) banners with
      | Some b =>
          let fields :=
            {| f_id := pretty (banner_id b); f_title := banner_title b;
               f_description := banner_description b; f_link := banner_link_url b;
               f_position := banner_position b; f_status := banner_status b;
               f_image := f_image (banner_form (doc w)) |} in
          let w1 := on_doc (set_banner_form fields) w in
          if Text.truthy (banner_image_path b)
          then on_doc (set_image_preview (Some (banner_image_path b))) w1
          else w1
      | None => w
      end
  | _ => w
  end.

(** [saveBanner(data, isEdit)] *)
Definition saveBanner (data : banner_payload) (isEdit : bool) (w : admin) : admin :=
  let method := if isEdit then "PUT" else "POST" in
  ajax "/admin/api/banners" method (BannerJson data) OnSaveBanner w.

Definition saveBanner_done (r : result payload) (w : admin) : admin :=
  match r with
  | Success (Message message) =>
      loadBanners (closeBannerModal (showAlert message "success" w))
  | Success _ => w
  | Refused error => showAlert error "error" w
  | Failure _ error => showAlert ("Lỗi lưu banner: " +:+ error) "error" w
  end.

(** [uploadBannerImage(file, callback)], where the callback is the closure of
    the submit handler over [formData] and [isEdit]. *)
Definition uploadBannerImage (file : string) (formData : banner_payload) (isEdit : bool)
    (w : admin) : admin :=
  ajax "/admin/upload" "POST" (ImageForm file) (OnUpload formData isEdit) w.

Definition with_image_path (imagePath : string) (formData : banner_payload) : banner_payload :=
  {| p_title := p_title formData; p_description := p_description formData;
     p_link_url := p_link_url formData; p_position := p_position formData;
     p_status := p_status formData; p_id := p_id formData;
     p_image_path := Some imagePath |}.

Definition uploadBannerImage_done (formData : banner_payload) (isEdit : bool)
    (r : result payload) (w : admin) : admin :=
  match r with
  | Success (ImagePath imagePath) => saveBanner (with_image_path imagePath formData) isEdit w
  | Success _ => w
  | Refused error => showAlert error "error" w
  | Failure _ error => showAlert ("Lỗi upload ảnh: " +:+ error) "error" w
  end.

(** The first handler bound to the submit of [#banner-form]. *)
Definition banner_form_submit_save (w : admin) : admin :=
  let f := banner_form (doc w) in
  let bannerId := f_id f in
  let isEdit := negb (String.eqb bannerId "") in
  let formData :=
    {| p_title := f_title f; p_description := f_description f;
       p_link_url := f_link f; p_position := f_position f;
       p_status := f_status f;
       p_id := if isEdit then Some bannerId else None;
       p_image_path := None |} in
  match f_image f with
  | Some imageFile => uploadBannerImage imageFile formData isEdit w
  | None => saveBanner formData isEdit w
  end.

(** [validateBannerForm()]: its verdict and what it did to the page. *)
Definition validateBannerForm (w : admin) : bool * admin :=
  let title := Text.trim (f_title (banner_form (doc w))) in
  let position := f_position (banner_form (doc w)) in
  if negb (Text.truthy title) then
    (false, showAlert "Vui lòng nhập tiêu đề banner" "error" w)
  else if negb (Text.truthy position) then
    (false, showAlert "Vui lòng chọn vị trí banner" "error" w)
  else (true, w).

(** The second handler bound to the submit of [#banner-form]; returning
    false only cancels the browser's own submission. *)
Definition banner_form_submit_validate (w : admin) : admin :=
  snd (validateBannerForm w).

(** A submit event on [#banner-form]: jQuery runs the handlers bound to an
    element in the order they were bound. *)
Definition banner_form_submit (w : admin) : admin :=
  banner_form_submit_validate (banner_form_submit_save w).

(** [deleteBanner(bannerId)] *)
Definition deleteBanner (bannerId : nat) (w : admin) : admin :=
  ajax "/admin/api/banners" "DELETE" (DeleteJson bannerId) OnDeleteBanner w.

Definition deleteBanner_done (r : result payload) (w : admin) : admin :=
  match r with
  | Success (Message message) => loadBanners (showAlert message "success" w)
  | Success _ => w
  | Refused error => showAlert error "error" w
  | Failure _ error => showAlert ("Lỗi xóa banner: " +:+ error) "error" w
  end.

(** The click handler of [.delete-banner]; [confirmed] is the answer to the
    confirmation dialog. *)
Definition delete_banner_click (bannerId : nat) (confirmed : bool) (w : admin) : admin :=
  if confirmed then deleteBanner bannerId w else w.

(** *** Settings *)

(** The object [saveSettings] fills: one property per input, a later input
    overwriting an earlier one of the same name. *)
Definition collect_settings (inputs : list setting_input) : gmap string string :=
  foldl (fun settings i => <[ input_name i := input_value i ]> settings) ∅ inputs.

Definition saveSettings (w : admin) : admin :=
  let settings := collect_settings (settings_form (doc w)) in
  ajax "/admin/api/settings" "POST" (SettingsJson settings) OnSaveSettings w.

Definition saveSettings_done (r : result payload) (w : admin) : admin :=
  match r with
  | Success (Message message) => showAlert message "success" w
  | Success _ => w
  | Refused error => showAlert error "error" w
  | Failure _ error => showAlert ("Lỗi lưu cài đặt: " +:+ error) "error" w
  end.

(** The delegated [input] handler of [#settings-form]. *)
Definition settings_form_input (w : admin) : admin :=
  let b1 := clearTimeout (autoSaveTimeout w) (browser w) in
  let (id, b2) := setTimeout AutoSave 2000%N b1 in
  set_autoSaveTimeout (Some id) (set_browser b2 w).

(** The callback the handler above hands to [setTimeout]. *)
Definition auto_save (w : admin) : admin :=
  saveSettings (showAlert "Tự động lưu cài đặt..." "info" w).

Definition set_input_value (v : string) (i : setting_input) : setting_input :=
  {| input_name := input_name i; input_label := input_label i; input_value := v |}.

(** The user changes the [i]-th input of the settings form to [v]; the
    browser updates the value and then dispatches the [input] event. *)
Definition type_setting (i : nat) (v : string) (w : admin) : admin :=
  match settings_form (doc w) !! i with
  | None => w
  | Some inp =>
      settings_form_input
        (on_doc (fun d => set_settings_form (<[ i := set_input_value v inp ]> (settings_form d)) d) w)
  end.

(** *** Refresh buttons *)

Definition refreshVisitors (w : admin) : admin :=
  showAlert "Đã làm mới danh sách visitors" "info" (loadVisitors w).

Definition refreshDownloads (w : admin) : admin :=
  showAlert "Đã làm mới thống kê downloads" "info" (loadDownloads w).

(** *** Export *)

(** [getTableData(tableSelector)], on the table the selector finds. *)
Definition getTableData (t : table) : list (list string) :=
  headers t
  :: map (fun r => map Text.replace_commas (cells r))
         (List.filter visible (body_rows t)).

(** The [csvContent] of [downloadCSV]. *)
Definition csvContent (data : list (list string)) : string :=
  Text.join Text.newline (map (Text.join ",") data).

Definition downloadCSV (data : list (list string)) (filename : string) (w : admin) : admin :=
  showAlert ("Đã xuất file " +:+ filename) "success"
    (set_saved_files (saved_files w ++ [(filename, csvContent data)]) w).

(** [exportData(type)], given the two tables as they stand in the document. *)
Definition exportData (type : string) (visitors_table downloads_table : table)
    (w : admin) : admin :=
  let '(data, filename) :=
    if String.eqb type "visitors" then (getTableData visitors_table, "visitors_export.csv")
    else if String.eqb type "downloads" then (getTableData downloads_table, "downloads_export.csv")
    else if String.eqb type "banners" then ([], "banners_export.csv")
    else ([], "") in
  match data with
  | [] => w
  | _ => downloadCSV data filename w
  end.

(** *** Session probe *)

(** The callback of the 5 min interval: one more GET of the stats. *)
Definition session_check (w : admin) : admin :=
  ajax "/admin/api/stats" "GET" NoBody OnSessionProbe w.

(** Its [success] callback runs on any 2xx answer, whatever the envelope
    says; its [error] callback looks at the status. *)
Definition session_check_done (r : result payload) (w : admin) : admin :=
  match r with
  | Failure status _ =>
      if (status =? 401) && negb (sessionWarningShown w) then
        showAlert "Phiên đăng nhập sắp hết hạn. Vui lòng làm mới trang." "error"
          (set_sessionWarningShown true w)
      else w
  | _ => set_sessionWarningShown false w
  end.

(** *** The page as a whole *)

Inductive event : Type :=
| Tick (dt : N)                             (* time passes *)
| TimerFires (i : nat)                      (* the browser runs timer [i] *)
| Answer (n : nat) (r : result payload)     (* the [n]-th waiting request is answered *)
| NavClick (i : nat)                        (* click on the [i]-th [.nav-item] *)
| BannerFormEdited (f : banner_fields)      (* the user fills in the banner form *)
| BannerFormSubmit
| ShowBannerModal (bannerId : option nat)   (* "add" button, or an [.edit-banner] *)
| CloseBannerModal
| DeleteBannerClick (bannerId : nat) (confirmed : bool)
| SettingTyped (i : nat) (v : string)       (* the user edits a settings input *)
| SaveSettingsClick
| RefreshVisitorsClick
| RefreshDownloadsClick
| ExportClick (type : string) (visitors_table downloads_table : table).

(** What a timer does when it fires.  The memory monitor may print a
    console warning, depending on the heap; it touches nothing else. *)
Definition run_task (j : task) (w : admin) : admin :=
  match j with
  | AutoRefresh => auto_refresh w
  | MemoryMonitor => w
  | SessionCheck => session_check w
  | AutoSave => auto_save w
  | AlertTimeout a => on_browser (alert_timeout a) w
  | FadeDone a => on_browser (fade_done a) w
  end.

Definition dispatch (cb : callback) (r : result payload) (w : admin) : admin :=
  match cb with
  | OnStats => loadDashboardData_done r w
  | OnFormatChart => loadFormatChart_done r w
  | OnVisitors => loadVisitors_done r w
  | OnBanners => loadBanners_done r w
  | OnDownloads => loadDownloads_done r w
  | OnSettings => loadSettings_done r w
  | OnBannerData bannerId => loadBannerData_done bannerId r w
  | OnUpload formData isEdit => uploadBannerImage_done formData isEdit r w
  | OnSaveBanner => saveBanner_done r w
  | OnDeleteBanner => deleteBanner_done r w
  | OnSaveSettings => saveSettings_done r w
  | OnSessionProbe => session_check_done r w
  end.

Definition answer (n : nat) (r : result payload) (w : admin) : admin :=
  match awaiting w !! n with
  | None => w
  | Some q => dispatch (on_answer q) r (set_awaiting (delete n (awaiting w)) w)
  end.

Definition step (e : event) (w : admin) : admin :=
  match e with
  | Tick dt => on_browser (tick dt) w
  | TimerFires i =>
      match take_timer i (browser w) with
      | None => w
      | Some (j, b) => run_task j (set_browser b w)
      end
  | Answer n r => answer n r w
  | NavClick i => nav_item_click i w
  | BannerFormEdited f => on_doc (set_banner_form f) w
  | BannerFormSubmit => banner_form_submit w
  | ShowBannerModal bannerId => showBannerModal bannerId w
  | CloseBannerModal => closeBannerModal w
  | DeleteBannerClick bannerId confirmed => delete_banner_click bannerId confirmed w
  | SettingTyped i v => type_setting i v w
  | SaveSettingsClick => saveSettings w
  | RefreshVisitorsClick => refreshVisitors w
  | RefreshDownloadsClick => refreshDownloads w
  | ExportClick type vt dt => exportData type vt dt w
  end.

Definition run (evs : list event) (w : admin) : admin :=
  foldl (fun q e => step e q) w evs.

(** [init()] *)
Definition init (w : admin) : admin :=
  let w1 := loadDashboardData w in
  on_browser (fun b => snd (setInterval AutoRefresh 30000%N b)) w1.

(** The whole [$(document).ready] callback, run on the document the
    template delivers: [init()], then the memory monitor and the session
    probe are armed, then the dashboard is loaded once more. *)
Definition ready (template : document) : admin :=
  let w0 :=
    {| browser := Browser.fresh; doc := template; currentSection := "dashboard";
       sessionWarningShown := false; autoSaveTimeout := None;
       sent := []; awaiting := []; console := []; saved_files := [] |} in
  let w1 := init w0 in
  let w2 := on_browser (fun b => snd (setInterval MemoryMonitor 30000%N b)) w1 in
  let w3 := on_browser (fun b => snd (setInterval SessionCheck 300000%N b)) w2 in
  loadDashboardData w3.

End Admin.

(** ** Vocabulary for the properties of the admin panel *)

Module Panel.

Import Browser Net Admin.

(** The five sections of the admin panel. *)
Inductive section_name : Type :=
| Dashboard | Visitors | Banners | Downloads | Settings.

Definition section_id (s : section_name) : string :=
  match s with
  | Dashboard => "dashboard"
  | Visitors => "visitors"
  | Banners => "banners"
  | Downloads => "downloads"
  | Settings => "settings"
  end.

(** The loader that goes with each section. *)
Definition loader_of (s : section_name) : admin -> admin :=
  match s with
  | Dashboard => loadDashboardData
  | Visitors => loadVisitors
  | Banners => loadBanners
  | Downloads => loadDownloads
  | Settings => loadSettings
  end.

(** The callback pair each loader registers. *)
Definition callback_of (s : section_name) : callback :=
  match s with
  | Dashboard => OnStats
  | Visitors => OnVisitors
  | Banners => OnBanners
  | Downloads => OnDownloads
  | Settings => OnSettings
  end.

(** The endpoint each loader reads. *)
Definition endpoint_of (s : section_name) : string :=
  match s with
  | Dashboard => "/admin/api/stats"
  | Visitors => "/admin/api/visitors"
  | Banners => "/admin/api/banners"
  | Downloads => "/admin/api/downloads"
  | Settings => "/admin/api/settings"
  end.

(** The request a loader issues. *)
Definition load_request (s : section_name) : request :=
  {| url := endpoint_of s; method := "GET"; payload_sent := NoBody;
     on_answer := callback_of s |}.

(** The id of the content region of a section. *)
Definition region_id (s : section_name) : string := section_id s +:+ "-section".

(** A content region is displayed when it carries both classes (admin.css:
    [.content-section] is [display: none], [.content-section.active] is
    [display: block]). *)
Definition displayed_region (e : element) : bool :=
  has_class "content-section" e && has_class "active" e.

(** Reading CSV text back, to state what the export writes.  The fields
    between the occurrences of a separator, as [String.prototype.split] gives
    them: one field more than there are separators. *)
Fixpoint split_on (c : ascii) (s : string) : list string :=
  match s with
  | EmptyString => [EmptyString]
  | String d s' =>
      if Ascii.eqb c d then EmptyString :: split_on c s'
      else
        match split_on c s' with
        | field :: fields => String d field :: fields
        | [] => [String d EmptyString]
        end
  end.

(** The rows of a CSV text: its lines, each cut at its commas. *)
Definition csv_rows (text : string) : list (list string) :=
  map (split_on ",") (split_on (ascii_of_nat 10) text).

(** The object the submit handler builds from the form. *)
Definition submitted_payload (f : banner_fields) : banner_payload :=
  {| p_title := f_title f; p_description := f_description f;
     p_link_url := f_link f; p_position := f_position f; p_status := f_status f;
     p_id := if negb (String.eqb (f_id f) "") then Some (f_id f) else None;
     p_image_path := None |}.

Definition upload_request (file : string) (f : banner_fields) : request :=
  {| url := "/admin/upload"; method := "POST"; payload_sent := ImageForm file;
     on_answer := OnUpload (submitted_payload f) (negb (String.eqb (f_id f) "")) |}.

Definition save_request (method : string) (data : banner_payload) : request :=
  {| url := "/admin/api/banners"; method := method; payload_sent := BannerJson data;
     on_answer := OnSaveBanner |}.

(** The method the form's id field calls for. *)
Definition save_method (f : banner_fields) : string :=
  if String.eqb (f_id f) "" then "POST" else "PUT".

(** A document with the five regions and the five sidebar links, the
    dashboard being displayed, for running the panel on a concrete page. *)
Definition example_template : document :=
  {| elements :=
       [ {| el_id := "dashboard-section"; classes := ["content-section"; "active"] |};
         {| el_id := "visitors-section"; classes := ["content-section"] |};
         {| el_id := "banners-section"; classes := ["content-section"] |};
         {| el_id := "downloads-section"; classes := ["content-section"] |};
         {| el_id := "settings-section"; classes := ["content-section"] |} ];
     nav_items :=
       [ {| data_section := "dashboard"; nav_active := true |};
         {| data_section := "visitors"; nav_active := false |};
         {| data_section := "banners"; nav_active := false |};
         {| data_section := "downloads"; nav_active := false |};
         {| data_section := "settings"; nav_active := false |} ];
     page_title := "Dashboard";
     stat_cards := None;
     stat_cards_fade_in := false;
     popular_videos_box := [];
     format_chart := None;
     visitors_tbody := [];
     banners_list := [];
     downloads_tbody := [];
     settings_form :=
       [ {| input_name := "site_name"; input_label := "Site name"; input_value := "Subtitles" |};
         {| input_name := "max_downloads"; input_label := "Daily limit"; input_value := "100" |} ];
     banner_form := blank_banner_fields;
     banner_modal := false;
     banner_modal_title := "";
     image_preview := None |}.

(** *** The session probe along a run *)

(** What a probe of the session was answered, when the event is such an
    answer. *)
Definition probe_answer (e : event) (w : admin) : option (result payload) :=
  match e with
  | Answer n r =>
      match awaiting w !! n with
      | Some q => match on_answer q with OnSessionProbe => Some r | _ => None end
      | None => None
      end
  | _ => None
  end.

(** The step created an alert node. *)
Definition raises_alert (e : event) (w : admin) : bool :=
  next_aid (browser w) <? next_aid (browser (step e w)).

(** The step is the answer to a session probe and its callback raised the
    warning. *)
Definition session_warning (e : event) (w : admin) : bool :=
  match probe_answer e w with
  | Some _ => raises_alert e w
  | None => false
  end.

(** The step is the answer to a session probe and ran its [success]
    callback. *)
Definition probe_success (e : event) (w : admin) : bool :=
  match probe_answer e w with
  | Some (Failure _ _) => false
  | Some _ => true
  | None => false
  end.

(** Along a run: at which steps the warning was raised, and at which steps a
    probe succeeded. *)
Fixpoint warnings (evs : list event) (w : admin) : list bool :=
  match evs with
  | [] => []
  | e :: evs' => session_warning e w :: warnings evs' (step e w)
  end.

Fixpoint successes (evs : list event) (w : admin) : list bool :=
  match evs with
  | [] => []
  | e :: evs' => probe_success e w :: successes evs' (step e w)
  end.

(** A run with four probes: two fail with 401, one succeeds, one fails. *)
Definition example_probe_run : list event :=
  [ Tick 300000; TimerFires 3; Answer 2 (Failure 401 "Unauthorized");
    Tick 300000; TimerFires 3; Answer 2 (Failure 401 "Unauthorized");
    Tick 300000; TimerFires 3; Answer 2 (Refused "busy");
    Tick 300000; TimerFires 3; Answer 2 (Failure 401 "Unauthorized") ].

(** *** The auto-save timeout *)

Definition is_auto_save (t : timer) : bool :=
  match job t with AutoSave => true | _ => false end.

(** The auto-save timeouts waiting in the queue. *)
Definition pending_saves (w : admin) : list timer :=
  List.filter is_auto_save (timers (browser w)).

(** Every auto-save timer in the queue is the timeout [autoSaveTimeout]
    names. *)
Definition saves_tracked (w : admin) : Prop :=
  Forall (fun t => job t = AutoSave -> autoSaveTimeout w = Some (tid t) /\ period t = None)
    (timers (browser w)).

Definition autosave_inv (w : admin) : Prop :=
  tids_fresh (browser w) /\ saves_tracked w.

(** A burst of edits on the settings page: an edit, 1.5 s later another. *)
Definition example_edits : list event :=
  [ NavClick 4; SettingTyped 0 "My site"; Tick 1500 ].

End Panel.

(** ** Vocabulary for the URL pattern of main.js *)

Module Urls.

Import Regex.

(** No line terminator (LF, CR, U+2028, U+2029) among the characters of the
    string. *)
Definition single_line (s : string) : bool :=
  forallb (fun c => negb (is_line_terminator c)) (Text.code_units s).

(** An optional scheme, an optional [www.], one of the two hosts, a slash
    and a non-empty rest on one line. *)
Definition youtube_url_shape (url : string) : Prop :=
  exists scheme www host rest,
    url = scheme +:+ www +:+ host +:+ "/" +:+ rest
    /\ (scheme = "" \/ scheme = "http://" \/ scheme = "https://")
    /\ (www = "" \/ www = "www.")
    /\ (host = "youtube.com" \/ host = "youtu.be")
    /\ rest <> "" /\ single_line rest = true.

End Urls.

(** ** More [String.prototype] methods *)

Module TextMore.

(** [s.toLowerCase()] on the letters A-Z. *)
Definition lower_char (c : ascii) : ascii :=
  let n := nat_of_ascii c in
  if (65 <=? n) && (n <=? 90) then ascii_of_nat (n + 32) else c.

Fixpoint toLowerCase (s : string) : string :=
  match s with
  | EmptyString => EmptyString
  | String c s' => String (lower_char c) (toLowerCase s')
  end.

(** [s.startsWith(p)] *)
Fixpoint startsWith (p s : string) : bool :=
  match p with
  | EmptyString => true
  | String c p' =>
      match s with
      | EmptyString => false
      | String d s' => Ascii.eqb c d && startsWith p' s'
      end
  end.

(** [s.includes(needle)] *)
Fixpoint includes (s needle : string) : bool :=
  startsWith needle s
  || match s with
     | EmptyString => false
     | String _ s' => includes s' needle
     end.

Fixpoint repeat_char (k : nat) (c : ascii) : string :=
  match k with
  | 0 => EmptyString
  | S k' => String c (repeat_char k' c)
  end.

(** [s.padStart(n, c)] for a pad of one character. *)
Definition padStart (n : nat) (c : ascii) (s : string) : string :=
  repeat_char (n - String.length s) c +:+ s.

(** [s.replace(q, '')] for the pattern [q] of one single or double quote,
    with flag [g]. *)
Fixpoint remove_quotes (s : string) : string :=
  match s with
  | EmptyString => EmptyString
  | String c s' =>
      if Ascii.eqb c "'" || Ascii.eqb c (ascii_of_nat 34)
      then remove_quotes s'
      else String c (remove_quotes s')
  end.

End TextMore.

(** ** main.js: display helpers, live validation, the downloaded file's name *)

Module MainMore.

Import Main TextMore.

(** [formatDuration(seconds)], for a whole number of seconds. *)
Definition formatDuration (seconds : nat) : string :=
  if seconds =? 0 then "N/A"
  else
    let hours := seconds / 3600 in
    let minutes := (seconds mod 3600) / 60 in
    let secs := seconds mod 60 in
    if 0 <? hours then
      pretty hours +:+ ":" +:+ padStart 2 "0" (pretty minutes)
        +:+ ":" +:+ padStart 2 "0" (pretty secs)
    else
      pretty minutes +:+ ":" +:+ padStart 2 "0" (pretty secs).

(** *** The file name in a Content-Disposition header

    The header is matched against the pattern
    [filename], then [[^;=\n]*], then [=], then group 1, which is either a
    quote (single or double, group 2) followed by [.*?] and group 2 again, or
    [[^;\n]*].  The match is the leftmost one.  The class after [filename]
    cannot match [=], so its run is taken whole and must be followed by
    [=].

    The header is a byte string in the sense of [fetch]: [headers.get]
    gives one code unit per byte, so a code unit above 255 does not occur
    and the line terminators [.] refuses are LF and CR. *)

(** The rest of [s] after the literal [p], when [s] starts with it. *)
Fixpoint after_literal (p s : string) : option string :=
  match p with
  | EmptyString => Some s
  | String c p' =>
      match s with
      | EmptyString => None
      | String d s' => if Ascii.eqb c d then after_literal p' s' else None
      end
  end.

Definition is_semicolon (c : ascii) : bool := Ascii.eqb c ";".
Definition is_equals (c : ascii) : bool := Ascii.eqb c "=".
Definition is_line_feed (c : ascii) : bool := nat_of_ascii c =? 10.
Definition is_line_break (c : ascii) : bool :=
  (nat_of_ascii c =? 10) || (nat_of_ascii c =? 13).
Definition is_quote (c : ascii) : bool :=
  Ascii.eqb c "'" || Ascii.eqb c (ascii_of_nat 34).

(** [[^;=\n]*]: what is left after the longest run. *)
Fixpoint skip_name_run (s : string) : string :=
  match s with
  | EmptyString => EmptyString
  | String c s' =>
      if is_semicolon c || is_equals c || is_line_feed c then s else skip_name_run s'
  end.

(** The text after [=] when the pattern matches at the very start of [s]. *)
Definition value_here (s : string) : option string :=
  match after_literal "filename" s with
  | None => None
  | Some r =>
      match skip_name_run r with
      | String c v => if is_equals c then Some v else None
      | EmptyString => None
      end
  end.

(** The text after [=] at the leftmost match. *)
Fixpoint value_text (s : string) : option string :=
  match value_here s with
  | Some v => Some v
  | None =>
      match s with
      | EmptyString => None
      | String _ s' => value_text s'
      end
  end.

(** [.*?\2] after an opening quote [q]: the shortest run of characters other
    than line terminators that is followed by [q]; the run is returned. *)
Fixpoint until_quote (q : ascii) (s : string) : option string :=
  match s with
  | EmptyString => None
  | String c s' =>
      if Ascii.eqb c q then Some EmptyString
      else if is_line_break c then None
      else
        match until_quote q s' with
        | Some body => Some (String c body)
        | None => None
        end
  end.

(** [[^;\n]*]: the longest run. *)
Fixpoint value_run (s : string) : string :=
  match s with
  | EmptyString => EmptyString
  | String c s' =>
      if is_semicolon c || is_line_feed c then EmptyString else String c (value_run s')
  end.

(** Group 1 of the match: the quoted alternative is tried first. *)
Definition group1 (v : string) : string :=
  match v with
  | String q v' =>
      if is_quote q then
        match until_quote q v' with
        | Some body => String q (body +:+ String q EmptyString)
        | None => value_run v
        end
      else value_run v
  | EmptyString => EmptyString
  end.

(** The file name [downloadSubtitle] reads off the header: [None] when the
    default name stays (no match, or an empty group 1). *)
Definition disposition_filename (contentDisposition : string) : option string :=
  match value_text contentDisposition with
  | None => None
  | Some v =>
      let g := group1 v in
      if Text.truthy g then Some (remove_quotes g) else None
  end.

(** The name the downloaded file gets, for the header the response carries
    (if any). *)
Definition download_name (format : string) (header : option string) : string :=
  default ("subtitle." +:+ format)
    (match header with
     | Some h => if Text.truthy h then disposition_filename h else None
     | None => None
     end).

(** Names for stating what the pattern reads: a string without semicolon,
    line feed or quote, a string without line feed or carriage return, and a
    string without quote, line feed or carriage return. *)
Fixpoint plain_name (s : string) : bool :=
  match s with
  | EmptyString => true
  | String c s' =>
      negb (is_semicolon c || is_line_feed c || is_quote c) && plain_name s'
  end.

Fixpoint no_line_break (s : string) : bool :=
  match s with
  | EmptyString => true
  | String c s' => negb (is_line_break c) && no_line_break s'
  end.

Fixpoint quotable (s : string) : bool :=
  match s with
  | EmptyString => true
  | String c s' => negb (is_quote c || is_line_break c) && quotable s'
  end.

End MainMore.

(** ** admin.js: keyboard, modal, search, bulk delete, dark mode *)

Module AdminMore.

Import Browser Net Admin TextMore.

(** What a key press leaves: the page, or a reload of it. *)
Inductive key_outcome : Type :=
| Stays (w : admin)
| Reloads.

(** [$(document).keydown(...)], for the event's [ctrlKey] and [which]. *)
Definition keydown (ctrlKey : bool) (which : nat) (w : admin) : key_outcome :=
  let w1 :=
    if ctrlKey && (which =? 83) && String.eqb (currentSection w) "settings"
    then saveSettings w else w in
  let w2 :=
    if ctrlKey && (which =? 78) && String.eqb (currentSection w1) "banners"
    then showBannerModal None w1 else w1 in
  let w3 :=
    if which =? 27 then on_doc (set_banner_modal false) w2 else w2 in
  if which =? 116 then
    if String.eqb (currentSection w3) "visitors" then Stays (refreshVisitors w3)
    else if String.eqb (currentSection w3) "downloads" then Stays (refreshDownloads w3)
    else Reloads
  else Stays w3.

(** [$('.close').click(...)], for the close button of the banner modal. *)
Definition close_click (w : admin) : admin :=
  on_doc (set_banner_modal false) w.

(** [$(window).click(...)]; [on_backdrop] tells whether the target of the
    click carries class [modal]. *)
Definition window_click (on_backdrop : bool) (w : admin) : admin :=
  if on_backdrop then on_doc (set_banner_modal false) w else w.

(** A body row together with the text [$(this).text()] gives for it. *)
Record text_row : Type := {
  row_text : string;
  the_row : row
}.

(** The search box lower-cases both texts with [String.prototype.toLowerCase].
    What that method does to the letters outside ASCII is not fixed here:
    the search is defined over the mapping, and [TextMore.toLowerCase] is the
    instance for ASCII text. *)
Section Search.

Variable lower : string -> string.

(** [$('.search-input').on('input', ...)], on the body rows of the target
    table: a row is shown when its lower-cased text holds the lower-cased
    search term, and hidden otherwise.  The table being on display, a shown
    row is one [:visible] selects. *)
Definition search_input (value : string) (rows : list text_row) : list text_row :=
  let searchTerm := lower value in
  map (fun r =>
         {| row_text := row_text r;
            the_row := {| visible := includes (lower (row_text r)) searchTerm;
                          cells := cells (the_row r) |} |}) rows.

(** The test [search_input] applies to a row. *)
Definition matches_search (value : string) (r : text_row) : bool :=
  includes (lower (row_text r)) (lower value).

End Search.

(** [bulkDeleteBanners()], for the values of the checked boxes and the
    answer to the confirmation dialog. *)
Definition bulkDeleteBanners (selectedBanners : list string) (confirmed : bool)
    (w : admin) : admin :=
  match selectedBanners with
  | [] => showAlert "Vui lòng chọn banner để xóa" "error" w
  | _ => if confirmed then showAlert "Tính năng đang phát triển" "info" w else w
  end.

(** The dark-mode state: the class on the body and the [darkMode] entry of
    local storage. *)
Record theme : Type := {
  dark_mode : bool;
  stored : option string
}.

(** [toggleDarkMode()] *)
Definition toggleDarkMode (t : theme) : theme :=
  let d := negb (dark_mode t) in
  {| dark_mode := d; stored := Some (if d then "true" else "false") |}.

(** The page as loaded with the given storage entry: the class is added when
    the entry is the string [true]. *)
Definition load_theme (entry : option string) : theme :=
  {| dark_mode := match entry with
                  | Some s => String.eqb s "true"
                  | None => false
                  end;
     stored := entry |}.

(** The check behind [regions_ok]: the region of a section is there and is a
    content region. *)
Definition has_region (section : string) (els : list element) : bool :=
  match List.find (fun e => String.eqb (el_id e) (section +:+ "-section")) els with
  | Some e => has_class "content-section" e
  | None => false
  end.

(** Every sidebar link has its content region. *)
Definition regions_ok (d : document) : bool :=
  forallb (fun it => has_region (data_section it) (elements d)) (nav_items d).

(** The content regions on display are exactly the one of [section]. *)
Definition shows_only (section : string) (d : document) : Prop :=
  exists e,
    List.filter Panel.displayed_region (elements d) = [e]
    /\ el_id e = section +:+ "-section".

(** The name and value of every input of the settings form, in document
    order. *)
Definition setting_pairs (inputs : list setting_input) : list (string * string) :=
  map (fun i => (input_name i, input_value i)) inputs.

(** Timer [k] is pending and is the interval that runs [j] every [p]
    milliseconds. *)
Definition interval_armed (k : nat) (j : task) (p : N) (b : Browser.browser) : Prop :=
  exists d,
    find_timer k b = Some {| tid := k; due := d; period := Some p; job := j |}.

(** Every timer of the queue under identifier [k] is that interval, and
    there is one. *)
Definition interval_kept (k : nat) (j : task) (p : N) (ts : list timer) : Prop :=
  Forall (fun t => tid t = k -> job t = j /\ period t = Some p) ts
  /\ Exists (fun t => tid t = k) ts.

(** The three intervals of the page hold identifiers 1, 2 and 3; every
    identifier handed out later, the auto-save timeout's among them, is
    larger. *)
Definition intervals_inv (w : admin) : Prop :=
  4 <= next_tid (browser w)
  /\ (forall id, autoSaveTimeout w = Some id -> 4 <= id)
  /\ interval_kept 1 AutoRefresh 30000 (timers (browser w))
  /\ interval_kept 2 MemoryMonitor 30000 (timers (browser w))
  /\ interval_kept 3 SessionCheck 300000 (timers (browser w)).

End AdminMore.

(** * Properties *)

(** ** Text *)

Section TextFacts.

Import Text.

Lemma append_cons c s t : String c s +:+ t = String c (s +:+ t).
Proof. reflexivity. Qed.

Lemma append_nil s : "" +:+ s = s.
Proof. reflexivity. Qed.

Lemma count_char_app c s t :
  count_char c (s +:+ t) = count_char c s + count_char c t.
Proof.
  induction s as [|d s IH]; [reflexivity|].
  rewrite append_cons. cbn [count_char]. rewrite IH. lia.
Qed.

Lemma contains_char_count c s :
  contains_char c s = false <-> count_char c s = 0.
Proof.
  induction s as [|d s IH]; cbn [contains_char count_char]; [tauto|].
  destruct (Ascii.eqb c d); cbn [orb]; [split; [discriminate | lia]|exact IH].
Qed.

Lemma replace_commas_no_comma s :
  contains_char "," (replace_commas s) = false.
Proof.
  induction s as [|c s IH]; cbn [replace_commas contains_char]; [reflexivity|].
  rewrite IH, orb_false_r.
  destruct (Ascii.eqb c ",") eqn:E; [reflexivity|].
  rewrite Ascii.eqb_sym. exact E.
Qed.

Lemma replace_commas_id s :
  contains_char "," s = false -> replace_commas s = s.
Proof.
  induction s as [|c s IH]; cbn [replace_commas contains_char]; [reflexivity|].
  intros H. apply orb_false_elim in H as [Hc Hs].
  rewrite Ascii.eqb_sym in Hc. rewrite Hc, IH by exact Hs. reflexivity.
Qed.

(** The byte sequences [trim] strips are the UTF-8 forms of the white space
    and line terminator characters of ECMAScript, and [trim] strips each of
    them from both ends. *)
Example trim_strips_white_space :
  Forall (fun '(u, b) =>
            code_units (of_bytes b) = [u]
            /\ trim (of_bytes b +:+ "x y" +:+ of_bytes b) = "x y")
    [ (9%N, [9]); (10%N, [10]); (11%N, [11]); (12%N, [12]); (13%N, [13]);
      (32%N, [32]); (160%N, [194; 160]); (5760%N, [225; 154; 128]);
      (8192%N, [226; 128; 128]); (8193%N, [226; 128; 129]);
      (8194%N, [226; 128; 130]); (8195%N, [226; 128; 131]);
      (8196%N, [226; 128; 132]); (8197%N, [226; 128; 133]);
      (8198%N, [226; 128; 134]); (8199%N, [226; 128; 135]);
      (8200%N, [226; 128; 136]); (8201%N, [226; 128; 137]);
      (8202%N, [226; 128; 138]); (8232%N, [226; 128; 168]);
      (8233%N, [226; 128; 169]); (8239%N, [226; 128; 175]);
      (8287%N, [226; 129; 159]); (12288%N, [227; 128; 128]);
      (65279%N, [239; 187; 191]) ].
Proof. repeat constructor. Qed.

(** Other characters stay: a trailing U+00E0, whose last byte is the last
    byte of U+00A0, and the zero width space U+200B. *)
Example trim_keeps_other_characters :
  trim (of_bytes [32; 97; 195; 160; 32]) = of_bytes [97; 195; 160]
  /\ trim (of_bytes [226; 128; 139; 97]) = of_bytes [226; 128; 139; 97].
Proof. split; reflexivity. Qed.

(** Joining fields that hold no separator puts exactly one separator between
    neighbours. *)
Lemma join_count_separators (c : ascii) (l : list string) :
  Forall (fun s => contains_char c s = false) l ->
  count_char c (join (String c EmptyString) l) = length l - 1.
Proof.
  unfold join. induction 1 as [|s l Hs Hl IH]; [reflexivity|].
  apply contains_char_count in Hs.
  destruct l as [|s' l'].
  - cbn [String.concat length]. lia.
  - change (String.concat (String c "") (s :: s' :: l'))
      with (s +:+ String c "" +:+ String.concat (String c "") (s' :: l')).
    rewrite !count_char_app, IH, Hs.
    cbn [count_char length]. rewrite Ascii.eqb_refl. lia.
Qed.

End TextFacts.

(** ** Export (admin.js, [getTableData] and [downloadCSV]) *)

Section CsvExport.

Import Text Admin Panel.

Lemma getTableData_rows (t : table) :
  tl (getTableData t)
  = map (fun r => map replace_commas (cells r)) (List.filter visible (body_rows t)).
Proof. reflexivity. Qed.

Lemma exported_rows_visible (rows : list row) :
  Forall2 (fun out r => visible r = true /\ out = map replace_commas (cells r))
    (map (fun r => map replace_commas (cells r)) (List.filter visible rows))
    (List.filter visible rows).
Proof.
  induction rows as [|r rows IH]; cbn [List.filter map]; [constructor|].
  destruct (visible r) eqn:Hv; cbn [map]; [|exact IH].
  constructor; [split; [exact Hv | reflexivity] | exact IH].
Qed.

Lemma exported_cells_no_comma (cs : list string) :
  Forall (fun c => contains_char "," c = false) (map replace_commas cs).
Proof.
  induction cs as [|c cs IH]; cbn [map]; constructor;
    [apply replace_commas_no_comma | exact IH].
Qed.

Lemma contains_char_app (c : ascii) (s t : string) :
  contains_char c (s +:+ t) = contains_char c s || contains_char c t.
Proof.
  induction s as [|d s IH]; [reflexivity|].
  rewrite append_cons. cbn [contains_char]. rewrite IH. apply orb_assoc.
Qed.

Lemma contains_char_join (c sep : ascii) (l : list string) :
  Ascii.eqb c sep = false ->
  Forall (fun s => contains_char c s = false) l ->
  contains_char c (join (String sep "") l) = false.
Proof.
  intros Hsep. unfold join. induction 1 as [|s l Hs _ IH]; [reflexivity|].
  destruct l as [|s' l']; [exact Hs|].
  change (String.concat (String sep "") (s :: s' :: l'))
    with (s +:+ String sep "" +:+ String.concat (String sep "") (s' :: l')).
  rewrite !contains_char_app, Hs, IH. cbn [contains_char]. rewrite Hsep. reflexivity.
Qed.

Lemma replace_commas_keeps_clean (c : ascii) (s : string) :
  contains_char c s = false -> Ascii.eqb c ";" = false ->
  contains_char c (replace_commas s) = false.
Proof.
  intros Hs Hc. induction s as [|d s IH]; [reflexivity|].
  cbn [contains_char] in Hs. apply orb_false_elim in Hs as [Hd Hs].
  cbn [replace_commas contains_char]. rewrite (IH Hs), orb_false_r.
  destruct (Ascii.eqb d ","); assumption.
Qed.

(** Every comma is turned into a semicolon and no other character is
    touched. *)
Lemma replace_commas_get (s : string) (i : nat) :
  String.get i (replace_commas s)
  = option_map (fun c => if Ascii.eqb c "," then ";"%char else c) (String.get i s).
Proof.
  revert i. induction s as [|c s IH]; intros i; [reflexivity|].
  cbn [replace_commas]. destruct i as [|i]; [reflexivity|]. cbn [String.get]. apply IH.
Qed.

Lemma split_on_clean (c : ascii) (s : string) :
  contains_char c s = false -> split_on c s = [s].
Proof.
  induction s as [|d s IH]; [reflexivity|].
  cbn [contains_char split_on]. intros H. apply orb_false_elim in H as [Hd Hs].
  rewrite Hd, (IH Hs). reflexivity.
Qed.

Lemma split_on_first (c : ascii) (s rest : string) :
  contains_char c s = false ->
  split_on c (s +:+ String c rest) = s :: split_on c rest.
Proof.
  induction s as [|d s IH]; intros H.
  - rewrite append_nil. cbn [split_on]. rewrite Ascii.eqb_refl. reflexivity.
  - cbn [contains_char] in H. apply orb_false_elim in H as [Hd Hs].
    rewrite append_cons. cbn [split_on]. rewrite Hd, (IH Hs). reflexivity.
Qed.

(** Cutting at the separator undoes a join of fields that hold none. *)
Lemma split_on_join (c : ascii) (l : list string) :
  l <> [] -> Forall (fun s => contains_char c s = false) l ->
  split_on c (join (String c "") l) = l.
Proof.
  intros Hne Hl. unfold join. induction Hl as [|s l Hs Hl IH]; [contradiction|].
  destruct l as [|s' l']; [apply split_on_clean, Hs|].
  change (String.concat (String c "") (s :: s' :: l'))
    with (s +:+ String c (String.concat (String c "") (s' :: l'))).
  rewrite split_on_first by exact Hs. rewrite IH by discriminate. reflexivity.
Qed.

(** C5, as stated, fails: the header cells are written as they are and
    nothing is done about line feeds, so a comma in a header cell splits the
    first row of the text, and a line feed in a body cell adds a row to
    it. *)
Lemma export_csv_breaks_on_separators :
  let t := {| headers := ["Name, first"; "Page"];
              body_rows :=
                [ {| visible := true;
                     cells := ["a"; "x" +:+ newline +:+ "y"] |} ] |} in
  let text := csvContent (getTableData t) in
  csv_rows text = [ ["Name"; " first"; "Page"]; ["a"; "x"]; ["y"] ]
  /\ head (csv_rows text) <> Some (headers t)
  /\ length (tl (csv_rows text)) = 2
  /\ length (List.filter visible (body_rows t)) = 1.
Proof. cbv zeta. repeat split. discriminate. Qed.

(** C5, amended.  For a table with at least one header cell, whose header
    cells hold neither a comma nor a line feed, and whose visible body rows
    each have at least one cell and hold no line feed, the CSV text of the
    export reads back as follows: its first row is the list of header-cell
    texts, and its data rows are, in order, the visible body rows and only
    those, so there are as many of them, each cell being the cell's text with
    every comma turned into a semicolon and nothing else changed.  That text
    is the file saved, under the name [exportData] gives it for the visitors
    and the downloads table. *)
Theorem export_csv_rows (t other : table) (filename : string) (w : admin) :
  headers t <> [] ->
  Forall (fun h => contains_char "," h = false
                   /\ contains_char (ascii_of_nat 10) h = false) (headers t) ->
  Forall (fun r => cells r <> []
                   /\ Forall (fun c => contains_char (ascii_of_nat 10) c = false) (cells r))
    (List.filter visible (body_rows t)) ->
  let shown := List.filter visible (body_rows t) in
  let text := csvContent (getTableData t) in
  csv_rows text = headers t :: map (fun r => map replace_commas (cells r)) shown
  /\ head (csv_rows text) = Some (headers t)
  /\ length (tl (csv_rows text)) = length shown
  /\ (forall s i,
        String.get i (replace_commas s)
        = option_map (fun c => if Ascii.eqb c "," then ";"%char else c) (String.get i s))
  /\ saved_files (downloadCSV (getTableData t) filename w)
     = saved_files w ++ [(filename, text)]
  /\ saved_files (exportData "visitors" t other w)
     = saved_files w ++ [("visitors_export.csv", text)]
  /\ saved_files (exportData "downloads" other t w)
     = saved_files w ++ [("downloads_export.csv", text)].
Proof.
  intros Hne Hh Hr shown text.
  assert (Hrows : csv_rows text
                  = headers t :: map (fun r => map replace_commas (cells r)) shown).
  { subst text. unfold csv_rows, csvContent, newline.
    rewrite split_on_join.
    - cbn [getTableData map]. fold shown. f_equal.
      + apply split_on_join; [exact Hne|].
        eapply List.Forall_impl; [|exact Hh]. cbn beta. intros h [H _]. exact H.
      + rewrite map_map. fold shown in Hr.
        induction Hr as [|r rows [Hc _] _ IH]; [reflexivity|].
        cbn [map]. rewrite IH. f_equal. apply split_on_join.
        * destruct (cells r); [contradiction | discriminate].
        * apply exported_cells_no_comma.
    - discriminate.
    - cbn [getTableData map]. fold shown. constructor.
      + apply contains_char_join; [reflexivity|].
        eapply List.Forall_impl; [|exact Hh]. cbn beta. intros h [_ H]. exact H.
      + fold shown in Hr. clear -Hr.
        induction Hr as [|r rows [_ Hc] _ IH]; cbn [map]; constructor; [|exact IH].
        apply contains_char_join; [reflexivity|].
        clear -Hc. induction Hc as [|c cs Hc _ IH]; cbn [map]; constructor; [|exact IH].
        apply replace_commas_keeps_clean; [exact Hc | reflexivity]. }
  split; [exact Hrows|]. split; [rewrite Hrows; reflexivity|].
  split; [rewrite Hrows; cbn [tl]; apply length_map|].
  split; [apply replace_commas_get|].
  repeat split.
Qed.

Lemma export_csv_rows_witness :
  csv_rows
    (csvContent
       (getTableData
          {| headers := ["IP"; "Page"];
             body_rows :=
               [ {| visible := true; cells := ["10.0.0.1"; "/a,b"] |};
                 {| visible := false; cells := ["10.0.0.2"; "/"] |};
                 {| visible := true; cells := ["10.0.0.3"; "/watch"] |} ] |}))
  = [ ["IP"; "Page"]; ["10.0.0.1"; "/a;b"]; ["10.0.0.3"; "/watch"] ].
Proof.
  exact (proj1 (export_csv_rows
                  {| headers := ["IP"; "Page"];
                     body_rows :=
                       [ {| visible := true; cells := ["10.0.0.1"; "/a,b"] |};
                         {| visible := false; cells := ["10.0.0.2"; "/"] |};
                         {| visible := true; cells := ["10.0.0.3"; "/watch"] |} ] |}
                  {| headers := []; body_rows := [] |} "f.csv"
                  (ready example_template)
                  ltac:(discriminate)
                  ltac:(repeat constructor)
                  ltac:(repeat constructor; discriminate))).
Defined.

(** When no header and no cell holds a line feed, the file has one line per
    row: the header line and one line per visible body row. *)
Lemma export_csv_line_count (t : table) :
  Forall (fun c => contains_char (ascii_of_nat 10) c = false) (headers t) ->
  Forall (fun r => Forall (fun c => contains_char (ascii_of_nat 10) c = false) (cells r))
    (body_rows t) ->
  count_char (ascii_of_nat 10) (csvContent (getTableData t))
  = length (List.filter visible (body_rows t)).
Proof.
  intros Hh Hr. unfold csvContent, newline.
  rewrite join_count_separators.
  - rewrite length_map. cbn [getTableData length]. rewrite length_map. lia.
  - apply List.Forall_forall. intros line Hin.
    apply in_map_iff in Hin as [cs [<- Hcs]].
    assert (Hclean : Forall (fun c => contains_char (ascii_of_nat 10) c = false) cs).
    { destruct Hcs as [<-|Hcs]; [exact Hh|].
      apply in_map_iff in Hcs as [r [<- Hr']].
      apply filter_In in Hr' as [Hr' _].
      rewrite List.Forall_forall in Hr. specialize (Hr r Hr').
      clear -Hr. induction Hr as [|c cs Hc _ IH]; cbn [map]; constructor; [|exact IH].
      clear -Hc. induction c as [|a c IH]; [reflexivity|].
      cbn [replace_commas contains_char] in *.
      apply orb_false_elim in Hc as [Ha Hc].
      rewrite (IH Hc), orb_false_r.
      destruct (Ascii.eqb a ","); [reflexivity | exact Ha]. }
    clear -Hclean. unfold join.
    induction Hclean as [|c cs Hc _ IH]; [reflexivity|].
    destruct cs as [|c' cs'].
    + exact Hc.
    + change (String.concat "," (c :: c' :: cs'))
        with (c +:+ "," +:+ String.concat "," (c' :: cs')).
      apply contains_char_count. rewrite !count_char_app.
      apply contains_char_count in Hc, IH. rewrite Hc, IH. reflexivity.
Qed.

Lemma export_csv_line_count_witness :
  count_char (ascii_of_nat 10)
    (csvContent
       (getTableData
          {| headers := ["IP"; "Page"];
             body_rows :=
               [ {| visible := true; cells := ["10.0.0.1"; "/a,b"] |};
                 {| visible := false; cells := ["10.0.0.2"; "/"] |};
                 {| visible := true; cells := ["10.0.0.3"; "/watch"] |} ] |}))
  = 2.
Proof.
  exact (export_csv_line_count
           {| headers := ["IP"; "Page"];
              body_rows :=
                [ {| visible := true; cells := ["10.0.0.1"; "/a,b"] |};
                  {| visible := false; cells := ["10.0.0.2"; "/"] |};
                  {| visible := true; cells := ["10.0.0.3"; "/watch"] |} ] |}
           ltac:(repeat constructor) ltac:(repeat constructor)).
Defined.

End CsvExport.


(** ** Navigation and refresh (admin.js) *)

Section Navigation.

Import Browser Net Admin Panel.

Lemma existsb_filter_other (c x : string) (l : list string) :
  c <> x ->
  existsb (String.eqb c) (filter (fun y => y ≠ x) l) = existsb (String.eqb c) l.
Proof.
  intros Hne. induction l as [|y l IH]; [reflexivity|].
  rewrite filter_cons. destruct (decide (y ≠ x)) as [Hy|Hy].
  - cbn [existsb]. rewrite IH. reflexivity.
  - cbn [existsb]. rewrite IH.
    assert (y = x) as -> by (destruct (decide (y = x)); [assumption | contradiction]).
    apply String.eqb_neq in Hne. rewrite Hne. reflexivity.
Qed.

Lemma existsb_filter_same (x : string) (l : list string) :
  existsb (String.eqb x) (filter (fun y => y ≠ x) l) = false.
Proof.
  induction l as [|y l IH]; [reflexivity|].
  rewrite filter_cons. destruct (decide (y ≠ x)) as [Hy|Hy]; [|exact IH].
  cbn [existsb]. rewrite IH, orb_false_r. apply String.eqb_neq. congruence.
Qed.

Lemma has_class_removeClass_same (x i : string) (l : list string) :
  has_class x {| el_id := i; classes := filter (fun y => y ≠ x) l |} = false.
Proof. apply existsb_filter_same. Qed.

Lemma has_class_added (c x i : string) (l : list string) :
  has_class c {| el_id := i; classes := l ++ [x] |}
  = existsb (String.eqb c) l || String.eqb c x.
Proof.
  unfold has_class. cbn [classes]. rewrite existsb_app. cbn [existsb].
  rewrite orb_false_r. reflexivity.
Qed.

(** Once [active] is taken off every content region, none is displayed. *)
Lemma removeClass_hides_all (els : list element) :
  List.filter displayed_region (removeClass "content-section" "active" els) = [].
Proof.
  induction els as [|e els IH]; [reflexivity|].
  cbn [removeClass map List.filter]. fold (removeClass "content-section" "active" els).
  destruct (has_class "content-section" e) eqn:Hc.
  - unfold displayed_region at 1. rewrite has_class_removeClass_same, andb_false_r.
    exact IH.
  - unfold displayed_region at 1. rewrite Hc. exact IH.
Qed.

Lemma addClass_by_id_skip (id c : string) (els : list element) :
  List.find (fun e => String.eqb (el_id e) id) els = None ->
  addClass_by_id id c els = els.
Proof.
  induction els as [|e els IH]; [reflexivity|].
  cbn [List.find addClass_by_id]. destruct (String.eqb (el_id e) id); [discriminate|].
  intros H. rewrite IH by exact H. reflexivity.
Qed.

(** The region switch of [showSection]: afterwards the displayed regions are
    exactly the first element with the wanted id. *)
Lemma region_switch (id : string) (els : list element) (e : element) :
  List.find (fun x => String.eqb (el_id x) id) els = Some e ->
  has_class "content-section" e = true ->
  exists e',
    List.filter displayed_region
      (addClass_by_id id "active" (removeClass "content-section" "active" els)) = [e']
    /\ el_id e' = id.
Proof.
  induction els as [|x els IH]; [discriminate|].
  cbn [List.find]. intros Hfind Hcs.
  cbn [removeClass map addClass_by_id]. fold (removeClass "content-section" "active" els).
  destruct (String.eqb (el_id x) id) eqn:Hid.
  - injection Hfind as ->. rewrite Hcs. cbn [el_id]. rewrite Hid.
    rewrite has_class_removeClass_same.
    eexists. split.
    + cbn [List.filter]. unfold displayed_region at 1.
      rewrite !has_class_added. cbn [el_id classes].
      rewrite (existsb_filter_other "content-section" "active") by discriminate.
      unfold has_class in Hcs. rewrite Hcs. cbn [orb andb]. rewrite orb_true_r.
      rewrite removeClass_hides_all. reflexivity.
    + cbn [el_id]. apply String.eqb_eq. exact Hid.
  - assert (Hid' : String.eqb
              (el_id (if has_class "content-section" x
                      then {| el_id := el_id x;
                              classes := filter (fun y => y ≠ "active") (classes x) |}
                      else x)) id = false).
    { destruct (has_class "content-section" x); [cbn [el_id]|]; exact Hid. }
    rewrite Hid'. cbn [List.filter].
    assert (Hx : displayed_region
              (if has_class "content-section" x
               then {| el_id := el_id x;
                       classes := filter (fun y => y ≠ "active") (classes x) |}
               else x) = false).
    { unfold displayed_region. destruct (has_class "content-section" x) eqn:Hc.
      - rewrite has_class_removeClass_same. apply andb_false_r.
      - rewrite Hc. reflexivity. }
    rewrite Hx. apply IH; assumption.
Qed.

Lemma loader_of_sends (s : section_name) (w : admin) :
  loader_of s w = ajax (endpoint_of s) "GET" NoBody (callback_of s) w.
Proof. destruct s; reflexivity. Qed.

Lemma showSection_elements (section : string) (w : admin) :
  elements (doc (showSection section w))
  = addClass_by_id (section +:+ "-section") "active"
      (removeClass "content-section" "active" (elements (doc w))).
Proof.
  unfold showSection.
  repeat match goal with |- context [if ?b then _ else _] => destruct b end;
    reflexivity.
Qed.

(** C8. For each of the five sections, on a document whose element with the
    section's region id is a content region, [showSection] leaves exactly one
    content region displayed, the one of that section; the page title is the
    entry of the [titles] table, that is the title written out below for
    each section; the section becomes the current one; and the section's
    loader is invoked, which issues its GET request. *)
Theorem showSection_shows_one_region (s : section_name) (w : admin) (e : element) :
  List.find (fun x => String.eqb (el_id x) (region_id s)) (elements (doc w)) = Some e ->
  has_class "content-section" e = true ->
  let w' := showSection (section_id s) w in
  (exists e', List.filter displayed_region (elements (doc w')) = [e']
              /\ el_id e' = region_id s)
  /\ lookup_title (section_id s) titles = Some (page_title (doc w'))
  /\ page_title (doc w')
     = match s with
       | Dashboard => "Dashboard"
       | Visitors => "Quản lý Visitors"
       | Banners => "Quản lý Banners"
       | Downloads => "Thống kê Downloads"
       | Settings => "Cài đặt hệ thống"
       end
  /\ currentSection w' = section_id s
  /\ (exists w0, w' = loader_of s w0 /\ sent w0 = sent w /\ awaiting w0 = awaiting w)
  /\ sent w' = sent w ++ [load_request s]
  /\ awaiting w' = awaiting w ++ [load_request s].
Proof.
  intros Hfind Hcs w'. split.
  - subst w'. rewrite showSection_elements. apply region_switch with (e := e); assumption.
  - subst w'. destruct s; cbn; (repeat split); eexists; (repeat split).
Qed.

Lemma showSection_shows_one_region_witness :
  exists e',
    List.filter displayed_region
      (elements (doc (showSection "visitors" (ready example_template)))) = [e']
    /\ el_id e' = "visitors-section".
Proof.
  exact (proj1 (showSection_shows_one_region Visitors (ready example_template)
                  {| el_id := "visitors-section"; classes := ["content-section"] |}
                  eq_refl eq_refl)).
Defined.

(** [init] arms the refresh as an interval of 30000 ms, and the browser arms
    an interval again each time it fires. *)
Lemma ready_refresh_timer (template : document) :
  find_timer 1 (browser (ready template))
  = Some {| tid := 1; due := 30000; period := Some 30000%N; job := AutoRefresh |}.
Proof. reflexivity. Qed.

Lemma take_timer_rearms (i : nat) (b : Browser.browser) (t : timer) (p : N) :
  find_timer i b = Some t -> period t = Some p -> (due t <= now b)%N ->
  exists b',
    take_timer i b = Some (job t, b')
    /\ find_timer i b'
       = Some {| tid := i; due := (now b + p)%N; period := Some p; job := job t |}.
Proof.
  intros Hf Hp Hd. unfold take_timer. rewrite Hf, Hp.
  apply N.leb_le in Hd. rewrite Hd. eexists. split; [reflexivity|].
  unfold find_timer, with_timers. cbn [timers].
  assert (Hnone : List.find (fun t' => tid t' =? i)
                    (filter (fun t' => tid t' ≠ i) (timers b)) = None).
  { clear. induction (timers b) as [|x l IH]; [reflexivity|].
    rewrite filter_cons. destruct (decide (tid x ≠ i)) as [Hx|Hx]; [|exact IH].
    cbn [List.find]. apply Nat.eqb_neq in Hx. rewrite Hx. exact IH. }
  revert Hnone. generalize (filter (fun t' => tid t' ≠ i) (timers b)). intros l.
  induction l as [|x l IH]; cbn [List.find app tid].
  - rewrite Nat.eqb_refl. reflexivity.
  - destruct (tid x =? i); [discriminate | exact IH].
Qed.

(** C1, as stated, fails: with the banners section current, a firing of the
    refresh timer is accepted and issues no request, whereas the loader of the
    section would issue one. *)
Lemma auto_refresh_skips_banners :
  let w := step (Tick 30000) (run [NavClick 2] (ready example_template)) in
  currentSection w = section_id Banners
  /\ (exists b, take_timer 1 (browser w) = Some (AutoRefresh, b))
  /\ sent (step (TimerFires 1) w) = sent w
  /\ run_task AutoRefresh w <> loader_of Banners w.
Proof.
  cbv zeta. split; [reflexivity|]. split; [eexists; reflexivity|].
  split; [reflexivity|].
  intros H. apply (f_equal (fun x => length (sent x))) in H.
  vm_compute in H. discriminate H.
Qed.

(** C1, amended. A firing of the refresh timer runs the loader of the current
    section when that section is the dashboard or the visitors list, and does
    nothing for the banners, downloads and settings sections. *)
Theorem auto_refresh_dashboard_and_visitors (s : section_name) (w : admin) :
  currentSection w = section_id s ->
  (run_task AutoRefresh w
   = match s with
     | Dashboard | Visitors => loader_of s w
     | Banners | Downloads | Settings => w
     end)
  /\ (forall i b,
        take_timer i (browser w) = Some (AutoRefresh, b) ->
        step (TimerFires i) w
        = match s with
          | Dashboard | Visitors => loader_of s (set_browser b w)
          | Banners | Downloads | Settings => set_browser b w
          end).
Proof.
  intros Hs. split.
  - cbn [run_task]. unfold auto_refresh. rewrite Hs. destruct s; reflexivity.
  - intros i b Ht. cbn [step]. rewrite Ht. cbn [run_task]. unfold auto_refresh.
    cbn [currentSection set_browser]. rewrite Hs. destruct s; reflexivity.
Qed.

Lemma auto_refresh_dashboard_and_visitors_witness :
  run_task AutoRefresh (run [NavClick 1] (ready example_template))
  = loadVisitors (run [NavClick 1] (ready example_template)).
Proof.
  exact (proj1 (auto_refresh_dashboard_and_visitors Visitors
                  (run [NavClick 1] (ready example_template)) eq_refl)).
Defined.

End Navigation.

(** ** Loaders (admin.js) *)

Section Loaders.

Import Browser Net Admin Panel.

(** C4, as stated, fails: the visitors loader, answered by a network error,
    creates no alert and leaves the browser state as it was; the failure only
    reaches the console. *)
Lemma loadVisitors_failure_shows_no_alert :
  let w := run [NavClick 1] (ready example_template) in
  let w' := step (Answer 2 (Failure 500 "Internal Server Error")) w in
  awaiting w !! 2 = Some (load_request Visitors)
  /\ alerts (browser w') = []
  /\ next_aid (browser w') = next_aid (browser w)
  /\ console w' = ["Failed to load visitors: Internal Server Error"].
Proof. cbv zeta. repeat split. Qed.

(** C4, amended. For each of the five loaders, a failed load leaves the
    document, the alerts and the timers as they were and sends nothing: a
    network error adds one line to the console, and an envelope whose flag is
    false changes nothing at all.  No notification is shown in either case. *)
Theorem failed_load_keeps_page (s : section_name) (w : admin) :
  (forall status error,
     let w' := dispatch (callback_of s) (Failure status error) w in
     doc w' = doc w /\ browser w' = browser w /\ sent w' = sent w
     /\ awaiting w' = awaiting w
     /\ exists line, console w' = console w ++ [line +:+ error])
  /\ (forall message, dispatch (callback_of s) (Refused message) w = w).
Proof.
  split.
  - intros status error. destruct s; cbn; repeat split; eexists; reflexivity.
  - intros message. destruct s; reflexivity.
Qed.

(** At the level of events: answering a waiting loader request with a
    failure changes neither the document nor the alerts. *)
Lemma failed_load_event (s : section_name) (n : nat) (w : admin) (r : result payload) :
  awaiting w !! n = Some (load_request s) ->
  (forall p, r <> Success p) ->
  doc (step (Answer n r) w) = doc w
  /\ browser (step (Answer n r) w) = browser w.
Proof.
  intros Hn Hr. cbn [step]. unfold answer. rewrite Hn. cbn [on_answer load_request].
  destruct r as [status error|message|p].
  - destruct s; split; reflexivity.
  - destruct s; split; reflexivity.
  - exfalso. exact (Hr p eq_refl).
Qed.

End Loaders.

(** ** The banner form (admin.js) *)

Section BannerForm.

Import Browser Net Admin Panel.

Lemma validate_sends_nothing (w : admin) :
  sent (banner_form_submit_validate w) = sent w
  /\ awaiting (banner_form_submit_validate w) = awaiting w.
Proof.
  unfold banner_form_submit_validate, validateBannerForm.
  destruct (negb (Text.truthy (Text.trim (f_title (banner_form (doc w))))));
    [split; reflexivity|].
  destruct (negb (Text.truthy (f_position (banner_form (doc w))))); split; reflexivity.
Qed.

(** What a submit event sends: the upload when a file is attached, the
    create/update request otherwise; the validation handler sends nothing. *)
Lemma banner_submit_sent (w : admin) :
  let f := banner_form (doc w) in
  let first :=
    match f_image f with
    | Some file => upload_request file f
    | None => save_request (save_method f) (submitted_payload f)
    end in
  sent (step BannerFormSubmit w) = sent w ++ [first]
  /\ awaiting (step BannerFormSubmit w) = awaiting w ++ [first].
Proof.
  intros f first. cbn [step]. unfold banner_form_submit.
  destruct (validate_sends_nothing (banner_form_submit_save w)) as [Hs Ha].
  rewrite Hs, Ha. clear Hs Ha.
  subst first. unfold banner_form_submit_save. fold f. unfold save_method.
  destruct (f_image f) as [file|].
  - split; reflexivity.
  - cbn. unfold submitted_payload.
    destruct (String.eqb (f_id f) ""); split; reflexivity.
Qed.

(** C7. A submission of the banner form with an image attached issues the
    multipart upload and nothing else; the create/update request leaves only
    from the upload's success callback, carrying the fields of the form and,
    as its image path, the path the upload returned; a failed upload sends
    none.  Without an image the create/update request leaves at once, with no
    image path.  Its method is PUT when the id field is non-empty and POST
    when it is empty. *)
Theorem banner_submit_uploads_then_saves (w : admin) :
  let f := banner_form (doc w) in
  let w' := step BannerFormSubmit w in
  match f_image f with
  | Some file =>
      sent w' = sent w ++ [upload_request file f]
      /\ awaiting w' = awaiting w ++ [upload_request file f]
      /\ (forall w1 path,
            sent (dispatch (on_answer (upload_request file f)) (Success (ImagePath path)) w1)
            = sent w1
              ++ [save_request (save_method f)
                    (with_image_path path (submitted_payload f))]
            /\ sent (dispatch (on_answer (upload_request file f))
                       (Success (ImagePath path)) w1)
               = sent w1
                 ++ [{| url := "/admin/api/banners";
                        method := if String.eqb (f_id f) "" then "POST" else "PUT";
                        payload_sent :=
                          BannerJson
                            {| p_title := f_title f; p_description := f_description f;
                               p_link_url := f_link f; p_position := f_position f;
                               p_status := f_status f;
                               p_id := if String.eqb (f_id f) "" then None
                                       else Some (f_id f);
                               p_image_path := Some path |};
                        on_answer := OnSaveBanner |}])
      /\ (forall w1 status error,
            sent (dispatch (on_answer (upload_request file f)) (Failure status error) w1)
            = sent w1)
      /\ (forall w1 message,
            sent (dispatch (on_answer (upload_request file f)) (Refused message) w1)
            = sent w1)
  | None =>
      sent w' = sent w ++ [save_request (save_method f) (submitted_payload f)]
      /\ p_image_path (submitted_payload f) = None
  end
  /\ (f_id f = "" -> save_method f = "POST")
  /\ (f_id f <> "" -> save_method f = "PUT").
Proof.
  intros f w'. split; [|split].
  - subst w'. pose proof (banner_submit_sent w) as [Hs Ha]. cbv zeta in Hs, Ha.
    fold f in Hs, Ha.
    destruct (f_image f) as [file|]; [|split; [exact Hs | reflexivity]].
    split; [exact Hs|]. split; [exact Ha|]. split; [|split].
    + intros w1 path. cbn. unfold submitted_payload, save_method.
      destruct (String.eqb (f_id f) ""); split; reflexivity.
    + intros w1 status error. reflexivity.
    + intros w1 message. reflexivity.
  - intros H. unfold save_method. rewrite H. reflexivity.
  - intros Hne. unfold save_method. apply String.eqb_neq in Hne. rewrite Hne. reflexivity.
Qed.

(** Whatever the form holds, the submit event issues a request: the handler
    that saves runs before the handler that validates. *)
Lemma banner_submit_always_sends (w : admin) :
  length (sent (step BannerFormSubmit w)) = S (length (sent w)).
Proof.
  pose proof (banner_submit_sent w) as [H _]. cbv zeta in H.
  rewrite H, length_app. cbn [length]. lia.
Qed.

(** C2 on a concrete page: the "add banner" dialog is opened, the title is
    left blank (white space only), a position is chosen, and the form is
    submitted.  The validation shows its error alert, and yet the request
    creating the banner has left with the blank title. *)
Example blank_title_is_still_posted :
  let f := {| f_id := ""; f_title := "   "; f_description := ""; f_link := "";
              f_position := "top"; f_status := true; f_image := None |} in
  let w := run [ShowBannerModal None; BannerFormEdited f] (ready example_template) in
  let w' := step BannerFormSubmit w in
  Text.trim (f_title (banner_form (doc w))) = ""
  /\ sent w' = sent w ++ [save_request "POST" (submitted_payload f)]
  /\ map amessage (alerts (browser w')) = ["Vui lòng nhập tiêu đề banner"]
  /\ map aclass (alerts (browser w')) = ["alert-error fade-in"].
Proof. cbv zeta. repeat split. Qed.

End BannerForm.

(** ** Frame reasoning over the events of the admin panel

    A property of the page that the primitive operations keep is kept by
    every handler, since handlers are compositions of the primitives. *)

Section Frame.

Import Browser Net Admin Panel.

Variable I : admin -> Prop.

Hypothesis I_showAlert : forall m t w, I w -> I (showAlert m t w).
Hypothesis I_ajax : forall u m b cb w, I w -> I (ajax u m b cb w).
Hypothesis I_doc : forall f w, I w -> I (on_doc f w).
Hypothesis I_section : forall s w, I w -> I (set_currentSection s w).
Hypothesis I_console : forall l w, I w -> I (console_error l w).
Hypothesis I_files : forall v w, I w -> I (set_saved_files v w).
Hypothesis I_awaiting : forall v w, I w -> I (set_awaiting v w).
Hypothesis I_tick : forall dt w, I w -> I (on_browser (tick dt) w).
Hypothesis I_take :
  forall i j b w, I w -> take_timer i (browser w) = Some (j, b) -> I (set_browser b w).
Hypothesis I_alert_timeout : forall a w, I w -> I (on_browser (alert_timeout a) w).
Hypothesis I_fade_done : forall a w, I w -> I (on_browser (fade_done a) w).
Hypothesis I_input : forall w, I w -> I (settings_form_input w).

Ltac frame :=
  repeat first
    [ assumption
    | apply I_showAlert
    | apply I_ajax
    | apply I_doc
    | apply I_section
    | apply I_console
    | apply I_files
    | apply I_awaiting
    | apply I_input
    | match goal with
      | |- I (match ?x with _ => _ end) => destruct x
      | |- context [if ?x then _ else _] => destruct x
      end ].

(** Every callback but the session probe's. *)
Lemma dispatch_frame (cb : callback) (r : result payload) (w : admin) :
  cb <> OnSessionProbe -> I w -> I (dispatch cb r w).
Proof.
  intros Hcb Hw.
  destruct cb; try contradiction; cbn [dispatch];
    unfold loadDashboardData_done, loadFormatChart_done, loadVisitors_done,
      loadBanners_done, loadDownloads_done, loadSettings_done, loadBannerData_done,
      uploadBannerImage_done, saveBanner_done, deleteBanner_done, saveSettings_done,
      loadFormatChart, loadBanners, saveBanner, closeBannerModal,
      updatePopularVideos, updateDashboardStats, updateFormatChart,
      updateVisitorsTable, updateBannersGrid, updateDownloadsTable, updateSettingsForm;
    frame.
Qed.

Lemma task_frame (j : task) (w : admin) : I w -> I (run_task j w).
Proof.
  intros Hw. destruct j; cbn [run_task];
    unfold auto_refresh, session_check, auto_save, saveSettings,
      loadDashboardData, loadVisitors;
    frame; auto.
Qed.

(** Every event but the answer to a session probe. *)
Lemma step_frame (e : event) (w : admin) :
  probe_answer e w = None -> I w -> I (step e w).
Proof.
  intros He Hw. destruct e; cbn [step].
  - apply I_tick, Hw.
  - destruct (take_timer i (browser w)) as [[j b]|] eqn:Ht; [|exact Hw].
    apply task_frame. eapply I_take; eassumption.
  - unfold answer. cbn [probe_answer] in He.
    destruct (awaiting w !! n) as [q|]; [|exact Hw].
    apply dispatch_frame; [|apply I_awaiting, Hw].
    intros Hq. rewrite Hq in He. discriminate.
  - unfold nav_item_click, showSection, loadDashboardData, loadVisitors, loadBanners,
      loadDownloads, loadSettings. frame.
  - frame.
  - unfold banner_form_submit, banner_form_submit_validate, validateBannerForm,
      banner_form_submit_save, uploadBannerImage, saveBanner.
    frame; cbn [snd]; frame.
  - unfold showBannerModal, loadBannerData. frame.
  - unfold closeBannerModal. frame.
  - unfold delete_banner_click, deleteBanner. frame.
  - unfold type_setting. frame.
  - unfold saveSettings. frame.
  - unfold refreshVisitors, loadVisitors. frame.
  - unfold refreshDownloads, loadDownloads. frame.
  - unfold exportData, downloadCSV. frame.
Qed.

(** Every event, once the probe's callbacks keep the property too. *)
Lemma step_preserves (e : event) (w : admin) :
  (forall r w', I w' -> I (session_check_done r w')) ->
  I w -> I (step e w).
Proof.
  intros Hprobe Hw. destruct (probe_answer e w) as [r|] eqn:He.
  - destruct e; try discriminate He. cbn [probe_answer] in He.
    cbn [step]. unfold answer.
    destruct (awaiting w !! n) as [q|]; [|discriminate He].
    destruct (on_answer q); try discriminate He.
    cbn [dispatch]. apply Hprobe, I_awaiting, Hw.
  - apply step_frame; assumption.
Qed.

Lemma run_preserves (evs : list event) (w : admin) :
  (forall r w', I w' -> I (session_check_done r w')) ->
  I w -> I (run evs w).
Proof.
  intros Hprobe. revert w. unfold run.
  induction evs as [|e evs IH]; intros w Hw; [exact Hw|].
  cbn [foldl]. apply IH, step_preserves; assumption.
Qed.

End Frame.

(** ** Timers *)

Section Timers.

Import Browser.

Lemma find_below (i : nat) (l : list timer) (t : timer) :
  Forall (fun x => tid x < i) l -> tid t = i ->
  List.find (fun x => tid x =? i) (l ++ [t]) = Some t.
Proof.
  intros Hl Ht. induction Hl as [|x l Hx _ IH]; cbn [app List.find].
  - rewrite Ht, Nat.eqb_refl. reflexivity.
  - assert ((tid x =? i) = false) as -> by (apply Nat.eqb_neq; lia). exact IH.
Qed.

Lemma filter_below (i : nat) (l : list timer) :
  Forall (fun x => tid x < i) l ->
  filter (fun x => tid x ≠ i) l = l.
Proof.
  induction 1 as [|x l Hx _ IH]; [reflexivity|].
  rewrite filter_cons. destruct (decide (tid x ≠ i)) as [_|Hn]; [|lia].
  rewrite IH. reflexivity.
Qed.

Lemma filter_out_last (i : nat) (l : list timer) (t : timer) :
  tid t = i ->
  filter (fun x => tid x ≠ i) (l ++ [t]) = filter (fun x => tid x ≠ i) l.
Proof.
  intros Ht. rewrite filter_app, filter_cons.
  destruct (decide (tid t ≠ i)) as [Hn|_]; [contradiction|].
  rewrite filter_nil. apply app_nil_r.
Qed.

Lemma find_timer_In (i : nat) (b : browser) (t : timer) :
  find_timer i b = Some t -> In t (timers b) /\ tid t = i.
Proof.
  unfold find_timer. intros H. apply find_some in H as [Hin Heq].
  split; [exact Hin | apply Nat.eqb_eq, Heq].
Qed.

Lemma Forall_filter_timers (P : timer -> Prop) (i : nat) (l : list timer) :
  Forall P l -> Forall P (filter (fun x => tid x ≠ i) l).
Proof.
  induction 1 as [|x l Hx _ IH]; [constructor|].
  rewrite filter_cons. destruct (decide (tid x ≠ i)); [constructor|]; assumption.
Qed.

Lemma tids_fresh_setTimeout (j : task) (d : N) (b : browser) :
  tids_fresh b -> tids_fresh (snd (setTimeout j d b)).
Proof.
  unfold tids_fresh. cbn [setTimeout snd with_timers timers next_tid]. intros H.
  apply Forall_app. split.
  - eapply Forall_impl; [exact H|]. cbn beta. intros; lia.
  - constructor; [cbn [tid]; lia | constructor].
Qed.

Lemma tids_fresh_clearTimeout (id : option nat) (b : browser) :
  tids_fresh b -> tids_fresh (clearTimeout id b).
Proof.
  destruct id as [i|]; [|trivial]. unfold tids_fresh.
  cbn [clearTimeout with_timers timers next_tid]. apply Forall_filter_timers.
Qed.

Lemma tids_fresh_take (i : nat) (j : task) (b b' : browser) :
  tids_fresh b -> take_timer i b = Some (j, b') -> tids_fresh b'.
Proof.
  unfold tids_fresh, take_timer. intros H Ht.
  destruct (find_timer i b) as [t|] eqn:Hf; [|discriminate].
  destruct (N.leb (due t) (now b)); [|discriminate].
  injection Ht as _ <-. cbn [with_timers timers next_tid].
  apply find_timer_In in Hf as [Hin Hid].
  destruct (period t) as [p|].
  - apply Forall_app. split; [apply Forall_filter_timers, H|].
    constructor; [|constructor]. cbn [tid].
    rewrite Forall_forall in H. rewrite <- Hid. apply H.
    apply list_elem_of_In. exact Hin.
  - apply Forall_filter_timers, H.
Qed.

(** A timeout just armed fires once its delay has passed, and is then gone
    from the queue; before that the browser does not run it. *)
Lemma fresh_timeout_fires (j : task) (d dt : N) (b : browser) :
  tids_fresh b -> (d <= dt)%N ->
  take_timer (next_tid b) (tick dt (snd (setTimeout j d b)))
  = Some (j, with_timers (timers b) (S (next_tid b)) (tick dt b)).
Proof.
  intros Hb Hd. unfold take_timer, find_timer.
  cbn [setTimeout snd tick with_timers timers now next_tid].
  rewrite (find_below (next_tid b)) by (exact Hb || reflexivity).
  cbn [due period job].
  assert ((now b + d <=? now b + dt)%N = true) as -> by (apply N.leb_le; lia).
  rewrite filter_out_last by reflexivity.
  rewrite filter_below by exact Hb. reflexivity.
Qed.

Lemma fresh_timeout_waits (j : task) (d dt : N) (b : browser) :
  tids_fresh b -> (dt < d)%N ->
  take_timer (next_tid b) (tick dt (snd (setTimeout j d b))) = None.
Proof.
  intros Hb Hd. unfold take_timer, find_timer.
  cbn [setTimeout snd tick with_timers timers now next_tid].
  rewrite (find_below (next_tid b)) by (exact Hb || reflexivity).
  cbn [due].
  assert ((now b + d <=? now b + dt)%N = false) as -> by (apply N.leb_gt; lia).
  reflexivity.
Qed.

End Timers.

(** ** Frame reasoning over the events of the download page *)

Section MainFrame.

Import Browser Net Main.

Variable I : page -> Prop.

Hypothesis I_showAlert : forall m t p, I p -> I (showAlert m t p).
Hypothesis I_fields : forall u l p, I p -> I (with_fields u l p).
Hypothesis I_loading : forall l p, I p -> I (with_loading l p).
Hypothesis I_video : forall c s v p, I p -> I (with_video c s v p).
Hypothesis I_languages : forall o p, I p -> I (with_languages o p).
Hypothesis I_outputs : forall m f p, I p -> I (with_outputs m f p).
Hypothesis I_controls : forall i e d p, I p -> I (with_controls i e d p).
Hypothesis I_requests : forall s a p, I p -> I (with_requests s a p).
Hypothesis I_tick : forall dt p, I p -> I (with_browser (tick dt (browser p)) p).
Hypothesis I_take :
  forall i j b p, I p -> take_timer i (browser p) = Some (j, b) -> I (with_browser b p).
Hypothesis I_alert_timeout :
  forall a p, I p -> I (with_browser (alert_timeout a (browser p)) p).
Hypothesis I_fade_done :
  forall a p, I p -> I (with_browser (fade_done a (browser p)) p).

Ltac main_frame :=
  repeat first
    [ assumption
    | apply I_showAlert
    | apply I_fields
    | apply I_loading
    | apply I_video
    | apply I_languages
    | apply I_outputs
    | apply I_controls
    | apply I_requests
    | apply I_alert_timeout
    | apply I_fade_done
    | match goal with
      | |- I (match ?x with _ => _ end) => destruct x
      | |- context [if ?x then _ else _] => destruct x
      end ].

Lemma main_step_preserves (e : event) (p : page) : I p -> I (step e p).
Proof.
  intros Hp. destruct e; cbn [step].
  - apply I_tick, Hp.
  - destruct (take_timer i (browser p)) as [[j b]|] eqn:Ht; [|exact Hp].
    assert (Hb : I (with_browser b p)) by (eapply I_take; eassumption).
    destruct j; cbn [run_task]; main_frame.
  - unfold youtube_url_input. main_frame.
  - unfold source_language_change. main_frame.
  - unfold get_info_btn_click, getVideoInfo, send, showLoading. main_frame.
  - unfold btn_download_click, downloadSubtitle, send, showLoading. main_frame.
  - unfold preview_btn_click, previewSubtitle, send, showLoading. main_frame.
  - unfold clear_form_click. main_frame.
  - unfold youtube_url_keypress, get_info_btn_click, getVideoInfo, send, showLoading.
    main_frame.
  - unfold document_keydown, get_info_btn_click, getVideoInfo, send, showLoading.
    main_frame.
  - unfold answer, getVideoInfo_done, downloadSubtitle_done, previewSubtitle_done,
      updateLanguageOptions, hideLoading.
    main_frame.
Qed.

Lemma main_run_preserves (evs : list event) (p : page) : I p -> I (run evs p).
Proof.
  revert p. unfold run. induction evs as [|e evs IH]; intros p Hp; [exact Hp|].
  cbn [foldl]. apply IH, main_step_preserves, Hp.
Qed.

End MainFrame.

(** ** Alerts (showAlert in both scripts) *)

Section Alerts.

Import Browser Net.

Lemma one_alert_fade_done (a : nat) (b : browser) :
  one_alert b -> one_alert (fade_done a b).
Proof.
  unfold one_alert. cbn [fade_done with_alerts alerts]. intros H.
  etransitivity; [apply length_filter | exact H].
Qed.

Lemma take_timer_alerts (i : nat) (j : task) (b b' : browser) :
  take_timer i b = Some (j, b') ->
  alerts b' = alerts b /\ next_aid b' = next_aid b /\ now b' = now b.
Proof.
  unfold take_timer. destruct (find_timer i b) as [t|]; [|discriminate].
  destruct (N.leb (due t) (now b)); [|discriminate].
  intros H. injection H as _ <-. repeat split.
Qed.

(** The state of the browser after admin.js's [showAlert]. *)
Lemma admin_showAlert_browser (m t : string) (w : Admin.admin) :
  let a := {| aid := next_aid (Admin.browser w); amessage := m;
              aclass := Admin.alertClass t +:+ " fade-in";
              aicon := Admin.alertIcon t |} in
  Admin.browser (Admin.showAlert m t w)
  = snd (setTimeout (AlertTimeout (aid a)) 5000
           (with_alerts [a] (S (next_aid (Admin.browser w))) (Admin.browser w))).
Proof. reflexivity. Qed.

(** The same for main.js on a page with one [.download-form]. *)
Lemma main_showAlert_browser (m t : string) (p : Main.page) :
  Main.download_forms p = 1 ->
  let a := {| aid := next_aid (Main.browser p); amessage := m;
              aclass := Main.alertClass t +:+ " fade-in";
              aicon := Main.alertIcon t |} in
  Main.browser (Main.showAlert m t p)
  = snd (setTimeout (AlertTimeout (aid a)) 5000
           (with_alerts [a] (S (next_aid (Main.browser p))) (Main.browser p))).
Proof.
  intros H. unfold Main.showAlert. rewrite H. cbn [Main.browser Main.with_browser].
  reflexivity.
Qed.

Lemma main_showAlert_count (m t : string) (p : Main.page) :
  length (alerts (Main.browser (Main.showAlert m t p))) = Main.download_forms p.
Proof.
  unfold Main.showAlert. cbn [Main.browser Main.with_browser].
  cbn [setTimeout snd with_timers alerts].
  destruct (Main.download_forms p) as [|k]; [reflexivity|].
  cbn [insert_alert with_alerts alerts remove_alerts app].
  rewrite length_app. cbn [length].
  assert (Hc : forall n a x, length (clones n a x) = n).
  { induction n as [|n IH]; intros; cbn [clones length]; [reflexivity|]. rewrite IH. reflexivity. }
  rewrite Hc. lia.
Qed.

(** What happens to an alert just shown, on the browser alone: its timeout
    cannot fire before 5000 ms; once it has fired and the fade it starts has
    run its 400 ms, the alert is out of the document. *)
Lemma shown_alert_is_dismissed (a : alert) (n : nat) (b : browser) :
  tids_fresh b ->
  let b1 := snd (setTimeout (AlertTimeout (aid a)) 5000 (with_alerts [a] n b)) in
  alerts b1 = [a]
  /\ find_timer (next_tid b) b1
     = Some {| tid := next_tid b; due := (now b + 5000)%N; period := None;
               job := AlertTimeout (aid a) |}
  /\ (forall dt, (dt < 5000)%N -> take_timer (next_tid b) (tick dt b1) = None)
  /\ exists b2 b3,
       take_timer (next_tid b) (tick 5000 b1) = Some (AlertTimeout (aid a), b2)
       /\ take_timer (S (next_tid b)) (tick fade_duration (alert_timeout (aid a) b2))
          = Some (FadeDone (aid a), b3)
       /\ alerts (fade_done (aid a) b3) = [].
Proof.
  intros Hb b1.
  assert (Hb0 : tids_fresh (with_alerts [a] n b)) by exact Hb.
  split; [reflexivity|]. split.
  { subst b1. unfold find_timer. cbn [setTimeout snd with_timers timers next_tid now].
    apply find_below; [exact Hb | reflexivity]. }
  split.
  { intros dt Hdt. subst b1.
    apply (fresh_timeout_waits (AlertTimeout (aid a)) 5000 dt (with_alerts [a] n b) Hb0 Hdt). }
  pose proof (fresh_timeout_fires (AlertTimeout (aid a)) 5000 5000
                (with_alerts [a] n b) Hb0 (N.le_refl _)) as H1.
  cbn [with_alerts next_tid timers] in H1. fold b1 in H1.
  set (b2 := with_timers (timers b) (S (next_tid b)) (tick 5000 (with_alerts [a] n b))) in *.
  assert (Hb2 : tids_fresh b2).
  { unfold tids_fresh. subst b2. cbn [with_timers timers next_tid].
    eapply Forall_impl; [exact Hb|]. cbn beta. intros; lia. }
  pose proof (fresh_timeout_fires (FadeDone (aid a)) fade_duration fade_duration
                b2 Hb2 (N.le_refl _)) as H2.
  exists b2. eexists. split; [exact H1|]. split.
  - unfold alert_timeout. exact H2.
  - cbn [fade_done with_alerts alerts with_timers tick b2].
    rewrite filter_cons. destruct (decide (aid a ≠ aid a)); [contradiction|reflexivity].
Qed.

End Alerts.

Section AlertInvariants.

Import Browser Net.

Lemma admin_run_one_alert (evs : list Admin.event) (w : Admin.admin) :
  one_alert (Admin.browser w) -> one_alert (Admin.browser (Admin.run evs w)).
Proof.
  apply (run_preserves (fun w => one_alert (Admin.browser w))); try (intros; assumption).
  - intros m t w' _. rewrite admin_showAlert_browser. unfold one_alert. cbn. lia.
  - intros i j b w' H Ht. cbn [Admin.browser Admin.set_browser].
    apply take_timer_alerts in Ht as [Ha _]. unfold one_alert. rewrite Ha. exact H.
  - intros a w' H. cbn [Admin.on_browser Admin.browser Admin.set_browser].
    apply one_alert_fade_done, H.
  - intros w' H. unfold Admin.settings_form_input, one_alert.
    destruct (Admin.autoSaveTimeout w'); exact H.
  - intros r w' H. unfold Admin.session_check_done.
    destruct r as [status error|message|p]; try exact H.
    destruct ((status =? 401) && negb (Admin.sessionWarningShown w')); [|exact H].
    rewrite admin_showAlert_browser. unfold one_alert. cbn. lia.
Qed.

Lemma admin_run_fresh (evs : list Admin.event) (w : Admin.admin) :
  tids_fresh (Admin.browser w) -> tids_fresh (Admin.browser (Admin.run evs w)).
Proof.
  apply (run_preserves (fun w => tids_fresh (Admin.browser w))); try (intros; assumption).
  - intros m t w' H. rewrite admin_showAlert_browser. apply tids_fresh_setTimeout, H.
  - intros i j b w' H Ht. cbn [Admin.browser Admin.set_browser].
    eapply tids_fresh_take; eassumption.
  - intros a w' H. cbn [Admin.on_browser Admin.browser Admin.set_browser].
    apply tids_fresh_setTimeout, H.
  - intros w' H. unfold Admin.settings_form_input.
    pose proof (tids_fresh_setTimeout AutoSave 2000 _
                  (tids_fresh_clearTimeout (Admin.autoSaveTimeout w') _ H)) as H'.
    destruct (setTimeout AutoSave 2000
                (clearTimeout (Admin.autoSaveTimeout w') (Admin.browser w'))) as [id b2].
    exact H'.
  - intros r w' H. unfold Admin.session_check_done.
    destruct r as [status error|message|p]; try exact H.
    destruct ((status =? 401) && negb (Admin.sessionWarningShown w')); [|exact H].
    rewrite admin_showAlert_browser. apply tids_fresh_setTimeout, H.
Qed.

Lemma admin_ready_fresh (template : Admin.document) :
  tids_fresh (Admin.browser (Admin.ready template)).
Proof. unfold tids_fresh. cbn. repeat constructor. Qed.

Lemma main_run_one_alert (evs : list Main.event) (p : Main.page) :
  Main.download_forms p <= 1 ->
  one_alert (Main.browser p) ->
  Main.download_forms (Main.run evs p) <= 1
  /\ one_alert (Main.browser (Main.run evs p)).
Proof.
  intros Hf Ha.
  apply (main_run_preserves
           (fun p => Main.download_forms p <= 1 /\ one_alert (Main.browser p)));
    try (intros; assumption); [| | | split; assumption].
  - intros m t p' [Hf' _]. split; [exact Hf'|].
    unfold one_alert. rewrite main_showAlert_count. exact Hf'.
  - intros i j b p' [Hf' Ha'] Ht. split; [exact Hf'|].
    cbn [Main.browser Main.with_browser].
    apply take_timer_alerts in Ht as [Hal _]. unfold one_alert. rewrite Hal. exact Ha'.
  - intros a p' [Hf' Ha']. split; [exact Hf'|].
    cbn [Main.browser Main.with_browser]. apply one_alert_fade_done, Ha'.
Qed.

Lemma main_run_fresh (evs : list Main.event) (p : Main.page) :
  Main.download_forms p = 1 ->
  tids_fresh (Main.browser p) ->
  Main.download_forms (Main.run evs p) = 1
  /\ tids_fresh (Main.browser (Main.run evs p)).
Proof.
  intros Hf Ha.
  apply (main_run_preserves
           (fun p => Main.download_forms p = 1 /\ tids_fresh (Main.browser p)));
    try (intros; assumption); [| | | split; assumption].
  - intros m t p' [Hf' H]. split; [exact Hf'|].
    rewrite main_showAlert_browser by exact Hf'. apply tids_fresh_setTimeout, H.
  - intros i j b p' [Hf' H] Ht. split; [exact Hf'|].
    cbn [Main.browser Main.with_browser]. eapply tids_fresh_take; eassumption.
  - intros a p' [Hf' H]. split; [exact Hf'|].
    cbn [Main.browser Main.with_browser]. apply tids_fresh_setTimeout, H.
Qed.

End AlertInvariants.

Section AlertLife.

Import Browser Net.

Lemma admin_alert_life (m t : string) (w : Admin.admin) :
  tids_fresh (Admin.browser w) ->
  let w1 := Admin.showAlert m t w in
  let id := next_tid (Admin.browser w) in
  exists a,
    alerts (Admin.browser w1) = [a] /\ amessage a = m
    /\ aid a = next_aid (Admin.browser w)
    /\ find_timer id (Admin.browser w1)
       = Some {| tid := id; due := (now (Admin.browser w) + 5000)%N; period := None;
                 job := AlertTimeout (aid a) |}
    /\ (forall dt, (dt < 5000)%N ->
          Admin.step (Admin.TimerFires id) (Admin.step (Admin.Tick dt) w1)
          = Admin.step (Admin.Tick dt) w1)
    /\ alerts (Admin.browser
                 (Admin.run [Admin.Tick 5000; Admin.TimerFires id;
                             Admin.Tick 400; Admin.TimerFires (S id)] w1)) = [].
Proof.
  intros Hb w1 id.
  set (a := {| aid := next_aid (Admin.browser w); amessage := m;
               aclass := Admin.alertClass t +:+ " fade-in";
               aicon := Admin.alertIcon t |}).
  destruct (shown_alert_is_dismissed a (S (next_aid (Admin.browser w)))
              (Admin.browser w) Hb) as (Ha & Hf & Hwait & b2 & b3 & H1 & H2 & H3).
  pose proof (admin_showAlert_browser m t w) as Hw1. cbv zeta in Hw1.
  fold a in Hw1. fold w1 in Hw1. rewrite <- Hw1 in Ha, Hf, Hwait, H1.
  exists a. split; [exact Ha|]. split; [reflexivity|]. split; [reflexivity|].
  split; [exact Hf|]. split.
  - intros dt Hdt. cbn [Admin.step].
    change (Admin.browser (Admin.on_browser (tick dt) w1))
      with (tick dt (Admin.browser w1)).
    fold id in Hwait. rewrite (Hwait dt Hdt). reflexivity.
  - unfold Admin.run. cbn [foldl Admin.step].
    change (Admin.browser (Admin.on_browser (tick 5000) w1))
      with (tick 5000 (Admin.browser w1)).
    fold id in H1. rewrite H1. cbn [Admin.run_task].
    set (w2 := Admin.set_browser b2 (Admin.on_browser (tick 5000) w1)).
    change (Admin.browser (Admin.on_browser (tick 400)
                             (Admin.on_browser (alert_timeout (aid a)) w2)))
      with (tick fade_duration (alert_timeout (aid a) b2)).
    fold id in H2. rewrite H2. cbn [Admin.run_task].
    cbn [Admin.on_browser Admin.browser Admin.set_browser]. exact H3.
Qed.

Lemma main_alert_life (m t : string) (p : Main.page) :
  Main.download_forms p = 1 ->
  tids_fresh (Main.browser p) ->
  let p1 := Main.showAlert m t p in
  let id := next_tid (Main.browser p) in
  exists a,
    alerts (Main.browser p1) = [a] /\ amessage a = m
    /\ aid a = next_aid (Main.browser p)
    /\ find_timer id (Main.browser p1)
       = Some {| tid := id; due := (now (Main.browser p) + 5000)%N; period := None;
                 job := AlertTimeout (aid a) |}
    /\ (forall dt, (dt < 5000)%N ->
          Main.step (Main.TimerFires id) (Main.step (Main.Tick dt) p1)
          = Main.step (Main.Tick dt) p1)
    /\ alerts (Main.browser
                 (Main.run [Main.Tick 5000; Main.TimerFires id;
                            Main.Tick 400; Main.TimerFires (S id)] p1)) = [].
Proof.
  intros Hforms Hb p1 id.
  set (a := {| aid := next_aid (Main.browser p); amessage := m;
               aclass := Main.alertClass t +:+ " fade-in";
               aicon := Main.alertIcon t |}).
  destruct (shown_alert_is_dismissed a (S (next_aid (Main.browser p)))
              (Main.browser p) Hb) as (Ha & Hf & Hwait & b2 & b3 & H1 & H2 & H3).
  pose proof (main_showAlert_browser m t p Hforms) as Hp1. cbv zeta in Hp1.
  fold a in Hp1. fold p1 in Hp1. rewrite <- Hp1 in Ha, Hf, Hwait, H1.
  exists a. split; [exact Ha|]. split; [reflexivity|]. split; [reflexivity|].
  split; [exact Hf|]. split.
  - intros dt Hdt. cbn [Main.step].
    change (Main.browser (Main.with_browser (tick dt (Main.browser p1)) p1))
      with (tick dt (Main.browser p1)).
    fold id in Hwait. rewrite (Hwait dt Hdt). reflexivity.
  - unfold Main.run. cbn [foldl Main.step].
    change (Main.browser (Main.with_browser (tick 5000 (Main.browser p1)) p1))
      with (tick 5000 (Main.browser p1)).
    fold id in H1. rewrite H1. cbn [Main.run_task].
    cbn [Main.browser Main.with_browser].
    change (tick 400 (alert_timeout (aid a) b2))
      with (tick fade_duration (alert_timeout (aid a) b2)).
    fold id in H2. rewrite H2. cbn [Main.run_task].
    cbn [Main.browser Main.with_browser]. exact H3.
Qed.

(** C9. In both scripts, [showAlert] first takes every alert element out of
    the document and then inserts the new one, so that, from the loaded page
    on and whatever happens, the document never holds more than one alert;
    and the alert it shows is dismissed by its own 5000 ms timeout: the
    timeout cannot fire earlier, and once it has fired and the fade-out it
    starts has completed the alert is gone.  (For main.js the page is taken
    to have its [.download-form] element, the place the alert is put in.) *)
Theorem alerts_one_at_a_time :
  (forall template evs,
     length (alerts (Admin.browser (Admin.run evs (Admin.ready template)))) <= 1)
  /\ (forall m t w,
        exists a, alerts (Admin.browser (Admin.showAlert m t w)) = [a]
                  /\ aid a = next_aid (Admin.browser w))
  /\ (forall template evs m t,
        let w := Admin.run evs (Admin.ready template) in
        let w1 := Admin.showAlert m t w in
        let id := next_tid (Admin.browser w) in
        exists a,
          alerts (Admin.browser w1) = [a] /\ amessage a = m
          /\ aid a = next_aid (Admin.browser w)
          /\ find_timer id (Admin.browser w1)
             = Some {| tid := id; due := (now (Admin.browser w) + 5000)%N;
                       period := None; job := AlertTimeout (aid a) |}
          /\ (forall dt, (dt < 5000)%N ->
                Admin.step (Admin.TimerFires id) (Admin.step (Admin.Tick dt) w1)
                = Admin.step (Admin.Tick dt) w1)
          /\ alerts (Admin.browser
                       (Admin.run [Admin.Tick 5000; Admin.TimerFires id;
                                   Admin.Tick 400; Admin.TimerFires (S id)] w1)) = [])
  /\ (forall forms evs,
        forms <= 1 ->
        length (alerts (Main.browser (Main.run evs (Main.init forms)))) <= 1)
  /\ (forall evs m t,
        let p := Main.run evs (Main.init 1) in
        let p1 := Main.showAlert m t p in
        let id := next_tid (Main.browser p) in
        exists a,
          alerts (Main.browser p1) = [a] /\ amessage a = m
          /\ aid a = next_aid (Main.browser p)
          /\ find_timer id (Main.browser p1)
             = Some {| tid := id; due := (now (Main.browser p) + 5000)%N;
                       period := None; job := AlertTimeout (aid a) |}
          /\ (forall dt, (dt < 5000)%N ->
                Main.step (Main.TimerFires id) (Main.step (Main.Tick dt) p1)
                = Main.step (Main.Tick dt) p1)
          /\ alerts (Main.browser
                       (Main.run [Main.Tick 5000; Main.TimerFires id;
                                  Main.Tick 400; Main.TimerFires (S id)] p1)) = []).
Proof.
  split; [|split; [|split; [|split]]].
  - intros template evs. apply admin_run_one_alert. unfold one_alert. cbn. lia.
  - intros m t w. eexists. split; reflexivity.
  - intros template evs m t. apply admin_alert_life.
    apply admin_run_fresh, admin_ready_fresh.
  - intros forms evs Hforms.
    apply (main_run_one_alert evs (Main.init forms)); [exact Hforms|].
    unfold one_alert. cbn. lia.
  - intros evs m t.
    destruct (main_run_fresh evs (Main.init 1) eq_refl) as [Hf Hb].
    { unfold tids_fresh. cbn. constructor. }
    apply main_alert_life; assumption.
Qed.

End AlertLife.

Lemma alerts_one_at_a_time_witness :
  length (Browser.alerts
            (Main.browser
               (Main.run [Main.ClearFormClick; Main.GetInfoClick] (Main.init 1)))) <= 1.
Proof.
  exact (proj1 (proj2 (proj2 (proj2 alerts_one_at_a_time))) 1
           [Main.ClearFormClick; Main.GetInfoClick] (le_n 1)).
Defined.

(** ** The session probe (admin.js) *)

Section SessionProbe.

Import Browser Net Admin Panel.

Lemma probe_step (e : event) (w : admin) (r : result payload) :
  probe_answer e w = Some r ->
  exists n, e = Answer n r
    /\ step e w = session_check_done r (set_awaiting (delete n (awaiting w)) w).
Proof.
  destruct e; try discriminate. cbn [probe_answer step]. unfold answer.
  destruct (awaiting w !! n) as [q|]; [|discriminate].
  destruct (on_answer q); try discriminate.
  intros H. injection H as ->. exists n. split; reflexivity.
Qed.

Lemma flag_frame (e : event) (w : admin) :
  probe_answer e w = None ->
  sessionWarningShown w = true -> sessionWarningShown (step e w) = true.
Proof.
  apply (step_frame (fun w => sessionWarningShown w = true)); intros; assumption.
Qed.

Lemma warning_sets_flag (e : event) (w : admin) :
  session_warning e w = true -> sessionWarningShown (step e w) = true.
Proof.
  unfold session_warning, raises_alert.
  destruct (probe_answer e w) as [r|] eqn:He; [|discriminate].
  destruct (probe_step e w r He) as (n & -> & ->).
  unfold session_check_done.
  destruct r as [status error|message|p]; cbn -[Nat.ltb].
  - destruct ((status =? 401) && negb (sessionWarningShown w)) eqn:Hc; cbn -[Nat.ltb].
    + reflexivity.
    + rewrite Nat.ltb_irrefl. discriminate.
  - rewrite Nat.ltb_irrefl. discriminate.
  - rewrite Nat.ltb_irrefl. discriminate.
Qed.

Lemma flagged_no_warning (e : event) (w : admin) :
  sessionWarningShown w = true -> session_warning e w = false.
Proof.
  intros Hflag. unfold session_warning, raises_alert.
  destruct (probe_answer e w) as [r|] eqn:He; [|reflexivity].
  destruct (probe_step e w r He) as (n & -> & ->).
  unfold session_check_done.
  destruct r as [status error|message|p]; cbn -[Nat.ltb].
  - rewrite Hflag, andb_false_r. cbn -[Nat.ltb]. apply Nat.ltb_irrefl.
  - apply Nat.ltb_irrefl.
  - apply Nat.ltb_irrefl.
Qed.

Lemma flag_kept (e : event) (w : admin) :
  sessionWarningShown w = true -> probe_success e w = false ->
  sessionWarningShown (step e w) = true.
Proof.
  intros Hflag Hs. destruct (probe_answer e w) as [r|] eqn:He.
  - unfold probe_success in Hs. rewrite He in Hs.
    destruct (probe_step e w r He) as (n & -> & ->).
    destruct r as [status error|message|p]; try discriminate Hs.
    unfold session_check_done. cbn. rewrite Hflag, andb_false_r. exact Hflag.
  - apply flag_frame; assumption.
Qed.

Lemma flagged_warning_needs_success (evs : list event) (w : admin) (j : nat) :
  sessionWarningShown w = true ->
  warnings evs w !! j = Some true ->
  exists k, k < j /\ successes evs w !! k = Some true.
Proof.
  revert w j. induction evs as [|e evs IH]; intros w j Hflag Hj; [discriminate|].
  destruct j as [|j].
  - cbn in Hj. rewrite (flagged_no_warning e w Hflag) in Hj. discriminate.
  - cbn [warnings] in Hj. change (warnings evs (step e w) !! j = Some true) in Hj.
    destruct (probe_success e w) eqn:Hs.
    + exists 0. split; [lia|]. cbn [successes]. rewrite Hs. reflexivity.
    + destruct (IH (step e w) j (flag_kept e w Hflag Hs) Hj) as (k & Hk & Hsk).
      exists (S k). split; [lia|]. exact Hsk.
Qed.

(** C6. Along any run of the panel, between two steps at which the session
    warning is raised there is a step at which a probe succeeded: the warning
    is raised at most once per streak of failures.  While the flag is set a
    failed probe changes nothing; a successful probe clears the flag; and
    with the flag clear a probe failing with status 401 sets it and shows the
    warning. *)
Theorem session_warning_once_per_streak (evs : list event) (w : admin) :
  (forall i j,
     i < j ->
     warnings evs w !! i = Some true ->
     warnings evs w !! j = Some true ->
     exists k, i < k < j /\ successes evs w !! k = Some true)
  /\ (forall w' status error,
        sessionWarningShown w' = true ->
        session_check_done (Failure status error) w' = w')
  /\ (forall w' r,
        (forall status error, r <> Failure status error) ->
        session_check_done r w' = set_sessionWarningShown false w')
  /\ (forall w' error,
        sessionWarningShown w' = false ->
        session_check_done (Failure 401 error) w'
        = showAlert "Phiên đăng nhập sắp hết hạn. Vui lòng làm mới trang." "error"
            (set_sessionWarningShown true w')).
Proof.
  split; [|split; [|split]].
  - revert w. induction evs as [|e evs IH]; intros w i j Hij Hi Hj; [discriminate|].
    destruct j as [|j]; [lia|].
    change (warnings evs (step e w) !! j = Some true) in Hj.
    destruct i as [|i].
    + cbn in Hi. injection Hi as Hi.
      destruct (flagged_warning_needs_success evs (step e w) j
                  (warning_sets_flag e w Hi) Hj) as (k & Hk & Hsk).
      exists (S k). split; [lia | exact Hsk].
    + change (warnings evs (step e w) !! i = Some true) in Hi.
      destruct (IH (step e w) i j ltac:(lia) Hi Hj) as (k & Hk & Hsk).
      exists (S k). split; [lia | exact Hsk].
  - intros w' status error Hflag. unfold session_check_done.
    rewrite Hflag, andb_false_r. reflexivity.
  - intros w' r Hr. destruct r as [status error|message|p]; [|reflexivity|reflexivity].
    exfalso. exact (Hr status error eq_refl).
  - intros w' error Hflag. unfold session_check_done. rewrite Hflag. reflexivity.
Qed.

End SessionProbe.

Lemma session_warning_once_per_streak_witness :
  exists k, 2 < k < 11
    /\ Panel.successes Panel.example_probe_run (Admin.ready Panel.example_template) !! k
       = Some true.
Proof.
  apply (proj1 (session_warning_once_per_streak Panel.example_probe_run
                  (Admin.ready Panel.example_template)) 2 11).
  - lia.
  - vm_compute. reflexivity.
  - vm_compute. reflexivity.
Defined.

(** ** Settings auto-save (admin.js) *)

Section AutoSave.

Import Browser Net Admin Panel.

Lemma saves_tracked_add (w : admin) (b : Browser.browser) (t : timer) :
  saves_tracked w ->
  timers b = timers (browser w) ++ [t] ->
  job t <> AutoSave ->
  saves_tracked (set_browser b w).
Proof.
  unfold saves_tracked. cbn [set_browser browser autoSaveTimeout].
  intros H -> Ht. apply Forall_app. split; [exact H|].
  constructor; [|constructor]. intros Hj. contradiction.
Qed.

Lemma autosave_inv_showAlert (m t : string) (w : admin) :
  autosave_inv w -> autosave_inv (showAlert m t w).
Proof.
  intros [Hf Hs]. split.
  - rewrite admin_showAlert_browser. apply tids_fresh_setTimeout, Hf.
  - apply (saves_tracked_add w _
             {| tid := next_tid (browser w); due := (now (browser w) + 5000)%N;
                period := None; job := AlertTimeout (next_aid (browser w)) |});
      [exact Hs | reflexivity | discriminate].
Qed.

Lemma autosave_inv_run (evs : list event) (w : admin) :
  autosave_inv w -> autosave_inv (run evs w).
Proof.
  apply (run_preserves autosave_inv); try (intros; assumption).
  - apply autosave_inv_showAlert.
  - intros i j b w' [Hf Hs] Ht. split.
    + cbn [browser set_browser]. eapply tids_fresh_take; eassumption.
    + unfold saves_tracked in *. cbn [set_browser browser autoSaveTimeout].
      unfold take_timer in Ht.
      destruct (find_timer i (browser w')) as [t|] eqn:Hfind; [|discriminate].
      destruct (N.leb (due t) (now (browser w'))); [|discriminate].
      injection Ht as _ <-. cbn [with_timers timers].
      apply find_timer_In in Hfind as [Hin _].
      destruct (period t) as [p|] eqn:Hp; [|apply Forall_filter_timers, Hs].
      apply Forall_app. split; [apply Forall_filter_timers, Hs|].
      constructor; [|constructor]. cbn [job tid period]. intros Hj.
      rewrite Forall_forall in Hs.
      destruct (Hs t ltac:(apply list_elem_of_In; exact Hin) Hj) as [_ Hnone].
      congruence.
  - intros a w' [Hf Hs]. split.
    + cbn [on_browser browser set_browser]. apply tids_fresh_setTimeout, Hf.
    + apply (saves_tracked_add w' _
               {| tid := next_tid (browser w');
                  due := (now (browser w') + fade_duration)%N;
                  period := None; job := FadeDone a |});
        [exact Hs | reflexivity | discriminate].
  - intros w' [Hf Hs]. split.
    + unfold settings_form_input.
      pose proof (tids_fresh_setTimeout AutoSave 2000 _
                    (tids_fresh_clearTimeout (autoSaveTimeout w') _ Hf)) as H'.
      destruct (setTimeout AutoSave 2000
                  (clearTimeout (autoSaveTimeout w') (browser w'))) as [id b2].
      exact H'.
    + unfold saves_tracked in *. unfold settings_form_input.
      cbn [setTimeout set_autoSaveTimeout set_browser browser autoSaveTimeout
           with_timers timers].
      apply Forall_app. split.
      * rewrite Forall_forall in Hs. apply Forall_forall. intros t Ht Hj. exfalso.
        destruct (autoSaveTimeout w') as [old|] eqn:Hold.
        -- cbn [clearTimeout with_timers timers] in Ht.
           apply list_elem_of_filter in Ht as [Hne Ht].
           destruct (Hs t Ht Hj) as [Heq _]. congruence.
        -- cbn [clearTimeout] in Ht. destruct (Hs t Ht Hj) as [Heq _]. discriminate.
      * constructor; [|constructor]. cbn [job tid period]. intros _. split; reflexivity.
  - intros r w' Hw. unfold session_check_done.
    destruct r as [status error|message|p]; try exact Hw.
    destruct ((status =? 401) && negb (sessionWarningShown w')); [|exact Hw].
    apply autosave_inv_showAlert. exact Hw.
Qed.

Lemma autosave_inv_ready (template : document) : autosave_inv (ready template).
Proof.
  split; [apply admin_ready_fresh|].
  unfold saves_tracked. cbn. repeat constructor; discriminate.
Qed.

End AutoSave.

Section AutoSaveDebounce.

Import Browser Net Admin Panel.

(** The value [saveSettings] sends under a name is the value of the last
    input of that name. *)
Lemma collect_settings_snoc (inputs : list setting_input) (x : setting_input) :
  collect_settings (inputs ++ [x])
  = <[input_name x := input_value x]> (collect_settings inputs).
Proof. unfold collect_settings. rewrite foldl_app. reflexivity. Qed.

Lemma collect_settings_lookup (inputs : list setting_input) (name : string) :
  collect_settings inputs !! name
  = input_value <$> last (filter (fun i => input_name i = name) inputs).
Proof.
  induction inputs as [|x l IH] using rev_ind; [apply lookup_empty|].
  rewrite collect_settings_snoc, filter_app, filter_cons, filter_nil.
  destruct (decide (input_name x = name)) as [Hx|Hx].
  - rewrite last_snoc, Hx. apply lookup_insert_eq.
  - rewrite app_nil_r, <- IH. apply lookup_insert_ne. exact Hx.
Qed.

Lemma no_other_saves (w : admin) :
  saves_tracked w ->
  List.filter is_auto_save (timers (clearTimeout (autoSaveTimeout w) (browser w))) = [].
Proof.
  unfold saves_tracked. intros Hs.
  assert (H : Forall (fun t => is_auto_save t = false)
                (timers (clearTimeout (autoSaveTimeout w) (browser w)))).
  { rewrite Forall_forall in Hs. apply Forall_forall. intros t Ht.
    unfold is_auto_save. destruct (job t) eqn:Hj; try reflexivity. exfalso.
    destruct (autoSaveTimeout w) as [old|] eqn:Hold.
    - cbn [clearTimeout with_timers timers] in Ht.
      apply list_elem_of_filter in Ht as [Hne Ht].
      destruct (Hs t Ht Hj) as [Heq _]. congruence.
    - cbn [clearTimeout] in Ht. destruct (Hs t Ht Hj) as [Heq _]. discriminate. }
  induction H as [|t l Ht _ IH]; [reflexivity|].
  cbn [List.filter]. rewrite Ht. exact IH.
Qed.

(** The auto-save around one edit, in a state where the invariant holds. *)
Lemma auto_save_after_edit (w : admin) (i : nat) (v : string) (inp : setting_input) :
  autosave_inv w ->
  settings_form (doc w) !! i = Some inp ->
  let w1 := step (SettingTyped i v) w in
  let id := next_tid (browser w) in
  settings_form (doc w1) = <[i := set_input_value v inp]> (settings_form (doc w))
  /\ sent w1 = sent w
  /\ alerts (browser w1) = alerts (browser w)
  /\ autoSaveTimeout w1 = Some id
  /\ pending_saves w1
     = [{| tid := id; due := (now (browser w) + 2000)%N; period := None; job := AutoSave |}]
  /\ (forall dt, (dt < 2000)%N ->
        step (TimerFires id) (step (Tick dt) w1) = step (Tick dt) w1)
  /\ (forall dt, (2000 <= dt)%N ->
        let w2 := step (TimerFires id) (step (Tick dt) w1) in
        sent w2
        = sent w1
          ++ [{| url := "/admin/api/settings"; method := "POST";
                 payload_sent := SettingsJson (collect_settings (settings_form (doc w1)));
                 on_answer := OnSaveSettings |}]
        /\ (exists a, alerts (browser w2) = [a]
                      /\ amessage a = "Tự động lưu cài đặt..."
                      /\ aclass a = "alert-info fade-in")
        /\ pending_saves w2 = []).
Proof.
  intros [Hf Hs] Hi w1 id.
  set (b0 := clearTimeout (autoSaveTimeout w) (browser w)).
  assert (Hb0 : tids_fresh b0) by (apply tids_fresh_clearTimeout, Hf).
  pose proof (no_other_saves w Hs) as Hno. fold b0 in Hno.
  assert (Hn0 : next_tid b0 = id) by (subst b0 id; destruct (autoSaveTimeout w); reflexivity).
  assert (Hnow0 : now b0 = now (browser w))
    by (subst b0; destruct (autoSaveTimeout w); reflexivity).
  assert (Hal0 : alerts b0 = alerts (browser w))
    by (subst b0; destruct (autoSaveTimeout w); reflexivity).
  assert (Hw1 : browser w1 = snd (setTimeout AutoSave 2000 b0)).
  { subst w1. cbn [step]. unfold type_setting. rewrite Hi. reflexivity. }
  assert (Hd1 : doc w1
                = set_settings_form (<[i := set_input_value v inp]> (settings_form (doc w)))
                    (doc w)).
  { subst w1. cbn [step]. unfold type_setting. rewrite Hi. reflexivity. }
  assert (Hs1 : sent w1 = sent w).
  { subst w1. cbn [step]. unfold type_setting. rewrite Hi. reflexivity. }
  assert (Ht1 : autoSaveTimeout w1 = Some id).
  { subst w1. cbn [step]. unfold type_setting. rewrite Hi.
    unfold settings_form_input. cbn. fold b0. rewrite Hn0. reflexivity. }
  split; [rewrite Hd1; reflexivity|]. split; [exact Hs1|].
  split; [rewrite Hw1; exact Hal0|]. split; [exact Ht1|]. split; [|split].
  - unfold pending_saves. rewrite Hw1.
    cbn [setTimeout snd with_timers timers]. rewrite List.filter_app.
    rewrite Hno, Hn0, Hnow0. reflexivity.
  - intros dt Hdt. cbn [step].
    change (browser (on_browser (tick dt) w1)) with (tick dt (browser w1)).
    rewrite Hw1, <- Hn0, (fresh_timeout_waits AutoSave 2000 dt b0 Hb0 Hdt). reflexivity.
  - intros dt Hdt. cbn zeta. cbn [step].
    change (browser (on_browser (tick dt) w1)) with (tick dt (browser w1)).
    rewrite Hw1, <- Hn0, (fresh_timeout_fires AutoSave 2000 dt b0 Hb0 Hdt).
    cbn [run_task]. unfold auto_save, saveSettings.
    split; [reflexivity|]. split; [eexists; repeat split|].
    unfold pending_saves. cbn -[List.filter]. rewrite List.filter_app.
    rewrite Hno. reflexivity.
Qed.

(** C10. From the loaded page on and whatever happened before, an input
    event in a field of the settings form leaves exactly one auto-save
    timeout waiting, due 2000 ms after that input: the one an earlier input
    had armed is cancelled, so inputs closer than 2 s are coalesced, and the
    input itself sends nothing.  The timeout cannot fire before the 2 s are
    over; when it fires, the info notification is shown, [saveSettings]
    issues one POST to /admin/api/settings carrying, for every field name, the
    current value of the (last) field of that name, and no auto-save is left
    waiting. *)
Theorem auto_save_debounce (template : document) (evs : list event)
    (i : nat) (v : string) (inp : setting_input) :
  let w := run evs (ready template) in
  settings_form (doc w) !! i = Some inp ->
  let w1 := step (SettingTyped i v) w in
  let id := next_tid (browser w) in
  settings_form (doc w1) = <[i := set_input_value v inp]> (settings_form (doc w))
  /\ sent w1 = sent w
  /\ autoSaveTimeout w1 = Some id
  /\ pending_saves w1
     = [{| tid := id; due := (now (browser w) + 2000)%N; period := None; job := AutoSave |}]
  /\ (forall dt, (dt < 2000)%N ->
        step (TimerFires id) (step (Tick dt) w1) = step (Tick dt) w1)
  /\ (forall dt, (2000 <= dt)%N ->
        let w2 := step (TimerFires id) (step (Tick dt) w1) in
        sent w2
        = sent w1
          ++ [{| url := "/admin/api/settings"; method := "POST";
                 payload_sent := SettingsJson (collect_settings (settings_form (doc w1)));
                 on_answer := OnSaveSettings |}]
        /\ (exists a, alerts (browser w2) = [a]
                      /\ amessage a = "Tự động lưu cài đặt..."
                      /\ aclass a = "alert-info fade-in")
        /\ pending_saves w2 = [])
  /\ (forall name,
        collect_settings (settings_form (doc w1)) !! name
        = input_value <$> last (filter (fun x => input_name x = name)
                                  (settings_form (doc w1)))).
Proof.
  intros w Hi w1 id.
  destruct (auto_save_after_edit w i v inp
              (autosave_inv_run evs _ (autosave_inv_ready template)) Hi)
    as (H1 & H2 & _ & H4 & H5 & H6 & H7).
  repeat (split; [assumption|]).
  intros name. apply collect_settings_lookup.
Qed.

End AutoSaveDebounce.

Lemma auto_save_debounce_witness :
  Panel.pending_saves
    (Admin.step (Admin.SettingTyped 1 "250")
       (Admin.run Panel.example_edits (Admin.ready Panel.example_template)))
  = [{| Browser.tid := 5; Browser.due := 3500; Browser.period := None;
        Browser.job := Browser.AutoSave |}].
Proof.
  exact (proj1 (proj2 (proj2 (proj2
           (auto_save_debounce Panel.example_template Panel.example_edits 1 "250"
              {| Admin.input_name := "max_downloads"; Admin.input_label := "Daily limit";
                 Admin.input_value := "100" |} eq_refl))))).
Defined.

(** ** URL validation (main.js) *)

Section UrlValidation.

Import Browser Net Main.

Lemma showAlert_sends_nothing (m t : string) (p : page) :
  sent (showAlert m t p) = sent p /\ awaiting (showAlert m t p) = awaiting p.
Proof. split; reflexivity. Qed.

(** C3, as stated, fails: once the information of a video has been fetched,
    the URL field can be changed to a URL outside YouTube, and the download
    and preview actions send their requests with it, showing no error. *)
Lemma download_ignores_url_validity :
  let info := {| thumbnail := "t.jpg"; title := "A video"; uploader := "someone";
                 duration := 61; view_count := 1200 |} in
  let p := run [ UrlTyped "https://youtu.be/abc123"; GetInfoClick;
                 Answer 0 (Success (InfoOk info []));
                 UrlTyped "https://example.com/video" ] (init 1) in
  isValidYouTubeUrl (Text.trim (youtube_url p)) = false
  /\ sent (step (DownloadClick "srt") p)
     = sent p ++ [DownloadSubtitle "https://example.com/video" "srt" "en"]
  /\ alerts (browser (step (DownloadClick "srt") p)) = []
  /\ sent (step PreviewClick p)
     = sent p ++ [PreviewSubtitle "https://example.com/video" "en"]
  /\ alerts (browser (step PreviewClick p)) = [].
Proof. cbv zeta. repeat split. Qed.

(** C3, amended. For a URL field whose trimmed value fails
    [isValidYouTubeUrl], no request leaves for the video information,
    however the handler of the get-info button is reached: by a click, by
    Enter in the field or by Ctrl+Enter.  The handler shows an error alert
    whenever it runs, which it does on Enter and Ctrl+Enter and on a click of
    the enabled button; a click of the disabled button does nothing, and the
    button is disabled once the value has been typed.  The download and
    preview actions are guarded by the video information instead: with none
    fetched they show an error alert and send nothing; with some fetched
    they send their request with the URL as it stands. *)
Theorem invalid_url_blocks_get_info (p : page) (format : string) :
  isValidYouTubeUrl (Text.trim (youtube_url p)) = false ->
  sent (step GetInfoClick p) = sent p
  /\ sent (step (UrlKeypress 13) p) = sent p
  /\ sent (step (KeyDown true 13) p) = sent p
  /\ (exists message,
        step (UrlKeypress 13) p = showAlert message "error" p
        /\ step (KeyDown true 13) p = showAlert message "error" p
        /\ (get_info_disabled p = false ->
            step GetInfoClick p = showAlert message "error" p))
  /\ (get_info_disabled p = true -> step GetInfoClick p = p)
  /\ (forall q,
        let q' := step (UrlTyped (youtube_url p)) q in
        get_info_disabled q' = true /\ step GetInfoClick q' = q')
  /\ (downloads_disabled p = false -> currentVideoInfo p = None ->
        step (DownloadClick format) p
        = showAlert "Vui lòng lấy thông tin video trước" "error" p
        /\ step PreviewClick p
           = showAlert "Vui lòng lấy thông tin video trước" "error" p
        /\ sent (step (DownloadClick format) p) = sent p
        /\ sent (step PreviewClick p) = sent p)
  /\ (downloads_disabled p = false -> currentVideoInfo p <> None ->
        sent (step (DownloadClick format) p)
        = sent p ++ [DownloadSubtitle (Text.trim (youtube_url p)) format (source_language p)]
        /\ sent (step PreviewClick p)
           = sent p ++ [PreviewSubtitle (Text.trim (youtube_url p)) (source_language p)])
  /\ (download_forms p = 1 ->
        exists a, alerts (browser (step (UrlKeypress 13) p)) = [a]
                  /\ aclass a = "alert-error fade-in").
Proof.
  intros Hbad.
  assert (Hinfo : exists message, get_info_btn_click p = showAlert message "error" p).
  { unfold get_info_btn_click. rewrite Hbad.
    destruct (negb (Text.truthy (Text.trim (youtube_url p)))); eexists; reflexivity. }
  destruct Hinfo as [m Hm].
  assert (Hkey : step (UrlKeypress 13) p = showAlert m "error" p) by exact Hm.
  assert (Hdown : step (KeyDown true 13) p = showAlert m "error" p).
  { cbn [step]. unfold document_keydown. cbn [andb Nat.eqb]. exact Hm. }
  split; [|split; [|split; [|split; [|split; [|split; [|split; [|split]]]]]]].
  - cbn [step]. destruct (get_info_disabled p); [reflexivity|]. rewrite Hm. reflexivity.
  - rewrite Hkey. reflexivity.
  - rewrite Hdown. reflexivity.
  - exists m. split; [exact Hkey|]. split; [exact Hdown|].
    intros Hen. cbn [step]. rewrite Hen. exact Hm.
  - intros Hdis. cbn [step]. rewrite Hdis. reflexivity.
  - intros q. cbv zeta.
    assert (Hoff : get_info_disabled (step (UrlTyped (youtube_url p)) q) = true).
    { cbn [step]. unfold youtube_url_input. cbn [youtube_url with_fields].
      rewrite Hbad, andb_false_r. reflexivity. }
    split; [exact Hoff|]. cbn [step] in Hoff |- *. rewrite Hoff. reflexivity.
  - intros Hen Hnone. cbn [step]. rewrite Hen.
    unfold btn_download_click, preview_btn_click. rewrite Hnone. repeat split.
  - intros Hen Hsome. cbn [step]. rewrite Hen.
    unfold btn_download_click, preview_btn_click.
    destruct (currentVideoInfo p); [|contradiction]. split; reflexivity.
  - intros Hforms. rewrite Hkey.
    pose proof (main_showAlert_browser m "error" p Hforms) as H. cbv zeta in H.
    rewrite H. eexists. split; reflexivity.
Qed.

Lemma invalid_url_blocks_get_info_witness :
  sent (step (UrlKeypress 13) (step (UrlTyped "https://example.com/video") (init 1)))
  = [].
Proof.
  exact (proj1 (proj2
           (invalid_url_blocks_get_info
              (step (UrlTyped "https://example.com/video") (init 1)) "srt" eq_refl))).
Defined.

End UrlValidation.

(** ** Regular expressions: what [test] decides *)

Section RegexFacts.

Import Regex.

Lemma append_empty_r (s : string) : s +:+ "" = s.
Proof. induction s as [|c s IH]; [reflexivity|]. rewrite append_cons, IH. reflexivity. Qed.

Lemma append_assoc (s t u : string) : (s +:+ t) +:+ u = s +:+ (t +:+ u).
Proof.
  induction s as [|c s IH]; [reflexivity|]. rewrite !append_cons, IH. reflexivity.
Qed.

Lemma append_eq_empty (s t : string) : s +:+ t = "" -> s = "" /\ t = "".
Proof. destruct s; [intros H; split; [reflexivity | exact H] | discriminate]. Qed.

Lemma nullable_lang (r : regex) : nullable r = true <-> lang r [].
Proof.
  split.
  - induction r; cbn [nullable]; intros H; try discriminate.
    + constructor.
    + apply andb_true_iff in H as [H1 H2].
      change (@nil N) with (@nil N ++ []). constructor; auto.
    + apply orb_true_iff in H as [H|H]; [apply lang_alt_l | apply lang_alt_r]; auto.
    + constructor.
  - intros H. remember (@nil N) as s eqn:Hs.
    induction H; cbn [nullable]; try discriminate; try reflexivity.
    + apply app_eq_nil in Hs as [-> ->].
      rewrite IHlang1, IHlang2 by reflexivity. reflexivity.
    + rewrite IHlang by exact Hs. reflexivity.
    + rewrite IHlang by exact Hs. apply orb_true_r.
Qed.

Lemma deriv_sound (c : N) (r : regex) (s : list N) :
  lang (deriv c r) s -> lang r (c :: s).
Proof.
  revert s. induction r; intros s H; cbn [deriv] in H.
  - inversion H.
  - inversion H.
  - destruct (N.eqb c c0) eqn:E; inversion H; subst.
    apply N.eqb_eq in E. subst. constructor.
  - destruct (is_line_terminator c) eqn:E; inversion H; subst.
    constructor. exact E.
  - destruct (nullable r1) eqn:N.
    + inversion H as [ | | | | ? ? ? H' | ? ? ? H' | | ]; subst.
      * inversion H'; subst. rewrite app_comm_cons. constructor; auto.
      * change (c :: s) with ([] ++ c :: s). constructor; auto.
        apply nullable_lang. exact N.
    + inversion H; subst. rewrite app_comm_cons. constructor; auto.
  - inversion H; subst; [apply lang_alt_l | apply lang_alt_r]; auto.
  - inversion H; subst. rewrite app_comm_cons. constructor; auto.
Qed.

Lemma deriv_complete (c : N) (r : regex) (s : list N) :
  lang r (c :: s) -> lang (deriv c r) s.
Proof.
  intros H. remember (c :: s) as s' eqn:Hs. revert s Hs.
  induction H; intros t Hs; cbn [deriv]; try discriminate.
  - injection Hs as -> <-. rewrite N.eqb_refl. constructor.
  - injection Hs as -> <-. rewrite H. constructor.
  - destruct s1 as [|c1 s1].
    + cbn [app] in Hs. subst s2.
      assert (N : nullable r1 = true) by (apply nullable_lang; assumption).
      rewrite N. apply lang_alt_r. apply IHlang2. reflexivity.
    + cbn [app] in Hs. injection Hs as -> <-.
      assert (L : lang (Seq (deriv c r1) r2) (s1 ++ s2))
        by (constructor; [apply IHlang1; reflexivity | assumption]).
      destruct (nullable r1); [apply lang_alt_l|]; exact L.
  - apply lang_alt_l. apply IHlang. exact Hs.
  - apply lang_alt_r. apply IHlang. exact Hs.
  - destruct s1 as [|c1 s1].
    + cbn [app] in Hs. apply IHlang2 in Hs. exact Hs.
    + cbn [app] in Hs. injection Hs as -> <-.
      constructor; [apply IHlang1; reflexivity | assumption].
Qed.

(** [matches] decides the language of the pattern. *)
Lemma matches_lang (r : regex) (s : list N) : matches r s = true <-> lang r s.
Proof.
  revert r. induction s as [|c s IH]; intros r; cbn [matches].
  - apply nullable_lang.
  - rewrite IH. split; [apply deriv_sound | apply deriv_complete].
Qed.

(** [test] decides the language of the pattern on the code units of the
    string. *)
Lemma test_lang (r : regex) (s : string) :
  test r s = true <-> lang r (Text.code_units s).
Proof. apply matches_lang. Qed.

End RegexFacts.

(** ** Code units of ASCII text *)

Section CodeUnits.

Import Text.

(** The first code unit of a string is below 128 exactly when its first
    byte is, and then it is that byte. *)
Lemma code_units_head (c : ascii) (s : string) :
  ((N_of_ascii c < 128)%N /\ code_units (String c s) = N_of_ascii c :: code_units s)
  \/ ((128 <= N_of_ascii c)%N
      /\ exists h t, code_units (String c s) = h :: t /\ (128 <= h)%N).
Proof.
  cbn [code_units].
  destruct (N.ltb_spec (N_of_ascii c) 128) as [Hlt|Hge]; [left; split; [exact Hlt | reflexivity]|].
  right. split; [exact Hge|].
  unfold replacement_character.
  destruct s as [|b1 s2]; [eexists _, _; split; [reflexivity | lia]|].
  destruct ((194 <=? N_of_ascii c)%N && (N_of_ascii c <=? 223)%N
            && continuation (N_of_ascii b1)) eqn:E2.
  { eexists _, _. split; [reflexivity|].
    apply andb_true_iff in E2 as [E2 _]. apply andb_true_iff in E2 as [E2 _].
    apply N.leb_le in E2. lia. }
  destruct s2 as [|b2 s3]; [eexists _, _; split; [reflexivity | lia]|].
  destruct ((224 <=? N_of_ascii c)%N && (N_of_ascii c <=? 239)%N
            && second_byte (N_of_ascii c) (N_of_ascii b1)
            && continuation (N_of_ascii b2)) eqn:E3.
  { eexists _, _. split; [reflexivity|].
    apply andb_true_iff in E3 as [E3 _]. apply andb_true_iff in E3 as [E3 Hsec].
    apply andb_true_iff in E3 as [E3 _]. apply N.leb_le in E3.
    unfold second_byte in Hsec.
    destruct (N.eqb_spec (N_of_ascii c) 224) as [Heq|Hne].
    - apply andb_true_iff in Hsec as [Hsec _]. apply N.leb_le in Hsec. lia.
    - lia. }
  destruct s3 as [|b3 s4]; [eexists _, _; split; [reflexivity | lia]|].
  destruct ((240 <=? N_of_ascii c)%N && (N_of_ascii c <=? 244)%N
            && second_byte (N_of_ascii c) (N_of_ascii b1)
            && continuation (N_of_ascii b2) && continuation (N_of_ascii b3)).
  - cbv zeta. eexists _, _. split; [reflexivity|].
    etransitivity; [|apply N.le_add_r]. lia.
  - eexists _, _. split; [reflexivity | lia].
Qed.

Lemma code_units_ascii_cons (c : ascii) (s : string) :
  (N_of_ascii c < 128)%N -> code_units (String c s) = N_of_ascii c :: code_units s.
Proof.
  intros Hc. destruct (code_units_head c s) as [[_ H] | [Hge _]]; [exact H | lia].
Qed.

Lemma code_units_nonempty (s : string) : s <> "" -> code_units s <> [].
Proof.
  destruct s as [|c s]; [contradiction|]. intros _.
  destruct (code_units_head c s) as [[_ ->] | [_ (h & t & -> & _)]]; discriminate.
Qed.

(** ASCII text in front of a string is as many code units in front of the
    string's. *)
Lemma code_units_ascii_app (a b : string) :
  ascii_only a = true -> code_units (a +:+ b) = code_units a ++ code_units b.
Proof.
  induction a as [|c a IH]; [reflexivity|].
  cbn [ascii_only]. intros H. apply andb_true_iff in H as [Hc Ha].
  apply N.ltb_lt in Hc. rewrite append_cons, !code_units_ascii_cons by exact Hc.
  cbn [app]. rewrite IH by exact Ha. reflexivity.
Qed.

Lemma code_units_ascii_prefix (a u : string) (w : list N) :
  ascii_only a = true ->
  code_units u = code_units a ++ w ->
  exists b, u = a +:+ b /\ code_units b = w.
Proof.
  revert u. induction a as [|c a IH]; intros u Ha H.
  - exists u. split; [reflexivity | exact H].
  - cbn [ascii_only] in Ha. apply andb_true_iff in Ha as [Hc Ha].
    apply N.ltb_lt in Hc. rewrite code_units_ascii_cons in H by exact Hc.
    cbn [app] in H. destruct u as [|d u]; [discriminate|].
    destruct (code_units_head d u) as [[Hd Hu] | [_ (h & t & Hu & Hh)]].
    + rewrite Hu in H. injection H as Hdc H.
      apply (f_equal ascii_of_N) in Hdc. rewrite !ascii_N_embedding in Hdc. subst d.
      destruct (IH u Ha H) as (b & -> & Hb).
      exists b. split; [reflexivity | exact Hb].
    + rewrite Hu in H. injection H as -> _. lia.
Qed.

End CodeUnits.

(** ** The URLs [isValidYouTubeUrl] accepts *)

Section YouTubeUrls.

Import Text Regex Main Urls.

Lemma lang_seq_inv (r1 r2 : regex) (s : list N) :
  lang (Seq r1 r2) s -> exists s1 s2, s = s1 ++ s2 /\ lang r1 s1 /\ lang r2 s2.
Proof. intros H. inversion H; subst. eauto. Qed.

Lemma lang_alt_inv (r1 r2 : regex) (s : list N) :
  lang (Alt r1 r2) s -> lang r1 s \/ lang r2 s.
Proof. intros H. inversion H; subst; auto. Qed.

Lemma lang_eps_inv (s : list N) : lang Eps s -> s = [].
Proof. intros H. inversion H. reflexivity. Qed.

Lemma lang_chr_inv (c : N) (s : list N) : lang (Chr c) s -> s = [c].
Proof. intros H. inversion H. reflexivity. Qed.

Lemma lang_units (t s : list N) : lang (Units t) s <-> s = t.
Proof.
  revert s. induction t as [|c t IH]; intros s; cbn [Units].
  - split; [apply lang_eps_inv | intros ->; constructor].
  - split.
    + intros H. apply lang_seq_inv in H as (s1 & s2 & -> & H1 & H2).
      apply lang_chr_inv in H1 as ->. apply IH in H2 as ->. reflexivity.
    + intros ->. change (c :: t) with ([c] ++ t).
      constructor; [constructor | apply IH; reflexivity].
Qed.

Lemma lang_lit (t : string) (s : list N) : lang (Lit t) s <-> s = code_units t.
Proof. apply lang_units. Qed.

Lemma lang_opt (r : regex) (s : list N) : lang (Opt r) s <-> lang r s \/ s = [].
Proof.
  unfold Opt. split.
  - intros H. apply lang_alt_inv in H as [H|H]; [left; exact H|].
    right. apply lang_eps_inv, H.
  - intros [H| ->]; [apply lang_alt_l, H | apply lang_alt_r; constructor].
Qed.

Lemma lang_star_dot (s : list N) :
  lang (Star Dot) s <-> forallb (fun c => negb (is_line_terminator c)) s = true.
Proof.
  split.
  - intros H. remember (Star Dot) as r eqn:Hr.
    induction H; try discriminate; [reflexivity|].
    injection Hr as ->. specialize (IHlang2 eq_refl).
    inversion H; subst. cbn [app forallb].
    rewrite IHlang2. match goal with E : is_line_terminator _ = false |- _ => rewrite E end.
    reflexivity.
  - induction s as [|c s IH]; cbn [forallb]; intros H; [constructor|].
    apply andb_true_iff in H as [Hc Hs]. apply negb_true_iff in Hc.
    change (c :: s) with ([c] ++ s).
    constructor; [constructor; exact Hc | apply IH, Hs].
Qed.

Lemma lang_plus_dot (s : list N) :
  lang (Plus Dot) s
  <-> s <> [] /\ forallb (fun c => negb (is_line_terminator c)) s = true.
Proof.
  unfold Plus. split.
  - intros H. apply lang_seq_inv in H as (s1 & s2 & -> & H1 & H2).
    inversion H1; subst. apply lang_star_dot in H2.
    cbn [app]. split; [discriminate|].
    cbn [forallb]. rewrite H2.
    match goal with E : is_line_terminator _ = false |- _ => rewrite E end. reflexivity.
  - intros [Hne Hs]. destruct s as [|c s]; [contradiction|].
    cbn [forallb] in Hs. apply andb_true_iff in Hs as [Hc Hs].
    apply negb_true_iff in Hc. change (c :: s) with ([c] ++ s).
    constructor; [constructor; exact Hc | apply lang_star_dot, Hs].
Qed.

Lemma lang_scheme (s : list N) :
  lang (Opt (Seq (Lit "http") (Seq (Opt (Char "s")) (Lit "://")))) s
  <-> s = [] \/ s = code_units "http://" \/ s = code_units "https://".
Proof.
  split.
  - intros H. apply lang_opt in H as [H|H]; [|left; exact H]. right.
    apply lang_seq_inv in H as (s1 & s2 & -> & H1 & H2).
    apply lang_lit in H1 as ->.
    apply lang_seq_inv in H2 as (s3 & s4 & -> & H3 & H4).
    apply lang_lit in H4 as ->.
    apply lang_opt in H3 as [H3| ->]; [right | left; reflexivity].
    apply lang_chr_inv in H3 as ->. reflexivity.
  - intros [-> | [-> | ->]]; apply matches_lang; reflexivity.
Qed.

(** What the pattern of [isValidYouTubeUrl] accepts. *)
Lemma isValidYouTubeUrl_shape (url : string) :
  isValidYouTubeUrl url = true <-> youtube_url_shape url.
Proof.
  unfold isValidYouTubeUrl, youtubeRegex. rewrite test_lang. split.
  - intros H.
    apply lang_seq_inv in H as (w0 & w1 & Hurl & Hscheme & H).
    apply lang_seq_inv in H as (w2 & w3 & -> & Hwww & H).
    apply lang_seq_inv in H as (w4 & w5 & -> & Hhost & H).
    apply lang_seq_inv in H as (w6 & w7 & -> & Hslash & Hrest).
    apply lang_chr_inv in Hslash as ->.
    apply lang_scheme in Hscheme.
    apply lang_opt in Hwww. rewrite lang_lit in Hwww.
    apply lang_alt_inv in Hhost. rewrite !lang_lit in Hhost.
    apply lang_plus_dot in Hrest as [Hne Hline].
    assert (Hs : exists scheme, w0 = code_units scheme /\ ascii_only scheme = true
                   /\ (scheme = "" \/ scheme = "http://" \/ scheme = "https://")).
    { destruct Hscheme as [-> | [-> | ->]];
        [exists "" | exists "http://" | exists "https://"];
        (split; [reflexivity|]); (split; [reflexivity|]); auto. }
    assert (Hw : exists www, w2 = code_units www /\ ascii_only www = true
                   /\ (www = "" \/ www = "www.")).
    { destruct Hwww as [-> | ->]; [exists "www." | exists ""];
        (split; [reflexivity|]); (split; [reflexivity|]); auto. }
    assert (Hh : exists host, w4 = code_units host /\ ascii_only host = true
                   /\ (host = "youtube.com" \/ host = "youtu.be")).
    { destruct Hhost as [-> | ->]; [exists "youtube.com" | exists "youtu.be"];
        (split; [reflexivity|]); (split; [reflexivity|]); auto. }
    destruct Hs as (scheme & -> & As & Hs).
    destruct Hw as (www & -> & Aw & Hw).
    destruct Hh as (host & -> & Ah & Hh).
    apply code_units_ascii_prefix in Hurl as (u1 & -> & Hurl); [|exact As].
    apply code_units_ascii_prefix in Hurl as (u2 & -> & Hurl); [|exact Aw].
    apply code_units_ascii_prefix in Hurl as (u3 & -> & Hurl); [|exact Ah].
    change ([N_of_ascii "/"] ++ w7) with (code_units "/" ++ w7) in Hurl.
    apply code_units_ascii_prefix in Hurl as (rest & -> & Hurl); [|reflexivity].
    exists scheme, www, host, rest.
    split; [reflexivity|]. split; [exact Hs|]. split; [exact Hw|].
    split; [exact Hh|]. split.
    + intros ->. apply Hne. symmetry. exact Hurl.
    + unfold single_line. rewrite Hurl. exact Hline.
  - intros (scheme & www & host & rest & -> & Hscheme & Hwww & Hhost & Hne & Hline).
    assert (As : ascii_only scheme = true)
      by (destruct Hscheme as [-> | [-> | ->]]; reflexivity).
    assert (Aw : ascii_only www = true) by (destruct Hwww as [-> | ->]; reflexivity).
    assert (Ah : ascii_only host = true) by (destruct Hhost as [-> | ->]; reflexivity).
    rewrite (code_units_ascii_app scheme) by exact As.
    rewrite (code_units_ascii_app www) by exact Aw.
    rewrite (code_units_ascii_app host) by exact Ah.
    rewrite (code_units_ascii_app "/") by reflexivity.
    constructor.
    { apply lang_scheme. destruct Hscheme as [-> | [-> | ->]]; auto. }
    constructor.
    { apply lang_opt. rewrite lang_lit. destruct Hwww as [-> | ->]; auto. }
    constructor.
    { destruct Hhost as [-> | ->];
        [apply lang_alt_l | apply lang_alt_r]; apply lang_lit; reflexivity. }
    constructor; [constructor|]. apply lang_plus_dot.
    split; [apply code_units_nonempty, Hne | exact Hline].
Qed.

(** A URL on another host is refused; so is one whose rest holds the line
    separator U+2028.  A no-break space in front of a URL is trimmed away
    before the test. *)
Example other_host_is_invalid :
  isValidYouTubeUrl "https://example.com/watch?v=abc" = false
  /\ isValidYouTubeUrl "https://www.youtube.com/watch?v=abc" = true
  /\ isValidYouTubeUrl "youtu.be/abc" = true
  /\ isValidYouTubeUrl ("https://youtu.be/" +:+ of_bytes [226; 128; 168] +:+ "x") = false
  /\ isValidYouTubeUrl (trim (of_bytes [194; 160] +:+ "https://youtu.be/abc")) = true.
Proof. repeat split. Qed.

End YouTubeUrls.

(** * Further properties *)

(** ** main.js: live validation, clearing the form, answers *)

Section MainFlows.

Import Browser Net Main Urls TextMore MainMore.

Lemma valid_url_is_truthy (url : string) :
  isValidYouTubeUrl url = true -> Text.truthy url = true.
Proof. destruct url; [discriminate | reflexivity]. Qed.

Lemma truthy_nonempty (s : string) : Text.truthy s = true <-> s <> "".
Proof. destruct s; cbn; split; congruence. Qed.

Lemma snoc_not_self {A : Type} (l : list A) (x : A) : l ++ [x] <> l.
Proof.
  intros H. apply (f_equal (@length A)) in H. rewrite length_app in H.
  cbn [length] in H. lia.
Qed.

(** Once the user has edited the URL field, the get-info button is enabled
    exactly when the trimmed value of the field has the shape of a YouTube
    URL, which is exactly when a click on it sends the request; a click on
    the disabled button does nothing.  The field is flagged as erroneous
    exactly when it holds something else than such a URL. *)
Theorem url_input_agrees_with_click (p : page) (value : string) :
  let url := Text.trim value in
  let p1 := step (UrlTyped value) p in
  (get_info_disabled p1 = false <-> youtube_url_shape url)
  /\ (get_info_disabled p1 = false
      <-> sent (step GetInfoClick p1) = sent p ++ [GetVideoInfo url])
  /\ (get_info_disabled p1 = true <-> step GetInfoClick p1 = p1)
  /\ (url_error p1 = true <-> url <> "" /\ ~ youtube_url_shape url)
  /\ youtube_url p1 = value /\ sent p1 = sent p
  /\ downloads_disabled p1 = downloads_disabled p.
Proof.
  intros url p1. subst p1. cbn [step]. unfold youtube_url_input.
  cbn [youtube_url with_fields]. fold url.
  rewrite <- isValidYouTubeUrl_shape.
  destruct (isValidYouTubeUrl url) eqn:Hv.
  - rewrite (valid_url_is_truthy url Hv). cbn [andb].
    cbn [get_info_disabled url_error with_controls].
    unfold get_info_btn_click. cbn [youtube_url with_controls with_fields]. fold url.
    rewrite Hv, (valid_url_is_truthy url Hv). cbn [negb].
    repeat split; try (intros; congruence).
    + intros H. apply (f_equal sent) in H. cbn in H.
      exfalso. exact (snoc_not_self _ _ H).
    + intros [_ H]. contradiction.
  - rewrite andb_false_r. cbn [get_info_disabled url_error with_controls].
    rewrite truthy_nonempty.
    repeat split; try (intros; congruence).
    + intros H. cbn in H. symmetry in H. exfalso. exact (snoc_not_self _ _ H).
    + intros [H _]. exact H.
Qed.

(** After the form is cleared, the download and preview buttons are blocked
    again: a click on either, when it is enabled, shows the error alert and
    sends nothing, until the information of a video is fetched anew; a click
    on a disabled one does nothing.  Clearing itself sends nothing, empties
    the URL field and leaves the buttons enabled or disabled as they were. *)
Theorem clear_form_blocks_downloads (p : page) (format : string) :
  let p' := step ClearFormClick p in
  let blocked := showAlert "Vui lòng lấy thông tin video trước" "error" p' in
  sent p' = sent p
  /\ youtube_url p' = "" /\ source_language p' = "en"
  /\ currentVideoInfo p' = None /\ video_preview p' = false
  /\ get_info_disabled p' = get_info_disabled p
  /\ downloads_disabled p' = downloads_disabled p
  /\ step (DownloadClick format) p' = (if downloads_disabled p then p' else blocked)
  /\ step PreviewClick p' = (if downloads_disabled p then p' else blocked)
  /\ sent (step (DownloadClick format) p') = sent p
  /\ sent (step PreviewClick p') = sent p.
Proof.
  cbv zeta. cbn [step].
  change (downloads_disabled (clear_form_click p)) with (downloads_disabled p).
  destruct (downloads_disabled p); repeat split.
Qed.

(** Whatever the answer to a waiting request is, the loading overlay is
    hidden by it, even while other requests are still waiting, and the
    request stops waiting. *)
Theorem every_answer_hides_overlay (p : page) (n : nat) (q : request)
    (r : result payload) :
  awaiting p !! n = Some q ->
  loading_overlay (step (Answer n r) p) = false
  /\ awaiting (step (Answer n r) p) = delete n (awaiting p)
  /\ sent (step (Answer n r) p) = sent p.
Proof.
  intros Hq. cbn [step]. unfold answer. rewrite Hq.
  destruct q; destruct r as [status error|message|[info subs|name|content]];
    repeat split.
Qed.

Lemma every_answer_hides_overlay_witness :
  loading_overlay
    (step (Answer 0 (Failure 0 "timeout"))
       (run [UrlTyped "https://youtu.be/abc123"; GetInfoClick] (init 1))) = false.
Proof.
  exact (proj1 (every_answer_hides_overlay
                  (run [UrlTyped "https://youtu.be/abc123"; GetInfoClick] (init 1))
                  0 (GetVideoInfo "https://youtu.be/abc123")
                  (Failure 0 "timeout") eq_refl)).
Defined.

(** A fetch of video information that fails keeps the information fetched
    before: the error is shown, and the download buttons go on working with
    the earlier video's information held. *)
Theorem failed_info_keeps_previous (p : page) (n : nat) (url : string)
    (r : result payload) :
  awaiting p !! n = Some (GetVideoInfo url) ->
  (forall x, r <> Success x) ->
  let p' := step (Answer n r) p in
  currentVideoInfo p' = currentVideoInfo p
  /\ shown_info p' = shown_info p
  /\ language_options p' = language_options p
  /\ (exists message, p' = showAlert message "error"
                              (hideLoading (with_requests (sent p) (delete n (awaiting p)) p))).
Proof.
  intros Hq Hr. cbn zeta. cbn [step]. unfold answer. rewrite Hq.
  destruct r as [status error|message|x]; [| |exfalso; exact (Hr x eq_refl)];
    repeat split; eexists; reflexivity.
Qed.

Lemma failed_info_keeps_previous_witness :
  let info := {| thumbnail := "t.jpg"; title := "A video"; uploader := "someone";
                 duration := 61; view_count := 1200 |} in
  currentVideoInfo
    (step (Answer 0 (Refused "Video unavailable"))
       (run [ UrlTyped "https://youtu.be/abc123"; GetInfoClick;
              Answer 0 (Success (InfoOk info []));
              UrlTyped "https://youtu.be/zzz"; GetInfoClick ] (init 1)))
  = Some info.
Proof.
  cbv zeta.
  exact (proj1 (failed_info_keeps_previous
                  (run [ UrlTyped "https://youtu.be/abc123"; GetInfoClick;
                         Answer 0 (Success (InfoOk
                            {| thumbnail := "t.jpg"; title := "A video";
                               uploader := "someone"; duration := 61;
                               view_count := 1200 |} []));
                         UrlTyped "https://youtu.be/zzz"; GetInfoClick ] (init 1))
                  0 "https://youtu.be/zzz" (Refused "Video unavailable") eq_refl
                  ltac:(discriminate))).
Defined.

End MainFlows.

(** ** main.js: [formatDuration] *)

Section Durations.

Import TextMore MainMore.

Lemma pad2_length (k : nat) :
  k < 100 -> String.length (padStart 2 "0" (pretty k)) = 2.
Proof.
  intros Hk.
  assert (H : forallb (fun k => String.length (padStart 2 "0" (pretty k)) =? 2)
                (seq 0 100) = true) by (vm_compute; reflexivity).
  rewrite forallb_forall in H. apply Nat.eqb_eq, H, in_seq. lia.
Qed.

Lemma pad2_small (k : nat) :
  k < 10 -> padStart 2 "0" (pretty k) = "0" +:+ pretty k.
Proof.
  intros Hk.
  assert (H : forallb (fun k => String.eqb (padStart 2 "0" (pretty k)) ("0" +:+ pretty k))
                (seq 0 10) = true) by (vm_compute; reflexivity).
  rewrite forallb_forall in H. apply String.eqb_eq, H, in_seq. lia.
Qed.

Lemma duration_parts (h m s : nat) :
  m < 60 -> s < 60 ->
  let n := h * 3600 + m * 60 + s in
  n / 3600 = h /\ (n mod 3600) / 60 = m /\ n mod 60 = s.
Proof.
  intros Hm Hs n.
  assert (H1 : n / 3600 = h)
    by (symmetry; apply (Nat.div_unique n 3600 h (m * 60 + s)); subst n; lia).
  assert (H2 : n mod 3600 = m * 60 + s)
    by (symmetry; apply (Nat.mod_unique n 3600 h (m * 60 + s)); subst n; lia).
  assert (H3 : (m * 60 + s) / 60 = m)
    by (symmetry; apply (Nat.div_unique (m * 60 + s) 60 m s); lia).
  assert (H4 : n mod 60 = s)
    by (symmetry; apply (Nat.mod_unique n 60 (h * 60 + m) s); subst n; lia).
  rewrite H2. auto.
Qed.

(** [formatDuration] prints a duration of [h] hours, [m] minutes and [s]
    seconds as [h:mm:ss], and as [m:ss] when it is under an hour; the minutes
    after an hour count and the seconds always take two digits.  A duration
    of zero is printed as [N/A]. *)
Theorem formatDuration_fields (h m s : nat) :
  m < 60 -> s < 60 -> 0 < h * 3600 + m * 60 + s ->
  formatDuration (h * 3600 + m * 60 + s)
  = (if h =? 0
     then pretty m +:+ ":" +:+ padStart 2 "0" (pretty s)
     else pretty h +:+ ":" +:+ padStart 2 "0" (pretty m)
            +:+ ":" +:+ padStart 2 "0" (pretty s))
  /\ String.length (padStart 2 "0" (pretty m)) = 2
  /\ String.length (padStart 2 "0" (pretty s)) = 2
  /\ formatDuration 0 = "N/A".
Proof.
  intros Hm Hs Hpos.
  destruct (duration_parts h m s Hm Hs) as (H1 & H2 & H3). cbv zeta in H1, H2, H3.
  split; [|split; [apply pad2_length; lia | split; [apply pad2_length; lia | reflexivity]]].
  unfold formatDuration. rewrite H1, H2, H3.
  assert ((h * 3600 + m * 60 + s =? 0) = false) as -> by (apply Nat.eqb_neq; lia).
  destruct h as [|h]; reflexivity.
Qed.

Lemma formatDuration_fields_witness :
  formatDuration 3725 = "1:02:05".
Proof.
  exact (proj1 (formatDuration_fields 1 2 5 ltac:(lia) ltac:(lia) ltac:(lia))).
Defined.

End Durations.

(** ** main.js: the name of the downloaded file *)

Section FileNames.

Import Text TextMore MainMore.

Lemma remove_quotes_no_quote (s : string) (c : ascii) :
  is_quote c = true -> contains_char c (remove_quotes s) = false.
Proof.
  intros Hc. induction s as [|d s IH]; [reflexivity|].
  cbn [remove_quotes]. fold (is_quote d).
  destruct (is_quote d) eqn:Hd; [exact IH|].
  cbn [contains_char]. rewrite IH, orb_false_r.
  destruct (Ascii.eqb c d) eqn:E; [|reflexivity].
  apply Ascii.eqb_eq in E. subst. congruence.
Qed.

Lemma remove_quotes_quotable (s : string) :
  quotable s = true -> remove_quotes s = s.
Proof.
  induction s as [|d s IH]; [reflexivity|].
  cbn [quotable remove_quotes]. fold (is_quote d). intros H.
  apply andb_true_iff in H as [Hd Hs]. apply negb_true_iff, orb_false_elim in Hd as [Hq _].
  rewrite Hq, IH by exact Hs. reflexivity.
Qed.

Lemma remove_quotes_plain (s : string) :
  plain_name s = true -> remove_quotes s = s.
Proof.
  induction s as [|d s IH]; [reflexivity|].
  cbn [plain_name remove_quotes]. fold (is_quote d). intros H.
  apply andb_true_iff in H as [Hd Hs]. apply negb_true_iff, orb_false_elim in Hd as [_ Hq].
  rewrite Hq, IH by exact Hs. reflexivity.
Qed.

Lemma remove_quotes_app (s t : string) :
  remove_quotes (s +:+ t) = remove_quotes s +:+ remove_quotes t.
Proof.
  induction s as [|d s IH]; [reflexivity|].
  rewrite append_cons. cbn [remove_quotes]. rewrite IH.
  destruct (Ascii.eqb d "'" || Ascii.eqb d (ascii_of_nat 34)); reflexivity.
Qed.

(** The pattern finds [filename=] behind a prefix that holds no [f]. *)
Lemma value_text_after (pre v : string) :
  contains_char "f" pre = false ->
  value_text (pre +:+ "filename=" +:+ v) = Some v.
Proof.
  induction pre as [|c pre IH]; intros Hpre; [reflexivity|].
  cbn [contains_char] in Hpre. apply orb_false_elim in Hpre as [Hc Hpre].
  rewrite append_cons. cbn [value_text]. unfold value_here at 1.
  cbn [after_literal]. rewrite Hc. apply IH, Hpre.
Qed.

Lemma value_run_plain (name tail : string) :
  plain_name name = true ->
  (tail = "" \/ exists t, tail = String ";" t) ->
  value_run (name +:+ tail) = name.
Proof.
  intros Hname Htail. induction name as [|c name IH].
  - rewrite append_nil. destruct Htail as [-> | [t ->]]; reflexivity.
  - cbn [plain_name] in Hname. apply andb_true_iff in Hname as [Hc Hname].
    apply negb_true_iff, orb_false_elim in Hc as [Hc _].
    rewrite append_cons. cbn [value_run]. rewrite Hc, IH by exact Hname. reflexivity.
Qed.

Lemma until_quote_closing (q : ascii) (name tail : string) :
  contains_char q name = false -> no_line_break name = true ->
  until_quote q (name +:+ String q tail) = Some name.
Proof.
  intros Hq Hname. induction name as [|c name IH].
  - rewrite append_nil. cbn [until_quote]. rewrite Ascii.eqb_refl. reflexivity.
  - cbn [no_line_break] in Hname. apply andb_true_iff in Hname as [Hc Hname].
    apply negb_true_iff in Hc.
    cbn [contains_char] in Hq. apply orb_false_elim in Hq as [Hqc Hq].
    rewrite append_cons. cbn [until_quote].
    assert (Ascii.eqb c q = false) as ->.
    { destruct (Ascii.eqb c q) eqn:E; [|reflexivity].
      apply Ascii.eqb_eq in E. subst. rewrite Ascii.eqb_refl in Hqc. discriminate. }
    rewrite Hc, IH by assumption. reflexivity.
Qed.

(** The file name read off a Content-Disposition header.

    - It never holds a quote character, single or double.
    - When the header is some text without the letter f, then [filename=],
      then a non-empty name without semicolon, line feed or quote, then
      either nothing or a semicolon and more, the name is read as it
      stands.
    - When the header is some text without the letter f, then [filename=],
      then a name between two quotes of the same kind, the name holding
      neither that quote nor a line feed or carriage return, the name is read
      whole, semicolons included, with every quote character of the other
      kind taken out of it; it is read as it stands when it holds no quote
      at all.  An empty quoted name gives the empty file name rather than
      the default one. *)
Theorem disposition_filename_reads_name (header : string) :
  (forall name c,
     disposition_filename header = Some name -> is_quote c = true ->
     contains_char c name = false)
  /\ (forall pre name tail,
        header = pre +:+ "filename=" +:+ name +:+ tail ->
        contains_char "f" pre = false ->
        plain_name name = true -> name <> "" ->
        (tail = "" \/ exists t, tail = String ";" t) ->
        disposition_filename header = Some name)
  /\ (forall pre q name tail,
        header = pre +:+ "filename=" +:+ String q (name +:+ String q tail) ->
        contains_char "f" pre = false ->
        is_quote q = true ->
        contains_char q name = false -> no_line_break name = true ->
        disposition_filename header = Some (remove_quotes name)
        /\ (quotable name = true -> remove_quotes name = name)).
Proof.
  split; [|split].
  - intros name c Hname Hc. unfold disposition_filename in Hname.
    destruct (value_text header) as [v|]; [|discriminate].
    destruct (truthy (group1 v)); [|discriminate].
    injection Hname as <-. apply remove_quotes_no_quote, Hc.
  - intros pre name tail -> Hpre Hname Hne Htail.
    unfold disposition_filename. rewrite value_text_after by exact Hpre.
    assert (Hg : group1 (name +:+ tail) = name).
    { destruct name as [|c name]; [contradiction|].
      rewrite append_cons. unfold group1.
      assert (is_quote c = false) as ->.
      { cbn [plain_name] in Hname. apply andb_true_iff in Hname as [Hc _].
        apply negb_true_iff, orb_false_elim in Hc as [_ Hc]. exact Hc. }
      rewrite <- append_cons. apply value_run_plain; assumption. }
    cbv zeta. rewrite Hg.
    destruct name as [|c name]; [contradiction|]. cbn [truthy].
    rewrite remove_quotes_plain by exact Hname. reflexivity.
  - intros pre q name tail -> Hpre Hq Hnoq Hname.
    split; [|apply remove_quotes_quotable].
    unfold disposition_filename. rewrite value_text_after by exact Hpre.
    cbv zeta. unfold group1. rewrite Hq, until_quote_closing by assumption.
    cbn [truthy]. f_equal. cbn [remove_quotes]. fold (is_quote q). rewrite Hq.
    rewrite remove_quotes_app. cbn [remove_quotes]. fold (is_quote q). rewrite Hq.
    apply append_empty_r.
Qed.

(** A single quote inside a name given between double quotes is taken out
    of the name, and a semicolon inside it is kept. *)
Lemma disposition_filename_reads_name_witness :
  disposition_filename
    ("attachment; filename=" +:+ String (ascii_of_nat 34)
       ("it's; final.srt" +:+ String (ascii_of_nat 34) "; size=12"))
  = Some "its; final.srt".
Proof.
  exact (proj1 (proj2 (proj2 (disposition_filename_reads_name
                  ("attachment; filename=" +:+ String (ascii_of_nat 34)
                     ("it's; final.srt" +:+ String (ascii_of_nat 34) "; size=12"))))
           "attachment; " (ascii_of_nat 34) "it's; final.srt" "; size=12"
           eq_refl eq_refl eq_refl eq_refl eq_refl)).
Defined.

(** Without a usable header the file is named after the format; with one,
    after the header. *)
Lemma download_name_default (format : string) :
  download_name format None = "subtitle." +:+ format
  /\ download_name format (Some "attachment") = "subtitle." +:+ format
  /\ download_name format (Some "attachment; filename=a.srt") = "a.srt".
Proof. repeat split. Qed.

End FileNames.

(** ** admin.js: banner flows *)

Section BannerFlows.

Import Browser Net Admin Panel.

Lemma lookup_snoc {A : Type} (l : list A) (x : A) : (l ++ [x]) !! length l = Some x.
Proof. induction l as [|y l IH]; [reflexivity | exact IH]. Qed.

Lemma delete_snoc {A : Type} (l : list A) (x : A) : delete (length l) (l ++ [x]) = l.
Proof.
  induction l as [|y l IH]; [reflexivity|].
  cbn [length app]. change (delete (S (length l)) (y :: l ++ [x]))
    with (y :: delete (length l) (l ++ [x])).
  rewrite IH. reflexivity.
Qed.

Lemma pretty_N_go_nonempty (x : N) (s : string) : s <> "" -> pretty_N_go x s <> "".
Proof.
  revert s. induction (N.lt_wf_0 x) as [x _ IH]. intros s Hs.
  assert (x = 0 \/ 0 < x)%N as [-> | Hx] by lia.
  - rewrite pretty_N_go_0. exact Hs.
  - rewrite pretty_N_go_step by exact Hx. apply IH; [|discriminate].
    apply N.div_lt; lia.
Qed.

(** The decimal form of a number is never empty. *)
Lemma pretty_nat_nonempty (n : nat) : pretty n <> "".
Proof.
  unfold pretty, pretty_nat, pretty, pretty_N.
  destruct (decide (N.of_nat n = 0%N)) as [_|Hn]; [discriminate|].
  rewrite pretty_N_go_step by lia. apply pretty_N_go_nonempty. discriminate.
Qed.

Lemma banner_submit_keeps_doc (w : admin) : doc (step BannerFormSubmit w) = doc w.
Proof.
  cbn [step]. unfold banner_form_submit, banner_form_submit_validate, validateBannerForm,
    banner_form_submit_save.
  repeat match goal with
         | |- context [if ?b then _ else _] => destruct b
         | |- context [match ?x with _ => _ end] => destruct x
         end; reflexivity.
Qed.

(** Saving a banner, without a new image: the form is sent; a success
    answer shows one success alert, closes the modal and reloads the list
    once; a refusal or a network error shows one error alert, reloads
    nothing and leaves the modal and the form as they are. *)
Theorem banner_save_flow (w : admin) :
  f_image (banner_form (doc w)) = None ->
  let f := banner_form (doc w) in
  let save := save_request (save_method f) (submitted_payload f) in
  let n := length (awaiting w) in
  let w1 := step BannerFormSubmit w in
  awaiting w1 !! n = Some save
  /\ (forall message,
        let w2 := step (Answer n (Success (Message message))) w1 in
        sent w2 = sent w ++ [save; load_request Banners]
        /\ awaiting w2 = awaiting w ++ [load_request Banners]
        /\ banner_modal (doc w2) = false
        /\ exists a, alerts (browser w2) = [a] /\ amessage a = message
                     /\ aclass a = "alert-success fade-in")
  /\ (forall error,
        let w2 := step (Answer n (Refused error)) w1 in
        sent w2 = sent w ++ [save] /\ awaiting w2 = awaiting w
        /\ doc w2 = doc w
        /\ exists a, alerts (browser w2) = [a] /\ amessage a = error
                     /\ aclass a = "alert-error fade-in")
  /\ (forall status error,
        let w2 := step (Answer n (Failure status error)) w1 in
        sent w2 = sent w ++ [save] /\ awaiting w2 = awaiting w
        /\ doc w2 = doc w
        /\ exists a, alerts (browser w2) = [a]
                     /\ amessage a = "Lỗi lưu banner: " +:+ error
                     /\ aclass a = "alert-error fade-in").
Proof.
  intros Himg f save n w1.
  pose proof (banner_submit_sent w) as [Hs Ha]. cbv zeta in Hs, Ha.
  rewrite Himg in Hs, Ha. fold f save w1 in Hs, Ha.
  pose proof (banner_submit_keeps_doc w) as Hd. fold w1 in Hd.
  clearbody w1.
  assert (Hn : awaiting w1 !! n = Some save) by (rewrite Ha; apply lookup_snoc).
  split; [exact Hn|].
  assert (Hstep : forall r,
            step (Answer n r) w1 = saveBanner_done r (set_awaiting (awaiting w) w1)).
  { intros r. cbn [step]. unfold answer. rewrite Hn. cbn [on_answer save_request dispatch].
    rewrite Ha. unfold n. rewrite delete_snoc. reflexivity. }
  split; [|split].
  - intros message. cbv zeta. rewrite Hstep. cbn. rewrite Hs, <- app_assoc.
    repeat split. eexists. repeat split.
  - intros error. cbv zeta. rewrite Hstep. cbn. rewrite Hs, Hd.
    repeat split. eexists. repeat split.
  - intros status error. cbv zeta. rewrite Hstep. cbn. rewrite Hs, Hd.
    repeat split. eexists. repeat split.
Qed.

Lemma banner_save_flow_witness :
  let w := run [ShowBannerModal None] (ready example_template) in
  awaiting (step BannerFormSubmit w) !! 2
  = Some (save_request "POST" (submitted_payload blank_banner_fields)).
Proof.
  cbv zeta.
  exact (proj1 (banner_save_flow (run [ShowBannerModal None] (ready example_template))
                  eq_refl)).
Defined.

(** Deleting a banner: a click that is not confirmed does nothing at all; a
    confirmed click sends one DELETE for that banner; a success answer shows
    one success alert and reloads the list once, any other answer shows one
    error alert and reloads nothing.  The cards on display change only when
    the reload is answered. *)
Theorem banner_delete_flow (w : admin) (bannerId : nat) :
  let del := {| url := "/admin/api/banners"; method := "DELETE";
                payload_sent := DeleteJson bannerId; on_answer := OnDeleteBanner |} in
  let n := length (awaiting w) in
  let w1 := step (DeleteBannerClick bannerId true) w in
  step (DeleteBannerClick bannerId false) w = w
  /\ sent w1 = sent w ++ [del] /\ awaiting w1 = awaiting w ++ [del]
  /\ doc w1 = doc w /\ browser w1 = browser w
  /\ (forall message,
        let w2 := step (Answer n (Success (Message message))) w1 in
        sent w2 = sent w ++ [del; load_request Banners]
        /\ awaiting w2 = awaiting w ++ [load_request Banners]
        /\ doc w2 = doc w
        /\ exists a, alerts (browser w2) = [a] /\ amessage a = message
                     /\ aclass a = "alert-success fade-in")
  /\ (forall r,
        (forall x, r <> Success x) ->
        let w2 := step (Answer n r) w1 in
        sent w2 = sent w ++ [del] /\ awaiting w2 = awaiting w
        /\ doc w2 = doc w
        /\ exists a, alerts (browser w2) = [a] /\ aclass a = "alert-error fade-in").
Proof.
  intros del n w1.
  split; [reflexivity|]. split; [reflexivity|]. split; [reflexivity|].
  split; [reflexivity|]. split; [reflexivity|].
  assert (Hstep : forall r,
            step (Answer n r) w1 = deleteBanner_done r (set_awaiting (awaiting w) w1)).
  { intros r. cbn [step]. unfold answer.
    change (awaiting w1) with (awaiting w ++ [del]). unfold n.
    rewrite lookup_snoc, delete_snoc. reflexivity. }
  split.
  - intros message. cbv zeta. rewrite Hstep. cbn. rewrite <- app_assoc.
    repeat split. eexists. repeat split.
  - intros r Hr. cbv zeta. rewrite Hstep.
    destruct r as [status error|error|x]; [| |exfalso; exact (Hr x eq_refl)];
      cbn; repeat split; eexists; repeat split.
Qed.

End BannerFlows.

(** ** admin.js: the edit dialog *)

Section EditDialog.

Import Browser Net Admin Panel.

(** Opening the banner dialog.  For an id other than 0 the dialog opens at
    once with the form as it stood and one GET of the banner list leaves;
    when the answer holds a banner of that id the form takes its fields and
    its id, so that a submission is a PUT carrying that id; when it does not,
    or when the load fails, the form silently keeps what it held.  Without an
    id, or with id 0, the dialog opens on a blank form, nothing is sent, and
    a submission is a POST. *)
Theorem banner_dialog_modes (w : admin) (k : nat) (banners : list banner) :
  let id := S k in
  let n := length (awaiting w) in
  let load := {| url := "/admin/api/banners"; method := "GET"; payload_sent := NoBody;
                 on_answer := OnBannerData id |} in
  let w1 := step (ShowBannerModal (Some id)) w in
  let w2 := step (Answer n (Success (BannersData banners))) w1 in
  banner_modal (doc w1) = true
  /\ banner_modal_title (doc w1) = "Chỉnh sửa Banner"
  /\ banner_form (doc w1) = banner_form (doc w)
  /\ sent w1 = sent w ++ [load]
  /\ match List.find (fun b => banner_id b =? id) banners with
     | Some b =>
         f_id (banner_form (doc w2)) = pretty id
         /\ f_title (banner_form (doc w2)) = banner_title b
         /\ f_description (banner_form (doc w2)) = banner_description b
         /\ f_link (banner_form (doc w2)) = banner_link_url b
         /\ f_position (banner_form (doc w2)) = banner_position b
         /\ f_status (banner_form (doc w2)) = banner_status b
         /\ save_method (banner_form (doc w2)) = "PUT"
         /\ p_id (submitted_payload (banner_form (doc w2))) = Some (pretty id)
     | None => doc w2 = doc w1
     end
  /\ (forall r, (forall x, r <> Success x) ->
        doc (step (Answer n r) w1) = doc w1
        /\ browser (step (Answer n r) w1) = browser w1)
  /\ (forall bannerId,
        bannerId = None \/ bannerId = Some 0 ->
        let w' := step (ShowBannerModal bannerId) w in
        banner_modal (doc w') = true
        /\ banner_modal_title (doc w') = "Thêm Banner"
        /\ banner_form (doc w') = blank_banner_fields
        /\ sent w' = sent w
        /\ save_method (banner_form (doc w')) = "POST").
Proof.
  intros id n load w1 w2.
  split; [reflexivity|]. split; [reflexivity|]. split; [reflexivity|].
  split; [reflexivity|].
  assert (Hstep : forall r,
            step (Answer n r) w1
            = loadBannerData_done id r (set_awaiting (awaiting w) w1)).
  { intros r. cbn [step]. unfold answer.
    change (awaiting w1) with (awaiting w ++ [load]). unfold n.
    rewrite lookup_snoc, delete_snoc. reflexivity. }
  split; [|split].
  - subst w2. rewrite Hstep. unfold loadBannerData_done.
    destruct (List.find (fun b => banner_id b =? id) banners) as [b|] eqn:Hfind;
      [|reflexivity].
    apply find_some in Hfind as [_ Hid]. apply Nat.eqb_eq in Hid.
    assert (Hne : String.eqb (pretty id) "" = false)
      by (apply String.eqb_neq, pretty_nat_nonempty).
    destruct (Text.truthy (banner_image_path b)); cbn; rewrite Hid;
      unfold save_method, submitted_payload; cbn; rewrite Hne; repeat split.
  - intros r Hr. rewrite Hstep.
    destruct r as [status error|message|x]; [| |exfalso; exact (Hr x eq_refl)];
      split; reflexivity.
  - intros bannerId [-> | ->]; repeat split.
Qed.

End EditDialog.

(** ** admin.js: settings, from the load to the save *)

Section SettingsRoundTrip.

Import Browser Net Admin Panel AdminMore.

Lemma collect_settings_list_to_map (inputs : list setting_input) :
  collect_settings inputs = list_to_map (reverse (setting_pairs inputs)).
Proof.
  induction inputs as [|x l IH] using rev_ind; [reflexivity|].
  rewrite collect_settings_snoc. unfold setting_pairs.
  rewrite map_app, reverse_app. cbn [map reverse app]. rewrite IH. reflexivity.
Qed.

Lemma collect_settings_unique (inputs : list setting_input) (k v : string) :
  NoDup (map input_name inputs) ->
  collect_settings inputs !! k = Some v
  <-> exists i, In i inputs /\ input_name i = k /\ input_value i = v.
Proof.
  intros Hnd. rewrite collect_settings_list_to_map.
  rewrite <- elem_of_list_to_map.
  - rewrite elem_of_reverse. unfold setting_pairs. rewrite list_elem_of_In, in_map_iff.
    split.
    + intros (i & Hi & Hin). injection Hi as <- <-. eauto.
    + intros (i & Hin & <- & <-). eauto.
  - rewrite fmap_reverse, reverse_Permutation.
    unfold setting_pairs.
    replace ((map (fun i => (input_name i, input_value i)) inputs).*1)
      with (map input_name inputs); [exact Hnd|].
    clear. induction inputs as [|x l IH]; [reflexivity|].
    cbn. rewrite IH. reflexivity.
Qed.

Lemma foldl_insert_commute (l : list setting_input) (m : gmap string string)
    (k v : string) :
  ~ In k (map input_name l) ->
  foldl (fun settings i => <[input_name i := input_value i]> settings) (<[k := v]> m) l
  = <[k := v]> (foldl (fun settings i => <[input_name i := input_value i]> settings) m l).
Proof.
  revert m. induction l as [|x l IH]; intros m Hk; [reflexivity|].
  cbn [foldl]. cbn [map In] in Hk.
  rewrite <- IH by tauto. f_equal. apply insert_insert_ne. tauto.
Qed.

Lemma collect_settings_edit (inputs : list setting_input) (i : nat)
    (inp : setting_input) (v : string) :
  NoDup (map input_name inputs) ->
  inputs !! i = Some inp ->
  collect_settings (<[i := set_input_value v inp]> inputs)
  = <[input_name inp := v]> (collect_settings inputs).
Proof.
  intros Hnd Hi.
  pose proof (take_drop_middle inputs i inp Hi) as Hsplit.
  assert (Hlen : length (take i inputs) = i).
  { apply length_take_le. apply lookup_lt_Some in Hi. lia. }
  rewrite <- Hsplit in Hnd |- *.
  rewrite <- Hlen at 1. rewrite insert_app_r_alt, Nat.sub_diag by lia.
  cbn [insert list_insert]. change (<[0:=?x]> (?y :: ?l)) with (x :: l).
  unfold collect_settings. rewrite !foldl_app. cbn [foldl].
  rewrite map_app in Hnd. cbn [map] in Hnd.
  apply NoDup_app in Hnd as (_ & _ & Hnd). apply NoDup_cons in Hnd as [Hnotin _].
  cbn [set_input_value input_name input_value].
  rewrite !foldl_insert_commute by (rewrite <- list_elem_of_In; exact Hnotin).
  rewrite insert_insert_eq. reflexivity.
Qed.

(** Settings served with distinct keys, in texts the HTML parser reads as
    written and under keys other than [__proto__] (the settings the embedding
    covers), come back as served: right after a load, [saveSettings] sends
    exactly the key/value pairs of the answer; and an edit of one field
    changes the value sent under that field's key and nothing else. *)
Theorem settings_round_trip (settings : list setting) (w : admin) :
  NoDup (map setting_key settings) ->
  let w1 := dispatch OnSettings (Success (SettingsData settings)) w in
  let body_of w' :=
    {| url := "/admin/api/settings"; method := "POST";
       payload_sent := SettingsJson (collect_settings (settings_form (doc w')));
       on_answer := OnSaveSettings |} in
  sent (step SaveSettingsClick w1) = sent w ++ [body_of w1]
  /\ (forall k v,
        collect_settings (settings_form (doc w1)) !! k = Some v
        <-> exists s, In s settings /\ setting_key s = k /\ setting_value s = v)
  /\ (forall i s v,
        settings !! i = Some s ->
        collect_settings (settings_form (doc (step (SettingTyped i v) w1)))
        = <[setting_key s := v]> (collect_settings (settings_form (doc w1)))).
Proof.
  intros Hnd w1 body_of.
  set (inputs := map (fun s => {| input_name := setting_key s;
                                  input_label := setting_description s;
                                  input_value := setting_value s |}) settings).
  assert (Hform : settings_form (doc w1) = inputs) by reflexivity.
  assert (Hnames : map input_name inputs = map setting_key settings).
  { subst inputs. rewrite map_map. reflexivity. }
  split; [reflexivity|]. split.
  - intros k v. rewrite Hform, collect_settings_unique by (rewrite Hnames; exact Hnd).
    subst inputs. split.
    + intros (i & Hin & Hk & Hv). apply in_map_iff in Hin as (s & <- & Hs).
      exists s. auto.
    + intros (s & Hs & Hk & Hv).
      eexists. split; [apply in_map_iff; exists s; split; [reflexivity | exact Hs]|].
      split; assumption.
  - intros i s v Hi.
    assert (Hinp : inputs !! i
                   = Some {| input_name := setting_key s;
                             input_label := setting_description s;
                             input_value := setting_value s |}).
    { subst inputs. change (map ?f ?l) with (f <$> l).
      rewrite list_lookup_fmap, Hi. reflexivity. }
    cbn [step]. unfold type_setting. rewrite Hform, Hinp.
    change (settings_form (doc (settings_form_input (on_doc ?f w1))))
      with (settings_form (f (doc w1))).
    cbn [settings_form set_settings_form]. rewrite Hform.
    rewrite (collect_settings_edit inputs i _ v) by (rewrite ?Hnames; assumption).
    reflexivity.
Qed.

Lemma settings_round_trip_witness :
  let served :=
    [ {| setting_key := "site_name"; setting_description := "Site name";
         setting_value := "Subtitles"; setting_covered := eq_refl |};
      {| setting_key := "max_downloads"; setting_description := "Daily limit";
         setting_value := "100"; setting_covered := eq_refl |} ] in
  collect_settings
    (settings_form (doc (dispatch OnSettings (Success (SettingsData served))
                           (ready example_template)))) !! "max_downloads"
  = Some "100".
Proof.
  cbv zeta.
  apply (proj1 (proj2 (settings_round_trip
           [ {| setting_key := "site_name"; setting_description := "Site name";
                setting_value := "Subtitles"; setting_covered := eq_refl |};
             {| setting_key := "max_downloads"; setting_description := "Daily limit";
                setting_value := "100"; setting_covered := eq_refl |} ]
           (ready example_template)
           ltac:(compute_done)))).
  eexists. split; [right; left; reflexivity|]. split; reflexivity.
Defined.

End SettingsRoundTrip.

(** ** admin.js: keyboard and modal *)

Section Keyboard.

Import Browser Net Admin Panel AdminMore.

(** What a key press can do.  Ctrl+S sends the settings only while the
    settings section is current, Ctrl+N opens the blank banner dialog only
    while the banners section is current, Escape closes the dialog whatever
    the section, and F5 reloads the page except in the visitors and downloads
    sections, which it refreshes in place with one GET.  Any other key, and
    these combinations elsewhere, leave the page as it is. *)
Theorem keydown_shortcuts (ctrlKey : bool) (which : nat) (w : admin) :
  (which <> 116 -> exists w', keydown ctrlKey which w = Stays w')
  /\ (keydown ctrlKey 27 w = Stays (on_doc (set_banner_modal false) w))
  /\ (keydown true 83 w
      = Stays (if String.eqb (currentSection w) "settings" then saveSettings w else w))
  /\ (keydown true 78 w
      = Stays (if String.eqb (currentSection w) "banners"
               then showBannerModal None w else w))
  /\ (keydown ctrlKey 116 w
      = if String.eqb (currentSection w) "visitors" then Stays (refreshVisitors w)
        else if String.eqb (currentSection w) "downloads" then Stays (refreshDownloads w)
        else Reloads)
  /\ (which <> 83 -> which <> 78 -> which <> 27 -> which <> 116 ->
      keydown ctrlKey which w = Stays w)
  /\ (keydown false 83 w = Stays w /\ keydown false 78 w = Stays w)
  /\ (forall w', keydown ctrlKey which w = Stays w' ->
        sent w' = sent w
        \/ (which = 83 /\ ctrlKey = true /\ currentSection w = "settings"
            /\ exists r, sent w' = sent w ++ [r] /\ url r = "/admin/api/settings"
                         /\ method r = "POST")
        \/ (which = 116 /\ exists r, sent w' = sent w ++ [r] /\ method r = "GET")).
Proof.
  split; [|split; [|split; [|split; [|split; [|split; [|split]]]]]].
  - intros H. unfold keydown. apply Nat.eqb_neq in H. rewrite H. eexists. reflexivity.
  - unfold keydown. cbn [Nat.eqb]. rewrite !andb_false_r, ?andb_false_l. reflexivity.
  - unfold keydown. cbn [Nat.eqb andb].
    destruct (String.eqb (currentSection w) "settings"); reflexivity.
  - unfold keydown. cbn [Nat.eqb andb].
    destruct (String.eqb (currentSection w) "banners"); reflexivity.
  - unfold keydown. cbn [Nat.eqb]. rewrite !andb_false_r, ?andb_false_l. reflexivity.
  - intros H1 H2 H3 H4. unfold keydown.
    apply Nat.eqb_neq in H1, H2, H3, H4. rewrite H1, H2, H3, H4.
    rewrite !andb_false_r, ?andb_false_l. reflexivity.
  - split; reflexivity.
  - intros w' Hk. unfold keydown in Hk.
    destruct (which =? 83) eqn:E83.
    + apply Nat.eqb_eq in E83. subst which. cbn [Nat.eqb] in Hk.
      rewrite !andb_false_r, ?andb_true_r in Hk.
      destruct ctrlKey; cbn [andb] in Hk; [|injection Hk as <-; left; reflexivity].
      destruct (String.eqb (currentSection w) "settings") eqn:Es;
        injection Hk as <-; [|left; reflexivity].
      right. left. apply String.eqb_eq in Es.
      repeat split; try assumption. eexists. repeat split.
    + rewrite andb_false_r, andb_false_l in Hk.
      destruct (which =? 78) eqn:E78.
      * apply Nat.eqb_eq in E78. subst which. cbn [Nat.eqb] in Hk.
        destruct (ctrlKey && true && String.eqb (currentSection w) "banners");
          injection Hk as <-; left; reflexivity.
      * rewrite andb_false_r, andb_false_l in Hk.
        destruct (which =? 27) eqn:E27.
        -- apply Nat.eqb_eq in E27. subst which. cbn [Nat.eqb] in Hk.
           injection Hk as <-. left. reflexivity.
        -- destruct (which =? 116) eqn:E116; [|injection Hk as <-; left; reflexivity].
           apply Nat.eqb_eq in E116. right. right. split; [exact E116|].
           destruct (String.eqb (currentSection w) "visitors");
             [injection Hk as <-; eexists; repeat split|].
           destruct (String.eqb (currentSection w) "downloads");
             [injection Hk as <-; eexists; repeat split | discriminate].
Qed.

(** The three ways to close the banner dialog (the close button, a click on
    the backdrop, the Escape key) all leave it closed, and none of them
    touches the form, sends anything or shows an alert; a click elsewhere in
    the window leaves the dialog as it is. *)
Theorem modal_closes_three_ways (ctrlKey : bool) (w : admin) :
  let closed := on_doc (set_banner_modal false) w in
  close_click w = closed
  /\ window_click true w = closed
  /\ keydown ctrlKey 27 w = Stays closed
  /\ window_click false w = w
  /\ banner_modal (doc closed) = false
  /\ banner_form (doc closed) = banner_form (doc w)
  /\ sent closed = sent w /\ browser closed = browser w
  /\ step CloseBannerModal w = closed.
Proof.
  cbv zeta. repeat split.
  unfold keydown. cbn [Nat.eqb]. rewrite !andb_false_r, ?andb_false_l. reflexivity.
Qed.

(** [bulkDeleteBanners] deletes nothing: whatever is selected and whatever
    the answer to the confirmation, no request is sent and the document is
    left as it is; with nothing selected an error alert is shown. *)
Theorem bulk_delete_deletes_nothing (selectedBanners : list string) (confirmed : bool)
    (w : admin) :
  let w' := bulkDeleteBanners selectedBanners confirmed w in
  sent w' = sent w /\ awaiting w' = awaiting w /\ doc w' = doc w
  /\ (selectedBanners = [] ->
      exists a, alerts (browser w') = [a] /\ aclass a = "alert-error fade-in")
  /\ (selectedBanners <> [] -> confirmed = false -> w' = w).
Proof.
  cbv zeta. unfold bulkDeleteBanners.
  destruct selectedBanners as [|x l]; [|destruct confirmed]; repeat split;
    try (intros; congruence); intros; eexists; split; reflexivity.
Qed.

(** Dark mode survives a reload: after any number of toggles, the page
    loaded again from what local storage holds is dark exactly when the page
    was; and the page is dark after [n] toggles exactly when [n] is odd, if
    it started light, and when [n] is even, if it started dark. *)
Theorem dark_mode_survives_reload (entry : option string) (n : nat) :
  let t := Nat.iter n toggleDarkMode (load_theme entry) in
  dark_mode (load_theme (stored t)) = dark_mode t
  /\ dark_mode t = xorb (dark_mode (load_theme entry)) (Nat.odd n).
Proof.
  cbv zeta. induction n as [|n [IH1 IH2]].
  - split; [reflexivity|]. cbn. rewrite xorb_false_r. reflexivity.
  - rewrite Nat.iter_succ.
    set (t := Nat.iter n toggleDarkMode (load_theme entry)) in *.
    split.
    + unfold toggleDarkMode. cbn [stored dark_mode load_theme].
      destruct (dark_mode t); reflexivity.
    + unfold toggleDarkMode. cbn [dark_mode]. rewrite IH2, Nat.odd_succ.
      rewrite <- Nat.negb_odd. destruct (dark_mode (load_theme entry)), (Nat.odd n);
        reflexivity.
Qed.

End Keyboard.

(** ** admin.js: search and export *)

Section SearchExport.

Import Text TextMore Browser Net Admin Panel AdminMore.

Lemma startsWith_spec (p s : string) :
  startsWith p s = true <-> exists b, s = p +:+ b.
Proof.
  revert s. induction p as [|c p IH]; intros s; cbn [startsWith].
  - split; [intros _; exists s; reflexivity | reflexivity].
  - destruct s as [|d s].
    + split; [discriminate | intros [b Hb]; discriminate].
    + rewrite andb_true_iff, IH, Ascii.eqb_eq. split.
      * intros [-> [b ->]]. exists b. reflexivity.
      * intros [b Hb]. rewrite append_cons in Hb. injection Hb as -> ->. eauto.
Qed.

(** [includes] finds exactly the substrings. *)
Lemma includes_spec (s needle : string) :
  includes s needle = true <-> exists a b, s = a +:+ needle +:+ b.
Proof.
  induction s as [|c s IH]; cbn [includes].
  - rewrite orb_false_r, startsWith_spec. split.
    + intros [b Hb]. exists "", b. exact Hb.
    + intros (a & b & H). destruct a; [exists b; exact H | discriminate].
  - rewrite orb_true_iff, startsWith_spec, IH. split.
    + intros [[b Hb] | (a & b & ->)].
      * exists "", b. exact Hb.
      * exists (String c a), b. reflexivity.
    + intros (a & b & H). destruct a as [|d a].
      * left. exists b. exact H.
      * rewrite append_cons in H. injection H as -> ->. right. eauto.
Qed.

Lemma includes_empty (s : string) : includes s "" = true.
Proof. destruct s; reflexivity. Qed.

Lemma export_after_search (lower : string -> string) (value : string)
    (rows : list text_row) :
  map (fun r => map replace_commas (cells r))
    (List.filter visible (map the_row (search_input lower value rows)))
  = map (fun r => map replace_commas (cells (the_row r)))
      (List.filter (matches_search lower value) rows).
Proof.
  unfold search_input. induction rows as [|r rows IH]; [reflexivity|].
  cbn [map List.filter the_row visible]. unfold matches_search at 1.
  destruct (includes (lower (row_text r)) (lower value));
    cbn [map the_row cells]; rewrite IH; reflexivity.
Qed.

(** Searching, then exporting, whatever [toLowerCase] does to letters as long
    as it maps the empty string to itself.  After a search the export holds
    the header row and exactly the rows whose lower-cased text holds the
    lower-cased search term as a substring, in their order; what an earlier
    search had hidden plays no part, so an empty search term brings every row
    back into the export. *)
Theorem search_then_export (lower : string -> string) (value : string)
    (hs : list string) (rows : list text_row) :
  lower "" = "" ->
  let table_of rs := {| headers := hs; body_rows := map the_row rs |} in
  getTableData (table_of (search_input lower value rows))
  = hs :: map (fun r => map replace_commas (cells (the_row r)))
            (List.filter (matches_search lower value) rows)
  /\ (forall r, matches_search lower value r = true
                <-> exists a b, lower (row_text r) = a +:+ lower value +:+ b)
  /\ (forall earlier, search_input lower value (search_input lower earlier rows)
                      = search_input lower value rows)
  /\ getTableData (table_of (search_input lower "" rows))
     = hs :: map (fun r => map replace_commas (cells (the_row r))) rows.
Proof.
  intros Hempty. cbv zeta. split; [|split; [|split]].
  - unfold getTableData. cbn [headers body_rows]. f_equal.
    apply export_after_search.
  - intros r. unfold matches_search. apply includes_spec.
  - intros earlier. unfold search_input. rewrite map_map. reflexivity.
  - unfold getTableData. cbn [headers body_rows]. f_equal.
    rewrite export_after_search.
    assert (Hall : List.filter (matches_search lower "") rows = rows).
    { induction rows as [|r rows IH]; [reflexivity|].
      cbn [List.filter]. unfold matches_search at 1.
      rewrite Hempty, includes_empty, IH. reflexivity. }
    rewrite Hall. reflexivity.
Qed.

Lemma search_then_export_witness :
  let rows :=
    [ {| row_text := "10.0.0.1 Firefox /watch";
         the_row := {| visible := true; cells := ["10.0.0.1"; "Firefox"; "/watch"] |} |};
      {| row_text := "10.0.0.2 Chrome /a,b";
         the_row := {| visible := false; cells := ["10.0.0.2"; "Chrome"; "/a,b"] |} |} ] in
  getTableData {| headers := ["IP"; "Browser"; "Page"];
                  body_rows := map the_row (search_input toLowerCase "CHROME" rows) |}
  = [ ["IP"; "Browser"; "Page"]; ["10.0.0.2"; "Chrome"; "/a;b"] ].
Proof.
  cbv zeta.
  exact (proj1 (search_then_export toLowerCase "CHROME" ["IP"; "Browser"; "Page"]
                  [ {| row_text := "10.0.0.1 Firefox /watch";
                       the_row := {| visible := true;
                                     cells := ["10.0.0.1"; "Firefox"; "/watch"] |} |};
                    {| row_text := "10.0.0.2 Chrome /a,b";
                       the_row := {| visible := false;
                                     cells := ["10.0.0.2"; "Chrome"; "/a,b"] |} |} ]
                  eq_refl)).
Defined.

(** [exportData] writes a file for the visitors and the downloads table and
    for nothing else: asked for the banners, or for any other name, it saves
    no file, shows no alert and leaves the page as it is. *)
Theorem exportData_only_tables (type : string) (vt dt : table) (w : admin) :
  (type = "visitors" ->
   saved_files (exportData type vt dt w)
   = saved_files w ++ [("visitors_export.csv", csvContent (getTableData vt))])
  /\ (type = "downloads" ->
      saved_files (exportData type vt dt w)
      = saved_files w ++ [("downloads_export.csv", csvContent (getTableData dt))])
  /\ (type <> "visitors" -> type <> "downloads" -> exportData type vt dt w = w)
  /\ exportData "banners" vt dt w = w
  /\ sent (exportData type vt dt w) = sent w.
Proof.
  split; [|split; [|split; [|split]]].
  - intros ->. reflexivity.
  - intros ->. reflexivity.
  - intros H1 H2. unfold exportData.
    apply String.eqb_neq in H1, H2. rewrite H1, H2.
    destruct (String.eqb type "banners"); reflexivity.
  - reflexivity.
  - unfold exportData.
    destruct (String.eqb type "visitors"); [reflexivity|].
    destruct (String.eqb type "downloads"); [reflexivity|].
    destruct (String.eqb type "banners"); reflexivity.
Qed.

End SearchExport.

(** ** admin.js: one section on display, always *)

Section OneSection.

Import Browser Net Admin Panel AdminMore.

Ltac split_cases :=
  repeat match goal with
         | |- context [match ?x with _ => _ end] => destruct x
         end.

(** No event but a click on a sidebar link touches the regions, the sidebar
    or the current section. *)
Lemma step_keeps_layout (e : event) (w : admin) :
  (forall i, e <> NavClick i) ->
  elements (doc (step e w)) = elements (doc w)
  /\ nav_items (doc (step e w)) = nav_items (doc w)
  /\ currentSection (step e w) = currentSection w.
Proof.
  intros Hnav. destruct e; try (exfalso; eapply Hnav; reflexivity); cbn [step].
  - repeat split.
  - destruct (take_timer i (browser w)) as [[j b]|]; [|repeat split].
    destruct j; cbn [run_task]; unfold auto_refresh; split_cases; repeat split.
  - unfold answer. destruct (awaiting w !! n) as [q|]; [|repeat split].
    destruct (on_answer q); cbn [dispatch];
      unfold loadDashboardData_done, loadFormatChart_done, loadVisitors_done,
        loadBanners_done, loadDownloads_done, loadSettings_done, loadBannerData_done,
        uploadBannerImage_done, saveBanner_done, deleteBanner_done, saveSettings_done,
        session_check_done, updatePopularVideos;
      split_cases; repeat split.
  - repeat split.
  - unfold banner_form_submit, banner_form_submit_validate, validateBannerForm,
      banner_form_submit_save.
    split_cases; repeat split.
  - unfold showBannerModal. split_cases; repeat split.
  - repeat split.
  - unfold delete_banner_click. split_cases; repeat split.
  - unfold type_setting. split_cases; repeat split.
  - repeat split.
  - repeat split.
  - repeat split.
  - unfold exportData. split_cases; repeat split.
Qed.

Lemma has_region_same_shape (section : string) (els els' : list element) :
  Forall2 (fun e e' => el_id e = el_id e'
                       /\ has_class "content-section" e = has_class "content-section" e')
    els els' ->
  has_region section els = has_region section els'.
Proof.
  unfold has_region. induction 1 as [|e e' els els' [Hid Hc] _ IH]; [reflexivity|].
  cbn [List.find]. rewrite <- Hid.
  destruct (String.eqb (el_id e) (section +:+ "-section")); [exact Hc | exact IH].
Qed.

Lemma switch_keeps_shape (id : string) (els : list element) :
  Forall2 (fun e e' => el_id e = el_id e'
                       /\ has_class "content-section" e = has_class "content-section" e')
    els (addClass_by_id id "active" (removeClass "content-section" "active" els)).
Proof.
  assert (Hrem : forall e,
            el_id e = el_id (if has_class "content-section" e
                             then {| el_id := el_id e;
                                     classes := filter (fun x => x ≠ "active") (classes e) |}
                             else e)
            /\ has_class "content-section" e
               = has_class "content-section"
                   (if has_class "content-section" e
                    then {| el_id := el_id e;
                            classes := filter (fun x => x ≠ "active") (classes e) |}
                    else e)).
  { intros e. destruct (has_class "content-section" e) eqn:Hc; [|split; [reflexivity|]].
    - split; [reflexivity|]. unfold has_class in *. cbn [classes].
      rewrite (existsb_filter_other "content-section" "active") by discriminate.
      symmetry. exact Hc.
    - symmetry. exact Hc. }
  induction els as [|e els IH]; [constructor|].
  cbn [removeClass map addClass_by_id]. fold (removeClass "content-section" "active" els).
  destruct (Hrem e) as [Hid Hc].
  set (e1 := if has_class "content-section" e
             then {| el_id := el_id e;
                     classes := filter (fun x => x ≠ "active") (classes e) |}
             else e) in *.
  destruct (String.eqb (el_id e1) id).
  - constructor.
    + destruct (has_class "active" e1); [split; assumption|].
      cbn [el_id]. split; [exact Hid|].
      rewrite Hc. unfold has_class at 2. cbn [classes].
      rewrite existsb_app. cbn [existsb]. rewrite orb_false_r. reflexivity.
    + clear. induction els as [|x els IH]; [constructor|].
      cbn [removeClass map]. fold (removeClass "content-section" "active" els).
      constructor; [|exact IH].
      destruct (has_class "content-section" x) eqn:Hc; [|split; [reflexivity|]].
      * split; [reflexivity|]. unfold has_class in *. cbn [classes].
        rewrite (existsb_filter_other "content-section" "active") by discriminate.
        symmetry. exact Hc.
      * symmetry. exact Hc.
  - constructor; [split; assumption | exact IH].
Qed.

Lemma regions_ok_by_names (els els' : list element) (items items' : list nav_item) :
  (forall section, has_region section els' = has_region section els) ->
  map data_section items' = map data_section items ->
  forallb (fun it => has_region (data_section it) els) items = true ->
  forallb (fun it => has_region (data_section it) els') items' = true.
Proof.
  intros Hels. revert items'. induction items as [|it items IH]; intros items' Hmap H.
  - destruct items'; [reflexivity | discriminate].
  - destruct items' as [|it' items']; [discriminate|].
    cbn [map] in Hmap. injection Hmap as Hd Hmap.
    cbn [forallb] in H |- *. apply andb_true_iff in H as [H1 H2].
    rewrite Hels, Hd, H1. cbn [andb]. apply IH; assumption.
Qed.

Lemma marked_names (i : nat) (it : nav_item) (items : list nav_item) :
  items !! i = Some it ->
  map data_section
    (<[ i := {| data_section := data_section it; nav_active := true |} ]>
       (map (fun n => {| data_section := data_section n; nav_active := false |}) items))
  = map data_section items.
Proof.
  revert i. induction items as [|x items IH]; intros i Hi; [discriminate|].
  destruct i as [|i].
  - injection Hi as ->. cbn. rewrite map_map. reflexivity.
  - cbn [map]. change (<[S i:=?y]> (?a :: ?l)) with (a :: <[i:=y]> l).
    cbn [map data_section]. rewrite IH by exact Hi. reflexivity.
Qed.

Lemma marked_active (i : nat) (it : nav_item) (items : list nav_item) :
  items !! i = Some it ->
  List.filter nav_active
    (<[ i := {| data_section := data_section it; nav_active := true |} ]>
       (map (fun n => {| data_section := data_section n; nav_active := false |}) items))
  = [{| data_section := data_section it; nav_active := true |}].
Proof.
  assert (Hnone : forall l : list nav_item,
            List.filter nav_active
              (map (fun n => {| data_section := data_section n; nav_active := false |}) l)
            = []).
  { induction l as [|x l IH]; [reflexivity | exact IH]. }
  revert i. induction items as [|x items IH]; intros i Hi; [discriminate|].
  destruct i as [|i].
  - cbn. rewrite Hnone. reflexivity.
  - cbn [map]. change (<[S i:=?y]> (?a :: ?l)) with (a :: <[i:=y]> l).
    cbn [List.filter nav_active]. apply IH. exact Hi.
Qed.

Lemma regions_ok_has_region (d : document) (i : nat) (it : nav_item) :
  regions_ok d = true -> nav_items d !! i = Some it ->
  has_region (data_section it) (elements d) = true.
Proof.
  unfold regions_ok. intros H Hi. rewrite forallb_forall in H.
  apply H. apply list_elem_of_In. eapply list_elem_of_lookup_2. exact Hi.
Qed.

Lemma nav_click_effect (i : nat) (it : nav_item) (w : admin) :
  nav_items (doc w) !! i = Some it ->
  let w' := step (NavClick i) w in
  currentSection w' = data_section it
  /\ elements (doc w')
     = addClass_by_id (data_section it +:+ "-section") "active"
         (removeClass "content-section" "active" (elements (doc w)))
  /\ nav_items (doc w')
     = <[ i := {| data_section := data_section it; nav_active := true |} ]>
         (map (fun n => {| data_section := data_section n; nav_active := false |})
            (nav_items (doc w))).
Proof.
  intros Hi. cbn zeta. cbn [step]. unfold nav_item_click. rewrite Hi.
  rewrite showSection_elements. unfold showSection.
  repeat match goal with |- context [if ?b then _ else _] => destruct b end;
    repeat split.
Qed.

Lemma one_section_step (e : event) (w : admin) :
  regions_ok (doc w) = true -> shows_only (currentSection w) (doc w) ->
  regions_ok (doc (step e w)) = true
  /\ shows_only (currentSection (step e w)) (doc (step e w)).
Proof.
  intros Hok Hshow.
  assert (Hcases : (exists i, e = NavClick i) \/ (forall i, e <> NavClick i)).
  { destruct e; try (right; discriminate). left. eauto. }
  destruct Hcases as [[i ->] | Hother].
  - destruct (nav_items (doc w) !! i) as [it|] eqn:Hi.
    + destruct (nav_click_effect i it w Hi) as (Hc & He & Hn).
      pose proof (regions_ok_has_region _ _ _ Hok Hi) as Hreg.
      split.
      * unfold regions_ok. rewrite He, Hn.
        apply (regions_ok_by_names (elements (doc w)) _ (nav_items (doc w))).
        -- intros section. symmetry. apply has_region_same_shape, switch_keeps_shape.
        -- apply marked_names, Hi.
        -- exact Hok.
      * unfold shows_only. rewrite Hc, He.
        unfold has_region in Hreg.
        destruct (List.find _ (elements (doc w))) as [e|] eqn:Hfind; [|discriminate].
        apply region_switch with (e := e); assumption.
    + cbn [step]. unfold nav_item_click. rewrite Hi. split; assumption.
  - destruct (step_keeps_layout e w Hother) as (He & Hn & Hc).
    unfold regions_ok, shows_only. rewrite He, Hn, Hc. split; assumption.
Qed.

(** On a page whose sidebar links all have their content region, and which
    is delivered with the dashboard region alone on display, every run of the
    panel keeps exactly one content region on display, the one of the current
    section; and a click on a sidebar link leaves that link the only active
    one. *)
Theorem one_section_on_display (template : document) (evs : list event) :
  regions_ok template = true ->
  shows_only "dashboard" template ->
  let w := run evs (ready template) in
  regions_ok (doc w) = true
  /\ shows_only (currentSection w) (doc w)
  /\ (forall i it,
        nav_items (doc w) !! i = Some it ->
        List.filter nav_active (nav_items (doc (step (NavClick i) w)))
        = [{| data_section := data_section it; nav_active := true |}]
        /\ shows_only (data_section it) (doc (step (NavClick i) w))).
Proof.
  intros Hok Hshow w.
  assert (Hinv : regions_ok (doc w) = true /\ shows_only (currentSection w) (doc w)).
  { subst w. unfold run.
    assert (H0 : regions_ok (doc (ready template)) = true
                 /\ shows_only (currentSection (ready template)) (doc (ready template)))
      by (split; assumption).
    revert H0. generalize (ready template).
    induction evs as [|e evs IH]; intros w0 [H1 H2]; [split; assumption|].
    cbn [foldl]. apply IH. apply one_section_step; assumption. }
  destruct Hinv as [H1 H2]. split; [exact H1|]. split; [exact H2|].
  intros i it Hi.
  destruct (nav_click_effect i it w Hi) as (Hc & He & Hn).
  split.
  - rewrite Hn. apply marked_active, Hi.
  - destruct (one_section_step (NavClick i) w H1 H2) as [_ H].
    rewrite Hc in H. exact H.
Qed.

Lemma one_section_on_display_witness :
  shows_only "downloads"
    (doc (run [NavClick 2; Tick 30000; TimerFires 1; NavClick 3]
            (ready example_template))).
Proof.
  exact (proj1 (proj2 (one_section_on_display example_template
                         [NavClick 2; Tick 30000; TimerFires 1; NavClick 3]
                         eq_refl
                         (ex_intro _ _ (conj eq_refl eq_refl))))).
Defined.

End OneSection.

(** ** admin.js: the three intervals *)

Section Intervals.

Import Browser Net Admin Panel AdminMore.

Lemma interval_kept_add (k : nat) (j : task) (p : N) (ts : list timer) (t : timer) :
  interval_kept k j p ts -> tid t <> k -> interval_kept k j p (ts ++ [t]).
Proof.
  intros [Hall Hex] Ht. split.
  - apply Forall_app. split; [exact Hall|].
    constructor; [|constructor]. intros Heq. contradiction.
  - apply Exists_app. left. exact Hex.
Qed.

Lemma interval_kept_filter (k i : nat) (j : task) (p : N) (ts : list timer) :
  interval_kept k j p ts -> i <> k ->
  interval_kept k j p (filter (fun t => tid t ≠ i) ts).
Proof.
  intros [Hall Hex] Hi. split; [apply Forall_filter_timers, Hall|].
  clear Hall. induction Hex as [t ts Ht | t ts _ IH]; rewrite filter_cons.
  - destruct (decide (tid t ≠ i)) as [_|Hn]; [|exfalso; apply Hn; congruence].
    apply Exists_cons_hd, Ht.
  - destruct (decide (tid t ≠ i)); [apply Exists_cons_tl|]; exact IH.
Qed.

Lemma interval_kept_take (k i : nat) (j j' : task) (p : N) (b b' : Browser.browser) :
  interval_kept k j p (timers b) ->
  take_timer i b = Some (j', b') ->
  interval_kept k j p (timers b').
Proof.
  intros Hk Ht. unfold take_timer in Ht.
  destruct (find_timer i b) as [t|] eqn:Hf; [|discriminate].
  destruct (N.leb (due t) (now b)); [|discriminate].
  injection Ht as _ <-. cbn [with_timers timers].
  apply find_timer_In in Hf as [Hin Hid].
  destruct (Nat.eq_dec i k) as [->|Hne].
  - destruct Hk as [Hall Hex].
    rewrite List.Forall_forall in Hall. destruct (Hall t Hin Hid) as [Hj Hp].
    rewrite Hp, Hj. split.
    + apply Forall_app. split.
      * apply Forall_filter_timers. apply List.Forall_forall. exact Hall.
      * constructor; [|constructor]. intros _. split; reflexivity.
    + apply Exists_app. right. apply Exists_cons_hd. reflexivity.
  - destruct (period t) as [q|].
    + apply interval_kept_add; [apply interval_kept_filter; assumption | exact Hne].
    + apply interval_kept_filter; assumption.
Qed.

Lemma interval_kept_armed (k : nat) (j : task) (p : N) (b : Browser.browser) :
  interval_kept k j p (timers b) -> interval_armed k j p b.
Proof.
  intros [Hall Hex]. unfold interval_armed, find_timer.
  destruct (List.find (fun t => tid t =? k) (timers b)) as [t|] eqn:Hf.
  - apply find_some in Hf as [Hin Hid]. apply Nat.eqb_eq in Hid.
    rewrite List.Forall_forall in Hall. destruct (Hall t Hin Hid) as [Hj Hp].
    destruct t as [i d q j0]. cbn [tid job period] in *. subst.
    exists d. reflexivity.
  - exfalso. apply List.Exists_exists in Hex as (t & Hin & Hid).
    pose proof (find_none _ _ Hf t Hin) as Hn. cbn beta in Hn.
    apply Nat.eqb_neq in Hn. contradiction.
Qed.

Lemma intervals_inv_fresh_timeout (j : task) (d : N) (w : admin) (b : Browser.browser) :
  intervals_inv w ->
  timers b = timers (browser w)
             ++ [{| tid := next_tid (browser w); due := d; period := None; job := j |}] ->
  next_tid b = S (next_tid (browser w)) ->
  intervals_inv (set_browser b w).
Proof.
  intros (Hn & Ha & H1 & H2 & H3) Ht Hnext. unfold intervals_inv.
  cbn [set_browser browser autoSaveTimeout]. rewrite Ht, Hnext.
  split; [lia|]. split; [exact Ha|].
  split; [|split]; (apply interval_kept_add; [assumption | cbn [tid]; lia]).
Qed.

Lemma intervals_inv_showAlert (m t : string) (w : admin) :
  intervals_inv w -> intervals_inv (showAlert m t w).
Proof.
  intros H.
  exact (intervals_inv_fresh_timeout (AlertTimeout (next_aid (browser w)))
           (now (browser w) + 5000)%N w (browser (showAlert m t w)) H eq_refl eq_refl).
Qed.

Lemma intervals_inv_ready (template : document) : intervals_inv (ready template).
Proof.
  unfold intervals_inv. cbn [ready init loadDashboardData ajax on_browser set_browser
    browser autoSaveTimeout setInterval snd with_timers timers next_tid fresh app
    set_sent set_awaiting].
  split; [cbn; lia|]. split; [discriminate|].
  unfold interval_kept.
  split; [|split]; (split;
    [ repeat (constructor; [cbn [tid job period]; intros Hk;
                            first [discriminate Hk | split; reflexivity]|]);
      constructor
    | first [ apply Exists_cons_hd; reflexivity
            | apply Exists_cons_tl, Exists_cons_hd; reflexivity
            | apply Exists_cons_tl, Exists_cons_tl, Exists_cons_hd; reflexivity ] ]).
Qed.

Lemma intervals_inv_run (evs : list event) (w : admin) :
  intervals_inv w -> intervals_inv (run evs w).
Proof.
  apply (run_preserves intervals_inv); try (intros; assumption).
  - apply intervals_inv_showAlert.
  - intros i j b w' (Hn & Ha & H1 & H2 & H3) Ht. unfold intervals_inv.
    cbn [set_browser browser autoSaveTimeout].
    assert (Hnext : next_tid b = next_tid (browser w')).
    { unfold take_timer in Ht. destruct (find_timer i (browser w')); [|discriminate].
      destruct (N.leb _ _); [|discriminate]. injection Ht as _ <-. reflexivity. }
    rewrite Hnext. split; [exact Hn|]. split; [exact Ha|].
    split; [|split]; (eapply interval_kept_take; eassumption).
  - intros a w' H.
    exact (intervals_inv_fresh_timeout (FadeDone a)
             (now (browser w') + fade_duration)%N w'
             (alert_timeout a (browser w')) H eq_refl eq_refl).
  - intros w' (Hn & Ha & H1 & H2 & H3). unfold settings_form_input.
    cbn [setTimeout]. unfold intervals_inv.
    cbn [set_autoSaveTimeout set_browser browser autoSaveTimeout with_timers
         timers next_tid].
    assert (Hnext : next_tid (clearTimeout (autoSaveTimeout w') (browser w'))
                    = next_tid (browser w'))
      by (destruct (autoSaveTimeout w'); reflexivity).
    assert (Hkeep : forall k j p, k < 4 ->
              interval_kept k j p (timers (browser w')) ->
              interval_kept k j p
                (timers (clearTimeout (autoSaveTimeout w') (browser w')))).
    { intros k j p Hk H. destruct (autoSaveTimeout w') as [old|] eqn:Hold; [|exact H].
      cbn [clearTimeout with_timers timers]. apply interval_kept_filter; [exact H|].
      specialize (Ha old eq_refl). lia. }
    rewrite Hnext.
    split; [lia|]. split; [intros id [= <-]; exact Hn|].
    split; [|split];
      (apply interval_kept_add; [apply Hkeep; [lia | assumption] | cbn [tid]; lia]).
  - intros r w' Hw. unfold session_check_done.
    destruct r as [status error|message|p]; try exact Hw.
    destruct ((status =? 401) && negb (sessionWarningShown w')); [|exact Hw].
    apply intervals_inv_showAlert. exact Hw.
Qed.

(** The three intervals the page arms when it loads, the refresh every 30 s,
    the memory monitor every 30 s and the session probe every 5 min, are
    pending after every run of the panel: nothing cancels them, the
    [clearTimeout] of the settings form included, and each firing arms them
    again under the same identifier. *)
Theorem intervals_stay_armed (template : document) (evs : list event) :
  let b := browser (run evs (ready template)) in
  interval_armed 1 AutoRefresh 30000 b
  /\ interval_armed 2 MemoryMonitor 30000 b
  /\ interval_armed 3 SessionCheck 300000 b.
Proof.
  cbn zeta.
  destruct (intervals_inv_run evs _ (intervals_inv_ready template))
    as (_ & _ & H1 & H2 & H3).
  repeat split; apply interval_kept_armed; assumption.
Qed.

End Intervals.

(** ** main.js: a download, from the click to the file *)

Section DownloadFlow.

Import Browser Net Main TextMore MainMore.

(** A download once the information of a video is held and the download
    buttons are enabled.  The click shows
    the overlay and sends one request carrying the trimmed URL, the format
    of the button and the language selected.  A response that is [ok] hides
    the overlay and hands over exactly one file, named by the
    Content-Disposition header when it gives a name and [subtitle.] plus the
    format otherwise.  Any other answer hands over no file and shows an
    error that starts with the download prefix; a refusal whose body has no
    message is reported as [Download failed]. *)
Theorem download_flow (p : page) (info : video_info) (format : string)
    (header : option string) :
  currentVideoInfo p = Some info ->
  downloads_disabled p = false ->
  let req := DownloadSubtitle (Text.trim (youtube_url p)) format (source_language p) in
  let n := length (awaiting p) in
  let p1 := step (DownloadClick format) p in
  let named :=
    match header with
    | Some h => if Text.truthy h then disposition_filename h else None
    | None => None
    end in
  sent p1 = sent p ++ [req] /\ awaiting p1 = awaiting p ++ [req]
  /\ loading_overlay p1 = true /\ saved_files p1 = saved_files p
  /\ (let p2 := step (Answer n (Success (FileOk named))) p1 in
      saved_files p2 = saved_files p ++ [download_name format header]
      /\ loading_overlay p2 = false /\ awaiting p2 = awaiting p
      /\ sent p2 = sent p ++ [req])
  /\ (forall r, (forall x, r <> Success x) ->
        let p2 := step (Answer n r) p1 in
        saved_files p2 = saved_files p
        /\ loading_overlay p2 = false /\ awaiting p2 = awaiting p
        /\ exists reason,
             p2 = showAlert ("Lỗi tải xuống: " +:+ reason) "error"
                    (hideLoading (with_requests (sent p1) (awaiting p) p1))
             /\ (r = Refused "" -> reason = "Download failed")
             /\ (forall m, m <> "" -> r = Refused m -> reason = m)
             /\ (forall status error, r = Failure status error -> reason = error)).
Proof.
  intros Hinfo Hen req n p1 named.
  assert (Hp1 : p1 = send req (showLoading p)).
  { subst p1. cbn [step]. rewrite Hen. unfold btn_download_click. rewrite Hinfo.
    reflexivity. }
  assert (Hstep : forall r,
            step (Answer n r) p1
            = downloadSubtitle_done format r (with_requests (sent p1) (awaiting p) p1)).
  { intros r. cbn [step]. unfold answer. rewrite Hp1.
    change (awaiting (send req (showLoading p))) with (awaiting p ++ [req]).
    unfold n. rewrite lookup_snoc, delete_snoc. reflexivity. }
  clearbody p1. subst p1.
  split; [reflexivity|]. split; [reflexivity|]. split; [reflexivity|].
  split; [reflexivity|]. split.
  - cbv zeta. rewrite Hstep. repeat split.
  - intros r Hr. cbv zeta. rewrite Hstep.
    destruct r as [status error|message|x]; [| |exfalso; exact (Hr x eq_refl)].
    + repeat split. exists error. repeat split; try (intros; congruence).
    + repeat split.
      exists (if Text.truthy message then message else "Download failed").
      repeat split; try (intros; congruence).
      * intros [= ->]. reflexivity.
      * intros m Hm [= ->]. destruct m; [contradiction | reflexivity].
Qed.

Lemma download_flow_witness :
  let info := {| thumbnail := "t.jpg"; title := "A video"; uploader := "someone";
                 duration := 61; view_count := 1200 |} in
  let p := run [ UrlTyped " https://youtu.be/abc123 "; GetInfoClick;
                 Answer 0 (Success (InfoOk info [])) ] (init 1) in
  saved_files
    (step (Answer 0 (Success (FileOk (Some "A video.srt"))))
       (step (DownloadClick "srt") p))
  = ["A video.srt"].
Proof.
  cbv zeta.
  exact (proj1 (proj1 (proj2 (proj2 (proj2 (proj2
           (download_flow
              (run [ UrlTyped " https://youtu.be/abc123 "; GetInfoClick;
                     Answer 0 (Success (InfoOk
                        {| thumbnail := "t.jpg"; title := "A video";
                           uploader := "someone"; duration := 61;
                           view_count := 1200 |} [])) ] (init 1))
              {| thumbnail := "t.jpg"; title := "A video"; uploader := "someone";
                 duration := 61; view_count := 1200 |}
              "srt" (Some "attachment; filename='A video.srt'") eq_refl eq_refl))))))).
Defined.

End DownloadFlow.
